(** * The resilient outbound call gateway

    A shallow embedding of [core/llm_client.py] and
    [core/vertex_ai_client.py]: the token-bucket rate limiter, the circuit
    breaker, the budget tracker, the deterministic fallback generator and
    the two call orchestrators ([call_llm] and [VertexAIClient.call_model]).

    Conventions of the embedding.
    - Python [float] values (times, token balances, costs) are exact
      rationals [Q], added and compared as the code adds and compares them,
      without rounding; Python [int] values are [Z].
    - A Python [str] is a [string] whose characters are the code points
      below 256.
    - A dictionary keyed by strings is a [gmap string _].
    - Code that can raise returns an [outcome]; code that reads the clock,
      sleeps, prints or calls the provider runs in a state monad over a
      world that holds the clock, the output and the mutable objects.
    - [with self.lock:] blocks are the atomic units of the model.
    - [LlmClient] takes [print], [time.sleep] and the conversion of an
      integer to a float to succeed; [OnPlatform] is [call_llm] once more
      with the platform able to refuse them, and the two are proved to run
      alike when it refuses nothing. *)

From Stdlib Require Import ZArith QArith Qminmax String Ascii List Bool Lia Lqa.
From stdpp Require Import gmap strings.
Import ListNotations.

Local Open Scope Z_scope.
Local Open Scope string_scope.

(** ** Python values and exceptions *)

Module Py.

(** The exceptions the modelled code raises or lets through. *)
Inductive exn : Type :=
| Exception (msg : string)
| TypeError
| ZeroDivisionError
| ValueError
| OverflowError
| UnicodeEncodeError.

Inductive outcome (A : Type) : Type :=
| Returns (a : A)
| Raises (e : exn).
Arguments Returns {A} a.
Arguments Raises {A} e.

Definition code (c : ascii) : nat := nat_of_ascii c.

(** [str.lower] on one character: A-Z and the upper-case letters of
    Latin-1 (0xC0-0xDE without the multiplication sign 0xD7). *)
Definition lower_char (c : ascii) : ascii :=
  let n := code c in
  if ((65 <=? n) && (n <=? 90))%nat then ascii_of_nat (n + 32)
  else if ((192 <=? n) && (n <=? 222) && negb (n =? 215))%nat
       then ascii_of_nat (n + 32)
       else c.

Fixpoint lower (s : string) : string :=
  match s with
  | EmptyString => EmptyString
  | String c s' => String (lower_char c) (lower s')
  end.

Fixpoint startswith (p s : string) : bool :=
  match p, s with
  | EmptyString, _ => true
  | String a p', String b s' => if Ascii.eqb a b then startswith p' s' else false
  | String _ _, EmptyString => false
  end.

(** [sub in s] *)
Fixpoint contains (sub s : string) : bool :=
  if startswith sub s then true
  else match s with
       | EmptyString => false
       | String _ s' => contains sub s'
       end.

(** [str.isspace] on one character. *)
Definition isspace (c : ascii) : bool :=
  let n := code c in
  (((9 <=? n) && (n <=? 13)) || ((28 <=? n) && (n <=? 32))
   || (n =? 133) || (n =? 160))%nat.

Fixpoint count_words (in_word : bool) (s : string) : nat :=
  match s with
  | EmptyString => O
  | String c s' =>
      if isspace c then count_words false s'
      else ((if in_word then 0 else 1) + count_words true s')%nat
  end.

(** [len(s.split())] *)
Definition split_len (s : string) : Z := Z.of_nat (count_words false s).

(** [range(n)] *)
Definition range (n : Z) : list Z := map Z.of_nat (seq 0 (Z.to_nat n)).

(** The least integer that does not convert to a [float]: the middle
    between the largest double, [2^1024 - 2^971], and [2^1024], which rounds
    to the even neighbour [2^1024]. *)
Definition float_limit : Z := (2 ^ 1024 - 2 ^ 970)%Z.

(** An [int] where a [float] is needed ([n + 1.3], [n / 1000.0]): beyond
    the range of the doubles the conversion raises. *)
Definition float_of_int (n : Z) : outcome Q :=
  if (Z.abs n <? float_limit)%Z then Returns (inject_Z n) else Raises OverflowError.

End Py.

Import Py.

(** ** The process environment: clock, randomness, output

    What the code reaches through [time], [random], [os.getenv], [print]
    and [logging].  The behaviour of the outside is fixed by an [Env]:
    how long the process is delayed before each clock reading, what each
    draw of [random.uniform(0, 1)] gives, the environment variables.  The
    mutable part is [Sys.t]. *)

Module Sys.

Record Env : Type := {
  drift : nat -> Q;        (* time that passes before the n-th reading of the clock *)
  uniform01 : nat -> Q;    (* the n-th value of random.uniform(0, 1) *)
  getenv : string -> option string
}.

(** The lines the code prints or logs, with the values they interpolate. *)
Inductive message : Type :=
| BudgetAlert (usage_pct daily_spent daily_budget : Q)
| BudgetExceededUsingFallback
| RateLimitReached (wait_time : Q)
| AttemptFailed (attempt max_retries : Z) (e : exn)
| AttemptFailedV (attempt : Z) (e : exn)
| RetryingIn (wait_time : Q)
| RetriesExhausted (max_retries : Z)
| Calling (model : string) (attempt max_retries : Z)
| ResponseFrom (model : string) (chars : Z) (cost : Q)
| CircuitBreakerOpened
| UnknownModel (model : string)
| DailyBudgetExceeded (daily_total daily_budget : Q)
| CostLine (total_cost daily_total total_costs : Q)
| RateLimited (wait_time : Q)
| VertexInitialized (project : option string) (location : string)
| VertexInitFailed.

Inductive level : Type := PRINT | INFO | WARNING | ERROR.

Record t : Type := {
  clock : Q;               (* the wall clock *)
  reads : nat;             (* readings of the clock so far *)
  draws : nat;             (* draws of random.uniform so far *)
  provider_calls : nat;    (* invocations of the provider so far *)
  output : list (level * message)
}.

Definition M (A : Type) : Type := t -> A * t.

Definition ret {A} (a : A) : M A := fun s => (a, s).

Definition bind {A B} (m : M A) (k : A -> M B) : M B :=
  fun s => let (a, s') := m s in k a s'.

Section Ops.
Variable env : Env.

(** [time.time()] *)
Definition time_time : M Q := fun s =>
  let now := (clock s + drift env (reads s))%Q in
  (now, {| clock := now; reads := S (reads s); draws := draws s;
           provider_calls := provider_calls s; output := output s |}).

(** [time.sleep(d)], [await asyncio.sleep(d)] *)
Definition sleep (d : Q) : M unit := fun s =>
  (tt, {| clock := (clock s + d)%Q; reads := reads s; draws := draws s;
          provider_calls := provider_calls s; output := output s |}).

(** [random.uniform(0, 1)] *)
Definition random_uniform : M Q := fun s =>
  (uniform01 env (draws s),
   {| clock := clock s; reads := reads s; draws := S (draws s);
      provider_calls := provider_calls s; output := output s |}).

Definition emit (l : level) (m : message) : M unit := fun s =>
  (tt, {| clock := clock s; reads := reads s; draws := draws s;
          provider_calls := provider_calls s;
          output := output s ++ [(l, m)] |}).

(** One invocation of the provider: the call is counted and its
    outcome is read from [answers]. *)
Definition invoke {A} (answers : nat -> outcome A) : M (outcome A) := fun s =>
  (answers (provider_calls s),
   {| clock := clock s; reads := reads s; draws := draws s;
      provider_calls := S (provider_calls s); output := output s |}).
End Ops.

End Sys.

Declare Scope sys_scope.
Delimit Scope sys_scope with sys.
Notation "x <- m ;; k" := (Sys.bind m (fun x => k))
  (at level 100, m at next level, right associativity) : sys_scope.
Notation "m ;;; k" := (Sys.bind m (fun _ => k))
  (at level 100, right associativity) : sys_scope.

(** ** Code that can raise

    [Eff.M St A]: code that acts on the process environment and on mutable
    objects [St], and returns an [A] or raises. *)

Module Eff.

Definition M (St A : Type) : Type := St -> Sys.M (outcome A * St).

Section Monad.
Context {St : Type}.

Definition ret {A} (a : A) : M St A := fun st => Sys.ret (Returns a, st).

Definition raise {A} (e : exn) : M St A := fun st => Sys.ret (Raises e, st).

Definition bind {A B} (m : M St A) (k : A -> M St B) : M St B := fun st =>
  Sys.bind (m st) (fun r =>
    match r with
    | (Returns a, st') => k a st'
    | (Raises e, st') => Sys.ret (Raises e, st')
    end).

(** [try: m except Exception as e: h e] *)
Definition try_except {A} (m : M St A) (h : exn -> M St A) : M St A := fun st =>
  Sys.bind (m st) (fun r =>
    match r with
    | (Returns a, st') => Sys.ret (Returns a, st')
    | (Raises e, st') => h e st'
    end).

Definition lift {A} (m : Sys.M A) : M St A := fun st =>
  Sys.bind m (fun a => Sys.ret (Returns a, st)).

Definition get : M St St := fun st => Sys.ret (Returns st, st).

Definition put (st : St) : M St unit := fun _ => Sys.ret (Returns tt, st).
End Monad.

End Eff.

Declare Scope eff_scope.
Delimit Scope eff_scope with eff.
Notation "x <- m ;; k" := (Eff.bind m (fun x => k))
  (at level 100, m at next level, right associativity) : eff_scope.
Notation "m ;;; k" := (Eff.bind m (fun _ => k))
  (at level 100, right associativity) : eff_scope.

Definition Qgt_bool (a b : Q) : bool := negb (Qle_bool a b).
Definition Qge_bool (a b : Q) : bool := Qle_bool b a.

(** ** core/llm_client.py *)

Module LlmClient.

(** *** class RateLimiter *)
Module RateLimiter.

Record t : Type := {
  calls_per_minute : Z;
  tokens : Q;
  max_tokens : Z;
  last_refill : Q
}.

Section Methods.
Variable env : Sys.Env.
Local Open Scope sys_scope.

Definition __init__ (calls_per_minute : Z) : Sys.M t :=
  now <- Sys.time_time env ;;
  Sys.ret {| calls_per_minute := calls_per_minute;
             tokens := inject_Z calls_per_minute;
             max_tokens := calls_per_minute;
             last_refill := now |}.

Definition _refill (self : t) : Sys.M t :=
  now <- Sys.time_time env ;;
  let elapsed := (now - last_refill self)%Q in
  let tokens_to_add := (elapsed * (inject_Z (calls_per_minute self) / 60))%Q in
  Sys.ret {| calls_per_minute := calls_per_minute self;
             tokens := Qmin (inject_Z (max_tokens self))
                            (tokens self + tokens_to_add)%Q;
             max_tokens := max_tokens self;
             last_refill := now |}.

Definition acquire (self : t) : Sys.M (bool * t) :=
  self <- _refill self ;;
  if Qge_bool (tokens self) 1
  then Sys.ret (true, {| calls_per_minute := calls_per_minute self;
                         tokens := (tokens self - 1)%Q;
                         max_tokens := max_tokens self;
                         last_refill := last_refill self |})
  else Sys.ret (false, self).
End Methods.

End RateLimiter.

(** *** class CircuitBreaker *)
Module CircuitBreaker.

Inductive state_t : Type := CLOSED | OPEN | HALF_OPEN.

Record t : Type := {
  failure_threshold : Z;
  timeout : Z;
  failure_count : Z;
  last_failure_time : option Q;
  state : state_t
}.

Definition __init__ (failure_threshold timeout : Z) : t :=
  {| failure_threshold := failure_threshold; timeout := timeout;
     failure_count := 0; last_failure_time := None; state := CLOSED |}.

Definition set_state (st : state_t) (self : t) : t :=
  {| failure_threshold := failure_threshold self; timeout := timeout self;
     failure_count := failure_count self;
     last_failure_time := last_failure_time self; state := st |}.

(** Lines 77-79: the bookkeeping after [func] has returned. *)
Definition on_success (self : t) : t :=
  {| failure_threshold := failure_threshold self; timeout := timeout self;
     failure_count := 0;
     last_failure_time := last_failure_time self; state := CLOSED |}.

(** Lines 82-86: the bookkeeping after [func] has raised; [now] is the
    value of [time.time()] on line 84. *)
Definition on_failure (now : Q) (self : t) : t :=
  let count := failure_count self + 1 in
  {| failure_threshold := failure_threshold self; timeout := timeout self;
     failure_count := count;
     last_failure_time := Some now;
     state := if (count >=? failure_threshold self)%Z then OPEN else state self |}.

Definition breaker_open : exn := Exception "Circuit breaker is OPEN".

Section Methods.
Variable env : Sys.Env.
Local Open Scope sys_scope.

(** Lines 68-73: the check made before [func] is called.  The clock
    is read only when the state is OPEN; subtracting [None] from a
    float is a [TypeError]. *)
Definition precheck (self : t) : Sys.M (outcome unit * t) :=
  match state self with
  | OPEN =>
      now <- Sys.time_time env ;;
      match last_failure_time self with
      | None => Sys.ret (Raises TypeError, self)
      | Some last =>
          if Qgt_bool (now - last)%Q (inject_Z (timeout self))
          then Sys.ret (Returns tt, set_state HALF_OPEN self)
          else Sys.ret (Raises breaker_open, self)
      end
  | _ => Sys.ret (Returns tt, self)
  end.

(** [call(func)]: [func] stands for the call of the guarded function on its arguments;
    it acts on the process environment and not on the breaker. *)
Definition call {A} (func : Sys.M (outcome A)) (self : t)
  : Sys.M (outcome A * t) :=
  a <- precheck self ;;
  let '(checked, self) := a in
  match checked with
  | Raises e => Sys.ret (Raises e, self)
  | Returns _ =>
      r <- func ;;
      match r with
      | Returns result => Sys.ret (Returns result, on_success self)
      | Raises e =>
          now <- Sys.time_time env ;;
          Sys.ret (Raises e, on_failure now self)
      end
  end.
End Methods.

End CircuitBreaker.

(** *** class BudgetTracker *)
Module BudgetTracker.

Record t : Type := {
  daily_budget : Q;
  daily_spent : Q;
  reset_time : Q;
  model_costs : gmap string Q      (* per 1K tokens *)
}.

Definition set_spent (spent reset : Q) (self : t) : t :=
  {| daily_budget := daily_budget self; daily_spent := spent;
     reset_time := reset; model_costs := model_costs self |}.

Definition default_model_costs : gmap string Q :=
  <["gemini-pro" := 0.00025%Q]>
    (<["gpt-4o" := 0.03%Q]> (<["claude-3" := 0.015%Q]> ∅)).

(** [self.model_costs.get(model, 0.01)] *)
Definition price (self : t) (model : string) : Q :=
  match model_costs self !! model with
  | Some p => p
  | None => 0.01%Q
  end.

Section Methods.
Variable env : Sys.Env.
Local Open Scope sys_scope.

Definition __init__ (daily_budget_usd : Q) : Sys.M t :=
  now <- Sys.time_time env ;;
  Sys.ret {| daily_budget := daily_budget_usd; daily_spent := 0;
             reset_time := (now + 86400)%Q;
             model_costs := default_model_costs |}.

Definition _reset_if_needed (self : t) : Sys.M t :=
  now <- Sys.time_time env ;;
  if Qgt_bool now (reset_time self)
  then now' <- Sys.time_time env ;;
       Sys.ret (set_spent 0 (now' + 86400)%Q self)
  else Sys.ret self.

Definition check_budget (estimated_cost : Q) (self : t) : Sys.M (bool * t) :=
  self <- _reset_if_needed self ;;
  Sys.ret (Qle_bool (daily_spent self + estimated_cost)%Q (daily_budget self), self).

(** The method returns nothing; the division by [daily_budget] on
    line 127 raises when the budget is zero, after the spend has been
    added. *)
Definition record_usage (model : string) (tokens : Z) (self : t)
  : Sys.M (outcome unit * t) :=
  self <- _reset_if_needed self ;;
  let cost := ((inject_Z tokens / 1000) * price self model)%Q in
  let self := set_spent (daily_spent self + cost)%Q (reset_time self) self in
  if Qeq_bool (daily_budget self) 0
  then Sys.ret (Raises ZeroDivisionError, self)
  else
    let usage_pct := ((daily_spent self / daily_budget self) * 100)%Q in
    if Qge_bool usage_pct 90
    then Sys.emit Sys.PRINT
           (Sys.BudgetAlert usage_pct (daily_spent self) (daily_budget self)) ;;;
         Sys.ret (Returns tt, self)
    else Sys.ret (Returns tt, self).
End Methods.

End BudgetTracker.

(** *** The module: global instances, [call_llm], the fallback *)

(** The dictionary [call_llm] returns: its four keys. *)
Record Response : Type := {
  text : string;
  tokens : Z;
  model : string;
  finish_reason : string
}.

(** The three module-level instances. *)
Record Globals : Type := {
  rate_limiter : RateLimiter.t;
  circuit_breaker : CircuitBreaker.t;
  budget_tracker : BudgetTracker.t
}.

(** Code of the module acts on the process environment and on the
    global instances, and returns or raises. *)
Definition G (A : Type) : Type := Eff.M Globals A.

(** How a pass through the body of the retry loop ends. *)
Inductive control : Type :=
| Continue
| Return (result : Response).

(** Lines 175-176: the cost estimated for the budget check. *)
Definition estimated_cost (prompt : string) (max_tokens : Z) : Q :=
  let estimated_tokens := (inject_Z max_tokens + inject_Z (split_len prompt) * 1.3)%Q in
  ((estimated_tokens / 1000) * 0.00025)%Q.

Definition fallback_text (prompt_lower : string) : string :=
  if contains "bundle" prompt_lower then
    "Suggested bundle: CRM+Support with expected uplift 8%"
  else if contains "price" prompt_lower || contains "pricing" prompt_lower then
    "Recommend Hybrid: $99 base + $0.10/workflow + $0.005/1k tokens"
  else if contains "cost" prompt_lower then
    "Cost analysis complete. Median cost per customer: $47.50"
  else if contains "compliance" prompt_lower || contains "tax" prompt_lower then
    "Compliance check passed. VAT rates applied per region."
  else if contains "recommend" prompt_lower then
    "Recommendation: Proceed with tiered pricing strategy"
  else
    "Analysis complete. Proceeding with standard configuration.".

Section Module.
Variable env : Sys.Env.

(** The outcome of the n-th invocation of [_call_gemini] on given
    arguments.  The body in the source is a demonstration stub (it
    sleeps and returns one of four canned answers); its docstring gives
    the production call to the provider, which can raise.  Taking the
    outcome from outside covers both. *)
Variable gemini : nat -> string -> Z -> Q -> outcome Response.

Local Open Scope eff_scope.

Definition _call_gemini (prompt : string) (max_tokens : Z) (temperature : Q)
  : Sys.M (outcome Response) :=
  Sys.invoke (fun n => gemini n prompt max_tokens temperature).

Definition _deterministic_fallback (prompt : string) : G Response :=
  Eff.lift (Sys.sleep 0.1%Q) ;;;
  let prompt_lower := lower prompt in
  let text := fallback_text prompt_lower in
  Eff.ret {| text := text; tokens := split_len text;
          model := "deterministic-fallback"; finish_reason := "complete" |}.

(** The calls on the global instances. *)
Definition rate_limiter_acquire : G bool := fun g =>
  Sys.bind (RateLimiter.acquire env (rate_limiter g)) (fun r =>
    Sys.ret (Returns (fst r),
             {| rate_limiter := snd r; circuit_breaker := circuit_breaker g;
                budget_tracker := budget_tracker g |})).

Definition circuit_breaker_call {A} (func : Sys.M (outcome A)) : G A := fun g =>
  Sys.bind (CircuitBreaker.call env func (circuit_breaker g)) (fun r =>
    Sys.ret (fst r,
             {| rate_limiter := rate_limiter g; circuit_breaker := snd r;
                budget_tracker := budget_tracker g |})).

Definition budget_tracker_check_budget (estimated_cost : Q) : G bool := fun g =>
  Sys.bind (BudgetTracker.check_budget env estimated_cost (budget_tracker g)) (fun r =>
    Sys.ret (Returns (fst r),
             {| rate_limiter := rate_limiter g; circuit_breaker := circuit_breaker g;
                budget_tracker := snd r |})).

Definition budget_tracker_record_usage (model : string) (tokens : Z) : G unit := fun g =>
  Sys.bind (BudgetTracker.record_usage env model tokens (budget_tracker g)) (fun r =>
    Sys.ret (fst r,
             {| rate_limiter := rate_limiter g; circuit_breaker := circuit_breaker g;
                budget_tracker := snd r |})).

(** Lines 185-203: the body of the [try]. *)
Definition try_call (prompt : string) (max_tokens : Z) (temperature : Q) : G control :=
  granted <- rate_limiter_acquire ;;
  if negb granted then
    let wait_time := 1%Q in
    Eff.lift (Sys.emit Sys.PRINT (Sys.RateLimitReached wait_time)) ;;;
    Eff.lift (Sys.sleep wait_time) ;;;
    Eff.ret Continue
  else
    result <- circuit_breaker_call (_call_gemini prompt max_tokens temperature) ;;
    budget_tracker_record_usage "gemini-pro" (tokens result) ;;;
    Eff.ret (Return result).

(** Lines 205-213: the exception handler. *)
Definition on_exception (max_retries attempt : Z) (e : exn) : G control :=
  u <- Eff.lift (Sys.random_uniform env) ;;
  let wait_time := (inject_Z (2 ^ attempt)%Z + u)%Q in
  Eff.lift (Sys.emit Sys.PRINT (Sys.AttemptFailed (attempt + 1) max_retries e)) ;;;
  if (attempt <? max_retries - 1)%Z then
    Eff.lift (Sys.emit Sys.PRINT (Sys.RetryingIn wait_time)) ;;;
    Eff.lift (Sys.sleep wait_time) ;;;
    Eff.ret Continue
  else
    Eff.lift (Sys.emit Sys.PRINT (Sys.RetriesExhausted max_retries)) ;;;
    Eff.ret Continue.

(** Lines 184-213: one pass through the body of the retry loop. *)
Definition attempt_body (prompt : string) (max_tokens : Z) (temperature : Q)
  (max_retries attempt : Z) : G control :=
  Eff.try_except (try_call prompt max_tokens temperature)
                 (on_exception max_retries attempt).

(** [for attempt in attempts: ...]; [None] when the loop runs out. *)
Fixpoint retry_loop (prompt : string) (max_tokens : Z) (temperature : Q)
  (max_retries : Z) (attempts : list Z) : G (option Response) :=
  match attempts with
  | [] => Eff.ret None
  | attempt :: rest =>
      c <- attempt_body prompt max_tokens temperature max_retries attempt ;;
      match c with
      | Return result => Eff.ret (Some result)
      | Continue => retry_loop prompt max_tokens temperature max_retries rest
      end
  end.

(** Line 173: whether the provider is switched on and asked for. *)
Definition gemini_enabled (use_gemini : bool) : bool :=
  match Sys.getenv env "USE_GEMINI" with
  | Some v => String.eqb v "1"
  | None => false
  end && use_gemini.

Definition call_llm (prompt : string) (use_gemini : bool) (max_tokens : Z)
  (temperature : Q) (max_retries : Z) : G Response :=
  if gemini_enabled use_gemini then
    allowed <- budget_tracker_check_budget (estimated_cost prompt max_tokens) ;;
    if negb allowed then
      Eff.lift (Sys.emit Sys.PRINT Sys.BudgetExceededUsingFallback) ;;;
      _deterministic_fallback prompt
    else
      r <- retry_loop prompt max_tokens temperature max_retries (range max_retries) ;;
      match r with
      | Some result => Eff.ret result
      | None => _deterministic_fallback prompt
      end
  else _deterministic_fallback prompt.

End Module.

End LlmClient.

(** ** core/llm_client.py on a platform that can refuse

    [LlmClient] takes every [print] and every [time.sleep] to succeed and
    every integer to convert to a float.  The interpreter can refuse each of
    them: [print] raises when the stream does not take the line (each of the
    six lines this file prints starts with a symbol outside Latin-1, which a
    stream with an ASCII, Latin-1 or cp1252 encoding cannot encode),
    [time.sleep] raises on a delay outside the range of the platform, and an
    integer beyond the doubles does not convert.  [OnPlatform] is the module
    once more with these failures, at the lines where they arise; the
    instances and the provider are those of [LlmClient]. *)

Module Platform.

Record t : Type := {
  stdout : Sys.message -> option exn;  (* what [print] raises on the line, if anything *)
  time_sleep : Q -> option exn         (* what [time.sleep] raises on the delay, if anything *)
}.

(** [print(line, flush=True)]: a line that is refused is not written. *)
Definition print (p : t) (m : Sys.message) : Sys.M (outcome unit) :=
  match stdout p m with
  | None => Sys.bind (Sys.emit Sys.PRINT m) (fun _ => Sys.ret (Returns tt))
  | Some e => Sys.ret (Raises e)
  end.

(** [time.sleep(d)]: a delay that is refused takes no time. *)
Definition sleep (p : t) (d : Q) : Sys.M (outcome unit) :=
  match time_sleep p d with
  | None => Sys.bind (Sys.sleep d) (fun _ => Sys.ret (Returns tt))
  | Some e => Sys.ret (Raises e)
  end.

End Platform.

Module OnPlatform.
Import LlmClient.

Section Tracker.
Variable env : Sys.Env.
Variable platform : Platform.t.
Local Open Scope sys_scope.

(** [BudgetTracker.record_usage], lines 119-129: [tokens / 1000.0]
    converts the count first; the alert of line 129 is printed after the
    spend has been added. *)
Definition record_usage (model : string) (tokens : Z) (self : BudgetTracker.t)
  : Sys.M (outcome unit * BudgetTracker.t) :=
  self <- BudgetTracker._reset_if_needed env self ;;
  match float_of_int tokens with
  | Raises e => Sys.ret (Raises e, self)
  | Returns tokens =>
      let cost := ((tokens / 1000) * BudgetTracker.price self model)%Q in
      let self := BudgetTracker.set_spent (BudgetTracker.daily_spent self + cost)%Q
                                          (BudgetTracker.reset_time self) self in
      if Qeq_bool (BudgetTracker.daily_budget self) 0
      then Sys.ret (Raises ZeroDivisionError, self)
      else
        let usage_pct := ((BudgetTracker.daily_spent self
                           / BudgetTracker.daily_budget self) * 100)%Q in
        if Qge_bool usage_pct 90
        then r <- Platform.print platform
                    (Sys.BudgetAlert usage_pct (BudgetTracker.daily_spent self)
                                     (BudgetTracker.daily_budget self)) ;;
             Sys.ret (r, self)
        else Sys.ret (Returns tt, self)
  end.
End Tracker.

Section Module.
Variable env : Sys.Env.
Variable platform : Platform.t.
Variable gemini : nat -> string -> Z -> Q -> outcome Response.
Local Open Scope eff_scope.

(** A step that acts on the process and not on the instances. *)
Definition step {A} (m : Sys.M (outcome A)) : G A := fun g =>
  Sys.bind m (fun r => Sys.ret (r, g)).

Definition print (m : Sys.message) : G unit := step (Platform.print platform m).

Definition sleep (d : Q) : G unit := step (Platform.sleep platform d).

Definition float (n : Z) : G Q := step (Sys.ret (float_of_int n)).

Definition _deterministic_fallback (prompt : string) : G Response :=
  sleep 0.1%Q ;;;
  let prompt_lower := lower prompt in
  let text := fallback_text prompt_lower in
  Eff.ret {| text := text; tokens := split_len text;
          model := "deterministic-fallback"; finish_reason := "complete" |}.

Definition budget_tracker_record_usage (model : string) (tokens : Z) : G unit := fun g =>
  Sys.bind (record_usage env platform model tokens (budget_tracker g)) (fun r =>
    Sys.ret (fst r,
             {| rate_limiter := rate_limiter g; circuit_breaker := circuit_breaker g;
                budget_tracker := snd r |})).

(** Lines 185-203: the body of the [try]. *)
Definition try_call (prompt : string) (max_tokens : Z) (temperature : Q) : G control :=
  granted <- rate_limiter_acquire env ;;
  if negb granted then
    let wait_time := 1%Q in
    print (Sys.RateLimitReached wait_time) ;;;
    sleep wait_time ;;;
    Eff.ret Continue
  else
    result <- circuit_breaker_call env (_call_gemini gemini prompt max_tokens temperature) ;;
    budget_tracker_record_usage "gemini-pro" (tokens result) ;;;
    Eff.ret (Return result).

(** Lines 205-213: the exception handler.  [(2 ** attempt) + random.uniform(0, 1)]
    converts the power after the draw. *)
Definition on_exception (max_retries attempt : Z) (e : exn) : G control :=
  u <- Eff.lift (Sys.random_uniform env) ;;
  backoff <- float (2 ^ attempt)%Z ;;
  let wait_time := (backoff + u)%Q in
  print (Sys.AttemptFailed (attempt + 1) max_retries e) ;;;
  if (attempt <? max_retries - 1)%Z then
    print (Sys.RetryingIn wait_time) ;;;
    sleep wait_time ;;;
    Eff.ret Continue
  else
    print (Sys.RetriesExhausted max_retries) ;;;
    Eff.ret Continue.

(** Lines 184-213: one pass through the body of the retry loop. *)
Definition attempt_body (prompt : string) (max_tokens : Z) (temperature : Q)
  (max_retries attempt : Z) : G control :=
  Eff.try_except (try_call prompt max_tokens temperature)
                 (on_exception max_retries attempt).

Fixpoint retry_loop (prompt : string) (max_tokens : Z) (temperature : Q)
  (max_retries : Z) (attempts : list Z) : G (option Response) :=
  match attempts with
  | [] => Eff.ret None
  | attempt :: rest =>
      c <- attempt_body prompt max_tokens temperature max_retries attempt ;;
      match c with
      | Return result => Eff.ret (Some result)
      | Continue => retry_loop prompt max_tokens temperature max_retries rest
      end
  end.

(** Lines 173-216.  Line 175, [max_tokens + len(prompt.split()) * 1.3],
    converts [max_tokens]; it stands before the [try], as do the check of
    the budget and the [print] of line 179. *)
Definition call_llm (prompt : string) (use_gemini : bool) (max_tokens : Z)
  (temperature : Q) (max_retries : Z) : G Response :=
  if gemini_enabled env use_gemini then
    requested <- float max_tokens ;;
    let estimated_tokens := (requested + inject_Z (split_len prompt) * 1.3)%Q in
    let estimated_cost := ((estimated_tokens / 1000) * 0.00025)%Q in
    allowed <- budget_tracker_check_budget env estimated_cost ;;
    if negb allowed then
      print Sys.BudgetExceededUsingFallback ;;;
      _deterministic_fallback prompt
    else
      r <- retry_loop prompt max_tokens temperature max_retries (range max_retries) ;;
      match r with
      | Some result => Eff.ret result
      | None => _deterministic_fallback prompt
      end
  else _deterministic_fallback prompt.

End Module.

End OnPlatform.

(** ** core/vertex_ai_client.py *)

Module VertexAI.

(** What [generate_content] hands back: the text, when there is one, and
    the name of the first candidate's finish reason, when there is a
    candidate. *)
Record SdkResponse : Type := {
  sdk_text : option string;
  sdk_finish_reason : option string
}.

(** The dictionary [call_model] returns. *)
Record CallResult : Type := {
  text : string;
  tokens_input : Z;
  tokens_output : Z;
  model : string;
  cost_usd : Q;
  finish_reason : string;
  source : string
}.

(** The dictionary [_call_vertex_ai] returns: no cost, no source yet. *)
Record ProviderResponse : Type := {
  r_text : string;
  r_tokens_input : Z;
  r_tokens_output : Z;
  r_model : string;
  r_finish_reason : string
}.

(** The instance attributes of [VertexAIClient]. *)
Record t : Type := {
  project_id : option string;
  location : string;
  daily_budget_usd : Q;
  force_fallback : bool;
  daily_costs : gmap string (gmap string Q);   (* {date: {model: cost}} *)
  total_costs : Q;
  rate_limit_tokens : Q;
  max_tokens : Z;
  tokens_per_minute : Z;
  last_refill : Q;
  failure_count : Z;
  last_failure_time : option Q;
  circuit_open : bool;
  model_costs : gmap string (Q * Q);           (* input, output: USD per 1M tokens *)
  vertex_ai_initialized : bool
}.

Definition default_model_costs : gmap string (Q * Q) :=
  <["gemini-2.0-flash" := (0.075%Q, 0.30%Q)]>
    (<["gemini-1.5-pro" := (1.25%Q, 5.00%Q)]>
       (<["gemini-1.5-flash" := (0.075%Q, 0.30%Q)]> ∅)).

Definition set_costs (dc : gmap string (gmap string Q)) (total : Q) (self : t) : t :=
  {| project_id := project_id self; location := location self;
     daily_budget_usd := daily_budget_usd self; force_fallback := force_fallback self;
     daily_costs := dc; total_costs := total;
     rate_limit_tokens := rate_limit_tokens self; max_tokens := max_tokens self;
     tokens_per_minute := tokens_per_minute self; last_refill := last_refill self;
     failure_count := failure_count self; last_failure_time := last_failure_time self;
     circuit_open := circuit_open self; model_costs := model_costs self;
     vertex_ai_initialized := vertex_ai_initialized self |}.

Definition set_bucket (tokens refill : Q) (self : t) : t :=
  {| project_id := project_id self; location := location self;
     daily_budget_usd := daily_budget_usd self; force_fallback := force_fallback self;
     daily_costs := daily_costs self; total_costs := total_costs self;
     rate_limit_tokens := tokens; max_tokens := max_tokens self;
     tokens_per_minute := tokens_per_minute self; last_refill := refill;
     failure_count := failure_count self; last_failure_time := last_failure_time self;
     circuit_open := circuit_open self; model_costs := model_costs self;
     vertex_ai_initialized := vertex_ai_initialized self |}.

Definition set_breaker (count : Z) (last : option Q) (open : bool) (self : t) : t :=
  {| project_id := project_id self; location := location self;
     daily_budget_usd := daily_budget_usd self; force_fallback := force_fallback self;
     daily_costs := daily_costs self; total_costs := total_costs self;
     rate_limit_tokens := rate_limit_tokens self; max_tokens := max_tokens self;
     tokens_per_minute := tokens_per_minute self; last_refill := last_refill self;
     failure_count := count; last_failure_time := last;
     circuit_open := open; model_costs := model_costs self;
     vertex_ai_initialized := vertex_ai_initialized self |}.

(** [sum(d.values())] *)
Definition sum_values (d : gmap string Q) : Q :=
  map_fold (fun _ v acc => (acc + v)%Q) 0%Q d.

(** [bool(s)] for an optional string. *)
Definition truthy (s : option string) : bool :=
  match s with
  | Some EmptyString | None => false
  | Some _ => true
  end.

Definition V (A : Type) : Type := Eff.M t A.

(** How a pass through the body of the retry loop ends. *)
Inductive control : Type :=
| Continue
| Return (result : CallResult).

Section Client.
Variable env : Sys.Env.

(** Whether the import of the SDK succeeded, and whether
    [vertexai.init] returns (rather than raises). *)
Variable VERTEX_AI_AVAILABLE : bool.
Variable vertexai_init_ok : bool.

(** The calendar date, as [%Y-%m-%d], of a clock reading. *)
Variable strftime_date : Q -> string.

(** The outcome of the n-th call of the SDK (building the model and the
    generation config, [generate_content], reading the response) on
    given arguments. *)
Variable generate :
  nat -> string -> string -> Z -> Q -> Q -> outcome SdkResponse.

Local Open Scope eff_scope.

Definition __init__ (project_id : option string) (location : string)
  (daily_budget_usd : Q) (force_fallback : bool) : Sys.M t :=
  let project_id :=
    if truthy project_id then project_id
    else Sys.getenv env "GOOGLE_CLOUD_PROJECT" in
  Sys.bind (Sys.time_time env) (fun now =>
  let self initialized :=
    {| project_id := project_id; location := location;
       daily_budget_usd := daily_budget_usd;
       force_fallback := force_fallback;
       daily_costs := ∅; total_costs := 0;
       rate_limit_tokens := 100; max_tokens := 100;
       tokens_per_minute := 100; last_refill := now;
       failure_count := 0; last_failure_time := None;
       circuit_open := false;
       model_costs := default_model_costs;
       vertex_ai_initialized := initialized |} in
  if VERTEX_AI_AVAILABLE && truthy project_id && negb force_fallback then
    if vertexai_init_ok then
      Sys.bind (Sys.emit Sys.INFO (Sys.VertexInitialized project_id location))
               (fun _ => Sys.ret (self true))
    else
      Sys.bind (Sys.emit Sys.WARNING Sys.VertexInitFailed)
               (fun _ => Sys.ret (self false))
  else Sys.ret (self false)).

(** Lines 249-259: the dictionary built from the SDK's response. *)
Definition provider_response (prompt model : string) (response : SdkResponse)
  : ProviderResponse :=
  let input_tokens := split_len prompt in
  let output_tokens :=
    match sdk_text response with
    | Some (String c s) => split_len (String c s)
    | _ => 0
    end in
  {| r_text := match sdk_text response with
               | Some (String c s) => String c s
               | _ => ""
               end;
     r_tokens_input := input_tokens;
     r_tokens_output := output_tokens;
     r_model := model;
     r_finish_reason := match sdk_finish_reason response with
                        | Some name => name
                        | None => "UNKNOWN"
                        end |}.

(** The call handed to the executor: its outcome is fixed when it is
    dispatched. *)
Definition dispatch (prompt model : string) (max_output_tokens : Z)
  (temperature top_p : Q) : Sys.M (outcome SdkResponse) :=
  Sys.invoke (fun n => generate n prompt model max_output_tokens temperature top_p).

(** What the coroutine does with the outcome once it is resumed. *)
Definition receive (prompt model : string) (r : outcome SdkResponse)
  : V ProviderResponse :=
  match r with
  | Raises e => Eff.raise e
  | Returns response => Eff.ret (provider_response prompt model response)
  end.

Definition _call_vertex_ai (prompt model : string) (max_output_tokens : Z)
  (temperature top_p : Q) : V ProviderResponse :=
  r <- Eff.lift (dispatch prompt model max_output_tokens temperature top_p) ;;
  receive prompt model r.

Definition _track_cost (model : string) (input_tokens output_tokens : Z) : V Q :=
  self <- Eff.get ;;
  match model_costs self !! model with
  | None =>
      Eff.lift (Sys.emit Sys.WARNING (Sys.UnknownModel model)) ;;;
      Eff.ret 0%Q
  | Some costs =>
      let input_cost := ((inject_Z input_tokens / 1000000) * fst costs)%Q in
      let output_cost := ((inject_Z output_tokens / 1000000) * snd costs)%Q in
      let total_cost := (input_cost + output_cost)%Q in
      now <- Eff.lift (Sys.time_time env) ;;
      let today := strftime_date now in
      let day := match daily_costs self !! today with
                 | Some d => d
                 | None => ∅
                 end in
      let spent := match day !! model with
                   | Some c => c
                   | None => 0%Q
                   end in
      let day := <[model := (spent + total_cost)%Q]> day in
      let self := set_costs (<[today := day]> (daily_costs self))
                            (total_costs self + total_cost)%Q self in
      Eff.put self ;;;
      let daily_total := sum_values day in
      (if Qgt_bool daily_total (daily_budget_usd self)
       then Eff.lift (Sys.emit Sys.WARNING
                        (Sys.DailyBudgetExceeded daily_total (daily_budget_usd self)))
       else Eff.ret tt) ;;;
      Eff.lift (Sys.emit Sys.INFO
                  (Sys.CostLine total_cost daily_total (total_costs self))) ;;;
      Eff.ret total_cost
  end.

(** Lines 320-331: refill, then take a token; when the bucket is
    short, the time to wait.  The division of line 330 raises when the
    rate is zero. *)
Definition rate_limit_take : V (option Q) :=
  self <- Eff.get ;;
  now <- Eff.lift (Sys.time_time env) ;;
  let elapsed := (now - last_refill self)%Q in
  let tokens_to_add := (elapsed * (inject_Z (tokens_per_minute self) / 60))%Q in
  let self := set_bucket (Qmin (inject_Z (max_tokens self))
                               (rate_limit_tokens self + tokens_to_add)%Q) now self in
  if Qge_bool (rate_limit_tokens self) 1
  then Eff.put (set_bucket (rate_limit_tokens self - 1)%Q (last_refill self) self) ;;;
       Eff.ret None
  else
    Eff.put self ;;;
    if (tokens_per_minute self =? 0)%Z then Eff.raise ZeroDivisionError
    else
      let wait_time := ((1 - rate_limit_tokens self)
                        / (inject_Z (tokens_per_minute self) / 60))%Q in
      Eff.lift (Sys.emit Sys.INFO (Sys.RateLimited wait_time)) ;;;
      Eff.ret (Some wait_time).

(** Line 333: after the wait. *)
Definition rate_limit_resume : V unit :=
  self <- Eff.get ;;
  Eff.put (set_bucket 0%Q (last_refill self) self).

Definition _rate_limit_acquire : V unit :=
  w <- rate_limit_take ;;
  match w with
  | None => Eff.ret tt
  | Some wait_time =>
      Eff.lift (Sys.sleep wait_time) ;;;
      rate_limit_resume
  end.

Definition _fallback_response (prompt model : string) : V CallResult :=
  Eff.lift (Sys.sleep 0.1%Q) ;;;
  let prompt_lower := lower prompt in
  let text := LlmClient.fallback_text prompt_lower in
  Eff.ret {| text := text;
             tokens_input := split_len prompt;
             tokens_output := split_len text;
             model := model;
             cost_usd := 0.0%Q;
             finish_reason := "FALLBACK";
             source := "fallback" |}.

(** Lines 163-178: what follows a response of the provider. *)
Definition on_response (model : string) (response : ProviderResponse) : V CallResult :=
  self <- Eff.get ;;
  Eff.put (set_breaker 0 (last_failure_time self) false self) ;;;
  cost <- _track_cost model (r_tokens_input response) (r_tokens_output response) ;;
  let result := {| text := r_text response;
                   tokens_input := r_tokens_input response;
                   tokens_output := r_tokens_output response;
                   model := r_model response;
                   cost_usd := cost;
                   finish_reason := r_finish_reason response;
                   source := "vertex_ai" |} in
  Eff.lift (Sys.emit Sys.INFO
              (Sys.ResponseFrom model (Z.of_nat (String.length (text result))) cost)) ;;;
  Eff.ret result.

(** Lines 181-187: the bookkeeping of the exception handler. *)
Definition record_failure (attempt : Z) (e : exn) : V unit :=
  self <- Eff.get ;;
  let count := (failure_count self + 1)%Z in
  now <- Eff.lift (Sys.time_time env) ;;
  Eff.put (set_breaker count (Some now) (circuit_open self) self) ;;;
  Eff.lift (Sys.emit Sys.WARNING (Sys.AttemptFailedV (attempt + 1) e)).

(** Lines 180-197: the exception handler. *)
Definition on_exception (prompt model : string) (max_retries attempt : Z) (e : exn)
  : V control :=
  record_failure attempt e ;;;
  self <- Eff.get ;;
  if (failure_count self >=? 5)%Z then
    Eff.put (set_breaker (failure_count self) (last_failure_time self) true self) ;;;
    Eff.lift (Sys.emit Sys.ERROR Sys.CircuitBreakerOpened) ;;;
    fb <- _fallback_response prompt model ;;
    Eff.ret (Return fb)
  else if (attempt <? max_retries - 1)%Z then
    u <- Eff.lift (Sys.random_uniform env) ;;
    let wait_time := (inject_Z (2 ^ attempt)%Z + u)%Q in
    Eff.lift (Sys.emit Sys.INFO (Sys.RetryingIn wait_time)) ;;;
    Eff.lift (Sys.sleep wait_time) ;;;
    Eff.ret Continue
  else
    Eff.lift (Sys.emit Sys.WARNING (Sys.RetriesExhausted max_retries)) ;;;
    fb <- _fallback_response prompt model ;;
    Eff.ret (Return fb).

(** Lines 153-155: the attempt is announced and the call dispatched. *)
Definition begin_attempt (prompt model : string) (max_output_tokens : Z)
  (temperature top_p : Q) (max_retries attempt : Z) : V (outcome SdkResponse) :=
  Eff.lift (Sys.emit Sys.INFO (Sys.Calling model (attempt + 1) max_retries)) ;;;
  Eff.lift (dispatch prompt model max_output_tokens temperature top_p).

(** Lines 155-197: from the provider's answer to the end of the pass. *)
Definition finish_attempt (prompt model : string) (max_retries attempt : Z)
  (r : outcome SdkResponse) : V control :=
  Eff.try_except
    (response <- receive prompt model r ;;
     result <- on_response model response ;;
     Eff.ret (Return result))
    (on_exception prompt model max_retries attempt).

(** Lines 152-197: one pass through the body of the retry loop. *)
Definition attempt_body (prompt model : string) (max_output_tokens : Z)
  (temperature top_p : Q) (max_retries attempt : Z) : V control :=
  r <- begin_attempt prompt model max_output_tokens temperature top_p
                     max_retries attempt ;;
  finish_attempt prompt model max_retries attempt r.

Fixpoint retry_loop (prompt model : string) (max_output_tokens : Z)
  (temperature top_p : Q) (max_retries : Z) (attempts : list Z)
  : V (option CallResult) :=
  match attempts with
  | [] => Eff.ret None
  | attempt :: rest =>
      c <- attempt_body prompt model max_output_tokens temperature top_p
                        max_retries attempt ;;
      match c with
      | Return result => Eff.ret (Some result)
      | Continue => retry_loop prompt model max_output_tokens temperature top_p
                               max_retries rest
      end
  end.

(** Line 144: whether the call goes to the fallback at once. *)
Definition use_fallback (self : t) : bool :=
  negb (vertex_ai_initialized self) || circuit_open self || force_fallback self.

Definition call_model (prompt model : string) (max_output_tokens : Z)
  (temperature top_p : Q) (max_retries : Z) : V CallResult :=
  self <- Eff.get ;;
  if use_fallback self then _fallback_response prompt model
  else
    _rate_limit_acquire ;;;
    r <- retry_loop prompt model max_output_tokens temperature top_p
                    max_retries (range max_retries) ;;
    match r with
    | Some result => Eff.ret result
    | None => _fallback_response prompt model
    end.

(** *** Invocations one after the other *)

Record Request : Type := {
  q_prompt : string;
  q_model : string;
  q_max_output_tokens : Z;
  q_temperature : Q;
  q_top_p : Q;
  q_max_retries : Z
}.

Definition call_request (q : Request) : V CallResult :=
  call_model (q_prompt q) (q_model q) (q_max_output_tokens q)
             (q_temperature q) (q_top_p q) (q_max_retries q).

(** Each call is awaited before the next one is made. *)
Fixpoint call_models (qs : list Request) : V (list CallResult) :=
  match qs with
  | [] => Eff.ret []
  | q :: rest =>
      r <- call_request q ;;
      rs <- call_models rest ;;
      Eff.ret (r :: rs)
  end.

(** *** Overlapping invocations

    [call_model] is a coroutine.  It runs without interruption up to
    an [await] that suspends it: the provider call handed to the
    executor and the sleeps.  While it is suspended the event loop runs
    the other coroutines, on the same instance.  A [task] is where an
    invocation stands; [resume] runs it up to its next suspension (the
    closing sleep of the fallback, after which the instance is not
    touched again, is counted with the piece before it). *)
Inductive task : Type :=
| Created                                   (* not started yet *)
| RateWait                                  (* in the sleep of line 332 *)
| AtProvider (attempt : Z) (pending : outcome SdkResponse)
                                            (* in the await of line 155 *)
| Backoff (next_attempt : Z)                (* in the sleep of line 194 *)
| Done (result : CallResult).

Definition start_attempt (q : Request) (attempt : Z) : V task :=
  if ((0 <=? attempt) && (attempt <? q_max_retries q))%Z then
    r <- begin_attempt (q_prompt q) (q_model q) (q_max_output_tokens q)
                       (q_temperature q) (q_top_p q) (q_max_retries q) attempt ;;
    Eff.ret (AtProvider attempt r)
  else
    fb <- _fallback_response (q_prompt q) (q_model q) ;;
    Eff.ret (Done fb).

Definition resume (q : Request) (tk : task) : V task :=
  match tk with
  | Created =>
      self <- Eff.get ;;
      if use_fallback self then
        fb <- _fallback_response (q_prompt q) (q_model q) ;;
        Eff.ret (Done fb)
      else
        w <- rate_limit_take ;;
        match w with
        | None => start_attempt q 0
        | Some wait_time => Eff.lift (Sys.sleep wait_time) ;;; Eff.ret RateWait
        end
  | RateWait => rate_limit_resume ;;; start_attempt q 0
  | AtProvider attempt pending =>
      c <- finish_attempt (q_prompt q) (q_model q) (q_max_retries q) attempt pending ;;
      match c with
      | Return result => Eff.ret (Done result)
      | Continue => Eff.ret (Backoff (attempt + 1))
      end
  | Backoff attempt => start_attempt q attempt
  | Done result => Eff.ret (Done result)
  end.

(** The event loop resumes the invocations in the order [schedule]
    names them. *)
Definition step (qs : list Request) (i : nat) (pool : list task) : V (list task) :=
  match qs !! i, pool !! i with
  | Some q, Some tk =>
      tk' <- resume q tk ;;
      Eff.ret (<[i := tk']> pool)
  | _, _ => Eff.ret pool
  end.

Fixpoint run (qs : list Request) (schedule : list nat) (pool : list task)
  : V (list task) :=
  match schedule with
  | [] => Eff.ret pool
  | i :: rest =>
      pool' <- step qs i pool ;;
      run qs rest pool'
  end.

(** One invocation resumed on its own until it is done. *)
Fixpoint alone (fuel : nat) (q : Request) (tk : task) : V (option CallResult) :=
  match tk, fuel with
  | Done result, _ => Eff.ret (Some result)
  | _, O => Eff.ret None
  | _, S fuel' =>
      tk' <- resume q tk ;;
      alone fuel' q tk'
  end.

End Client.

(** *** Reports *)

(** The dictionary [get_cost_summary] returns ([summary_daily_budget_usd]
    is its key "daily_budget_usd"). *)
Record CostSummary : Type := {
  total_cost_usd : Q;
  daily_cost_usd : Q;
  summary_daily_budget_usd : Q;
  daily_remaining_usd : Q;
  daily_usage_pct : Q;
  daily_breakdown : gmap string Q;
  all_days : gmap string (gmap string Q)
}.

(** The dictionary [get_status] returns. *)
Record Status : Type := {
  vertex_ai_available : bool;
  status_vertex_ai_initialized : bool;
  status_project_id : option string;
  status_location : string;
  status_circuit_open : bool;
  status_failure_count : Z;
  mode : string
}.

Section Reports.
Variable env : Sys.Env.
Variable VERTEX_AI_AVAILABLE : bool.
Variable strftime_date : Q -> string.

Local Open Scope eff_scope.

(** [self.daily_costs.get(today, {})] *)
Definition costs_of_day (self : t) (today : string) : gmap string Q :=
  match daily_costs self !! today with
  | Some d => d
  | None => ∅
  end.

Definition get_cost_summary : V CostSummary :=
  self <- Eff.get ;;
  now <- Eff.lift (Sys.time_time env) ;;
  let today := strftime_date now in
  let daily_total := sum_values (costs_of_day self today) in
  Eff.ret {| total_cost_usd := total_costs self;
             daily_cost_usd := daily_total;
             summary_daily_budget_usd := daily_budget_usd self;
             daily_remaining_usd := Qmax 0 (daily_budget_usd self - daily_total)%Q;
             daily_usage_pct :=
               if Qgt_bool (daily_budget_usd self) 0
               then ((daily_total / daily_budget_usd self) * 100)%Q
               else 0%Q;
             daily_breakdown := costs_of_day self today;
             all_days := daily_costs self |}.

Definition get_status (self : t) : Status :=
  {| vertex_ai_available := VERTEX_AI_AVAILABLE;
     status_vertex_ai_initialized := vertex_ai_initialized self;
     status_project_id := project_id self;
     status_location := location self;
     status_circuit_open := circuit_open self;
     status_failure_count := failure_count self;
     mode := if vertex_ai_initialized self then "vertex_ai" else "fallback" |}.

End Reports.

(** *** The module: the global client and the functions around it *)

Module Global.

(** What [get_client] raises. *)
Inductive error : Type :=
| RuntimeError (msg : string).

(** Code of the module acts on the global [_client]. *)
Definition C (A : Type) : Type := Eff.M (option t) A.

Section Functions.
Variable env : Sys.Env.
Variable VERTEX_AI_AVAILABLE : bool.
Variable vertexai_init_ok : bool.
Variable strftime_date : Q -> string.
Variable generate :
  nat -> string -> string -> Z -> Q -> Q -> outcome SdkResponse.

Local Open Scope eff_scope.

(** [_client = VertexAIClient(...)] *)
Definition construct (project_id : option string) (location : string)
  (daily_budget_usd : Q) (force_fallback : bool) : C t := fun _ =>
  Sys.bind (__init__ env VERTEX_AI_AVAILABLE vertexai_init_ok project_id location
                     daily_budget_usd force_fallback)
           (fun self => Sys.ret (Returns self, Some self)).

(** A method called on the object that [_client] names: what it does to
    the object is seen through the global. *)
Definition on_client {A} (method : V A) (self : t) : C A := fun _ =>
  Sys.bind (method self) (fun r => Sys.ret (fst r, Some (snd r))).

Definition initialize_client (project_id : option string) (location : string)
  (daily_budget_usd : Q) (force_fallback : bool) : C t :=
  construct project_id location daily_budget_usd force_fallback.

Definition get_client (_client : option t) : error + t :=
  match _client with
  | None => inl (RuntimeError "Client not initialized. Call initialize_client() first.")
  | Some self => inr self
  end.

(** Line 494. *)
Definition default_force_fallback : bool :=
  negb VERTEX_AI_AVAILABLE
  || match Sys.getenv env "VERTEX_AI_FORCE_FALLBACK" with
     | Some v => String.eqb v "1"
     | None => false
     end.

Definition call_llm (prompt model : string) (max_tokens : Z)
  (temperature top_p : Q) (max_retries : Z) : C CallResult :=
  _client <- Eff.get ;;
  self <- match _client with
          | None => initialize_client None "us-central1" 100 default_force_fallback
          | Some self => Eff.ret self
          end ;;
  on_client (call_model env strftime_date generate prompt model max_tokens
                        temperature top_p max_retries) self.

(** The summary, or the dictionary with the one key "error". *)
Definition get_cost_summary : C (string + CostSummary) :=
  _client <- Eff.get ;;
  match _client with
  | None => Eff.ret (inl "Client not initialized")
  | Some self =>
      summary <- on_client (get_cost_summary env strftime_date) self ;;
      Eff.ret (inr summary)
  end.

Definition validate_config : C Status :=
  _client <- Eff.get ;;
  self <- match _client with
          | None => construct None "us-central1" 100 true
          | Some self => Eff.ret self
          end ;;
  Eff.ret (get_status VERTEX_AI_AVAILABLE self).

(** [call_llm] awaited for each request in turn. *)
Fixpoint call_llms (qs : list Request) : C (list CallResult) :=
  match qs with
  | [] => Eff.ret []
  | q :: rest =>
      r <- call_llm (q_prompt q) (q_model q) (q_max_output_tokens q)
                    (q_temperature q) (q_top_p q) (q_max_retries q) ;;
      rs <- call_llms rest ;;
      Eff.ret (r :: rs)
  end.

End Functions.

End Global.

End VertexAI.

(** ** core/llm_client.py: the report on the configuration *)

Module LlmConfig.

(** The dictionary [validate_llm_config] returns. *)
Record Status : Type := {
  gemini_enabled : bool;
  has_project : bool;
  has_credentials : bool;
  mode : string;
  ready : bool
}.

(** [os.getenv("USE_GEMINI") == "1"] *)
Definition use_gemini_is_1 (env : Sys.Env) : bool :=
  match Sys.getenv env "USE_GEMINI" with
  | Some v => String.eqb v "1"
  | None => false
  end.

Definition validate_llm_config (env : Sys.Env) : Status :=
  let gemini_enabled := use_gemini_is_1 env in
  let has_project := VertexAI.truthy (Sys.getenv env "GOOGLE_CLOUD_PROJECT") in
  let has_credentials :=
    VertexAI.truthy (Sys.getenv env "GOOGLE_APPLICATION_CREDENTIALS") in
  if gemini_enabled && has_project && has_credentials then
    {| gemini_enabled := gemini_enabled; has_project := has_project;
       has_credentials := has_credentials; mode := "gemini"; ready := true |}
  else
    {| gemini_enabled := gemini_enabled; has_project := has_project;
       has_credentials := has_credentials; mode := "fallback"; ready := true |}.

End LlmConfig.

(** ** The agents that call the client: their prompts *)

(** agents/pricing_agent.py, lines 120-121.  The arguments are the texts
    the f-string interpolates: the median cost, the lowest and the highest
    cost, each formatted with two decimals, and [str] of the bundle's
    name. *)
Module PricingAgent.

Definition prompt (median_cost bundle_name min_cost max_cost : string) : string :=
  String.append "Recommend pricing strategy given median monthly cost of $"
    (String.append median_cost
       (String.append ". Bundle: "
          (String.append bundle_name
             (String.append ". Cost range: $"
                (String.append min_cost (String.append "-$" max_cost)))))).

End PricingAgent.

(** agents/bundle_agent.py, lines 89-90.  The arguments are [repr] of the
    list of products and of the two leading (product, workflows) pairs. *)
Module BundleAgent.

Definition prompt (products top_products : string) : string :=
  String.append "Propose a compelling bundle for products "
    (String.append products
       (String.append " based on usage patterns. Top products have workflow volumes: "
          top_products)).

End BundleAgent.

(** ** Runs of the components *)

Module Runs.
Import LlmClient.

(** A guarded operation that raises whatever the environment, and one
    that returns. *)
Definition fails {A} (func : Sys.M (outcome A)) : Prop :=
  forall s, exists e s', func s = (Raises e, s').

Definition succeeds {A} (func : Sys.M (outcome A)) : Prop :=
  forall s, exists a s', func s = (Returns a, s').

(** The guard called on each operation of the list in turn. *)
Fixpoint guard_all {A} (env : Sys.Env) (funcs : list (Sys.M (outcome A)))
  (cb : CircuitBreaker.t) : Sys.M CircuitBreaker.t :=
  match funcs with
  | [] => Sys.ret cb
  | func :: rest =>
      Sys.bind (CircuitBreaker.call env func cb) (fun r => guard_all env rest (snd r))
  end.

(** What [call] does once the check has let it through with the breaker
    in state [cb1]: the guarded function runs once, from [s1]. *)
Definition settle {A} (env : Sys.Env) (func : Sys.M (outcome A))
  (cb1 : CircuitBreaker.t) (s1 : Sys.t) : outcome A * CircuitBreaker.t * Sys.t :=
  let (r, s2) := func s1 in
  match r with
  | Returns a => (Returns a, CircuitBreaker.on_success cb1, s2)
  | Raises e =>
      (Raises e, CircuitBreaker.on_failure (fst (Sys.time_time env s2)) cb1,
       snd (Sys.time_time env s2))
  end.

(** The states of a breaker that threads calling [call] can produce:
    each runs the check of lines 68-73, then the guarded function, then
    the bookkeeping of lines 77-79 or 82-86; the three locked blocks of
    different threads interleave in any order. *)
Inductive reachable (failure_threshold timeout : Z) : CircuitBreaker.t -> Prop :=
| reach_init :
    reachable failure_threshold timeout
              (CircuitBreaker.__init__ failure_threshold timeout)
| reach_precheck cb env s :
    reachable failure_threshold timeout cb ->
    reachable failure_threshold timeout (snd (fst (CircuitBreaker.precheck env cb s)))
| reach_success cb :
    reachable failure_threshold timeout cb ->
    reachable failure_threshold timeout (CircuitBreaker.on_success cb)
| reach_failure cb now :
    reachable failure_threshold timeout cb ->
    reachable failure_threshold timeout (CircuitBreaker.on_failure now cb).

(** [acquire] called after each of the given pauses; the balance of the
    bucket after every call. *)
Fixpoint acquire_all (env : Sys.Env) (pauses : list Q) (rl : RateLimiter.t)
  : Sys.M (list Q) :=
  match pauses with
  | [] => Sys.ret []
  | d :: rest =>
      Sys.bind (Sys.sleep d) (fun _ =>
      Sys.bind (RateLimiter.acquire env rl) (fun r =>
      Sys.bind (acquire_all env rest (snd r)) (fun balances =>
      Sys.ret (RateLimiter.tokens (snd r) :: balances))))
  end.

(** The clock never runs backwards. *)
Definition monotone_clock (env : Sys.Env) : Prop :=
  forall n, (0 <= Sys.drift env n)%Q.

(** A run that reads the clock once and does not wait: it ends at the time
    of its clock reading. *)
Definition ends_at_reading (env : Sys.Env) (s s' : Sys.t) : Prop :=
  (Sys.clock s' == Sys.clock s + Sys.drift env (Sys.reads s))%Q
  /\ Sys.reads s' = S (Sys.reads s).

(** The balance of a bucket after the refill of a clock reading [now]:
    [min(capacity, tokens + elapsed * (capacity / 60))]. *)
Definition refilled (capacity : Z) (tokens last_refill now : Q) : Q :=
  Qmin (inject_Z capacity)
       (tokens + (now - last_refill) * (inject_Z capacity / 60))%Q.

(** Code that returns whatever the state it starts from, with a result
    that satisfies [P]; and code whose result satisfies [P] whenever it
    returns. *)
Definition returns_with {St A} (m : Eff.M St A) (P : A -> Prop) : Prop :=
  forall st s, exists a st' s', m st s = (Returns a, st', s') /\ P a.

Definition when_returns {St A} (m : Eff.M St A) (P : A -> Prop) : Prop :=
  forall st s a st' s', m st s = (Returns a, st', s') -> P a.

(** Two pieces of code that run alike from every state. *)
Definition agrees {St A} (m m' : Eff.M St A) : Prop :=
  forall st s, m st s = m' st s.

(** The dictionary of [_deterministic_fallback]. *)
Definition fallback_result (prompt : string) : Response :=
  {| text := fallback_text (lower prompt);
     tokens := split_len (fallback_text (lower prompt));
     model := "deterministic-fallback";
     finish_reason := "complete" |}.

(** A result that one invocation of the provider returned. *)
Definition from_gemini (gemini : nat -> string -> Z -> Q -> outcome Response)
  (prompt : string) (max_tokens : Z) (temperature : Q) (r : Response) : Prop :=
  exists n, gemini n prompt max_tokens temperature = Returns r.

(** How one pass of the retry loop of [call_llm] can end: the loop goes
    on, or a result of the provider is returned. *)
Definition pass_ok (gemini : nat -> string -> Z -> Q -> outcome Response)
  (prompt : string) (max_tokens : Z) (temperature : Q) (c : control) : Prop :=
  match c with
  | Continue => True
  | Return r => from_gemini gemini prompt max_tokens temperature r
  end.

(** A result of [call_model] that carries the fallback tag, and one that
    carries the answer of an invocation of the SDK. *)
Definition fallback_tagged (r : VertexAI.CallResult) : Prop :=
  VertexAI.source r = "fallback" /\ (VertexAI.cost_usd r == 0)%Q.

Definition live_tagged
  (generate : nat -> string -> string -> Z -> Q -> Q -> outcome VertexAI.SdkResponse)
  (prompt model : string) (max_output_tokens : Z) (temperature top_p : Q)
  (r : VertexAI.CallResult) : Prop :=
  VertexAI.source r = "vertex_ai"
  /\ exists n sdk,
      generate n prompt model max_output_tokens temperature top_p = Returns sdk
      /\ VertexAI.text r = VertexAI.r_text (VertexAI.provider_response prompt model sdk).

(** The dictionary of [VertexAIClient._fallback_response]. *)
Definition fallback_response_result (prompt model : string) : VertexAI.CallResult :=
  {| VertexAI.text := fallback_text (lower prompt);
     VertexAI.tokens_input := split_len prompt;
     VertexAI.tokens_output := split_len (fallback_text (lower prompt));
     VertexAI.model := model;
     VertexAI.cost_usd := 0.0%Q;
     VertexAI.finish_reason := "FALLBACK";
     VertexAI.source := "fallback" |}.

(** How one pass of the retry loop of [call_model] can end. *)
Definition pass_ok_v
  (generate : nat -> string -> string -> Z -> Q -> Q -> outcome VertexAI.SdkResponse)
  (prompt model : string) (max_output_tokens : Z) (temperature top_p : Q)
  (c : VertexAI.control) : Prop :=
  match c with
  | VertexAI.Continue => True
  | VertexAI.Return r =>
      fallback_tagged r
      \/ live_tagged generate prompt model max_output_tokens temperature top_p r
  end.

(** Code that keeps a property [I] of the objects, whether it returns or
    raises, and whose result satisfies [P] when it returns. *)
Definition keeps {St A} (I : St -> Prop) (m : Eff.M St A) (P : A -> Prop) : Prop :=
  forall st s r st' s',
    I st -> m st s = (r, st', s') ->
    I st' /\ forall a, r = Returns a -> P a.

(** Code during which the clock does not go back. *)
Definition advances {St A} (m : Eff.M St A) : Prop :=
  forall st s r st' s', m st s = (r, st', s') -> (Sys.clock s <= Sys.clock s')%Q.

Definition advances_sys {A} (m : Sys.M A) : Prop :=
  forall s a s', m s = (a, s') -> (Sys.clock s <= Sys.clock s')%Q.

(** No draw of [random.uniform(0, 1)] is negative. *)
Definition jitter_nonneg (env : Sys.Env) : Prop :=
  forall n, (0 <= Sys.uniform01 env n)%Q.

(** What the bucket of a [RateLimiter] satisfies between calls. *)
Definition bucket_ok (rl : RateLimiter.t) (s : Sys.t) : Prop :=
  (0 <= RateLimiter.tokens rl <= inject_Z (RateLimiter.max_tokens rl))%Q
  /\ (0 <= RateLimiter.calls_per_minute rl)%Z
  /\ (RateLimiter.last_refill rl <= Sys.clock s)%Q.

(** [acquire] called after each of the given pauses: the answers, and the
    limiter at the end. *)
Fixpoint acquire_seq (env : Sys.Env) (pauses : list Q) (rl : RateLimiter.t)
  : Sys.M (list bool * RateLimiter.t) :=
  match pauses with
  | [] => Sys.ret ([], rl)
  | d :: rest =>
      Sys.bind (Sys.sleep d) (fun _ =>
      Sys.bind (RateLimiter.acquire env rl) (fun r =>
      Sys.bind (acquire_seq env rest (snd r)) (fun rs =>
      Sys.ret (fst r :: fst rs, snd rs))))
  end.

(** How many of the answers grant. *)
Fixpoint grants (answers : list bool) : Z :=
  match answers with
  | [] => 0
  | granted :: rest => (if granted then 1 else 0) + grants rest
  end.

(** Code that invokes the provider at most [n] times. *)
Definition spends {St A} (n : nat) (m : Eff.M St A) : Prop :=
  forall st s r st' s',
    m st s = (r, st', s') ->
    (Sys.provider_calls s <= Sys.provider_calls s' <= Sys.provider_calls s + n)%nat.

Definition spends_sys {A} (n : nat) (m : Sys.M A) : Prop :=
  forall s a s',
    m s = (a, s') ->
    (Sys.provider_calls s <= Sys.provider_calls s' <= Sys.provider_calls s + n)%nat.

(** The provider is down: every call of the SDK raises. *)
Definition provider_down
  (generate : nat -> string -> string -> Z -> Q -> Q -> outcome VertexAI.SdkResponse)
  : Prop :=
  forall n prompt model max_output_tokens temperature top_p,
  exists e, generate n prompt model max_output_tokens temperature top_p = Raises e.

(** A result of [call_model] is the dictionary of the fallback for the
    prompt and the model of the call, or it is marked "vertex_ai". *)
Definition shaped (prompt model : string) (r : VertexAI.CallResult) : Prop :=
  r = fallback_response_result prompt model \/ VertexAI.source r = "vertex_ai".

Definition pass_shaped (prompt model : string) (c : VertexAI.control) : Prop :=
  match c with
  | VertexAI.Continue => True
  | VertexAI.Return r => shaped prompt model r
  end.

End Runs.

(** ** Sample environments and states *)

Module Samples.
Import LlmClient.

Definition env (use_gemini : option string) (drift : nat -> Q) : Sys.Env :=
  {| Sys.drift := drift;
     Sys.uniform01 := fun _ => 0.5%Q;
     Sys.getenv := fun k => if String.eqb k "USE_GEMINI" then use_gemini
                            else if String.eqb k "GOOGLE_CLOUD_PROJECT" then Some "demo"
                            else None |}.

Definition still : nat -> Q := fun _ => 0%Q.

Definition boot (clock : Q) : Sys.t :=
  {| Sys.clock := clock; Sys.reads := 0; Sys.draws := 0;
     Sys.provider_calls := 0; Sys.output := [] |}.

Definition answer : Response :=
  {| text := "The data suggests a hybrid pricing model would optimize revenue while maintaining customer satisfaction.";
     tokens := 20; model := "gemini-pro-simulated"; finish_reason := "stop" |}.

Definition boom : exn := Exception "503 service unavailable".

Definition always_ok : nat -> string -> Z -> Q -> outcome Response :=
  fun _ _ _ _ => Returns answer.

(** An environment in which the provider is switched on and no time
    passes but in sleeps. *)
Definition quiet : Sys.Env := env (Some "1") still.

Definition down : Sys.M (outcome Response) := Sys.invoke (fun _ => Raises boom).

Definition up : Sys.M (outcome Response) := Sys.invoke (fun _ => Returns answer).

(** A breaker that opened at time 0. *)
Definition tripped : CircuitBreaker.t :=
  {| CircuitBreaker.failure_threshold := 5; CircuitBreaker.timeout := 60;
     CircuitBreaker.failure_count := 5;
     CircuitBreaker.last_failure_time := Some 0%Q;
     CircuitBreaker.state := CircuitBreaker.OPEN |}.

(** A breaker with threshold 1 that failed at time 0 and is consulted at
    time 100. *)
Definition probing : CircuitBreaker.t :=
  snd (fst (CircuitBreaker.precheck quiet
              (CircuitBreaker.on_failure 0%Q (CircuitBreaker.__init__ 1 60))
              (boot 100))).

(** A client whose SDK is installed and initialised, built at time 0;
    the same client with an empty bucket. *)
Definition client : VertexAI.t :=
  fst (VertexAI.__init__ quiet true true None "us-central1" 100 false (boot 0)).

Definition drained : VertexAI.t := VertexAI.set_bucket 0 0 client.

Definition sdk_answer : VertexAI.SdkResponse :=
  {| VertexAI.sdk_text := Some "Use a hybrid plan.";
     VertexAI.sdk_finish_reason := Some "STOP" |}.

Definition calendar : Q -> string := fun _ => "2025-01-01".

(** The module as it stands when its breaker opened at time 0: a full
    bucket, nothing spent. *)
Definition tripped_globals : Globals :=
  {| rate_limiter := fst (RateLimiter.__init__ quiet 60 (boot 0));
     circuit_breaker := tripped;
     budget_tracker := fst (BudgetTracker.__init__ quiet 100 (boot 0)) |}.

(** The module with its daily budget spent. *)
Definition spent_globals : Globals :=
  {| rate_limiter := fst (RateLimiter.__init__ quiet 60 (boot 0));
     circuit_breaker := CircuitBreaker.__init__ 5 60;
     budget_tracker :=
       BudgetTracker.set_spent 100 86400
         (fst (BudgetTracker.__init__ quiet 100 (boot 0))) |}.

(** A client whose circuit opened at time 0. *)
Definition tripped_client : VertexAI.t :=
  VertexAI.set_breaker 5 (Some 0%Q) true client.

(** A provider that answers its first call, fails the next five and
    answers again from then on. *)
Definition outage : nat -> string -> string -> Z -> Q -> Q -> outcome VertexAI.SdkResponse :=
  fun n _ _ _ _ _ =>
    if ((1 <=? n) && (n <=? 5))%nat then Raises boom else Returns sdk_answer.

Definition request (max_retries : Z) : VertexAI.Request :=
  {| VertexAI.q_prompt := "price this"; VertexAI.q_model := "gemini-2.0-flash";
     VertexAI.q_max_output_tokens := 256; VertexAI.q_temperature := 0.7;
     VertexAI.q_top_p := 0.95; VertexAI.q_max_retries := max_retries |}.

(** Two invocations on one client: the first is started and waits for the
    provider; the second is started and runs through its five attempts. *)
Definition two_requests : list VertexAI.Request := [request 3; request 5].

Definition second_runs_out : list nat := [0; 1; 1; 1; 1; 1; 1; 1; 1; 1; 1]%nat.

(** A budget tracker built at time 0 with the default budget. *)
Definition fresh_budget : BudgetTracker.t :=
  fst (BudgetTracker.__init__ quiet 100 (boot 0)).

(** A limiter of capacity 60 that holds half a token, refilled at time 0. *)
Definition short_limiter : RateLimiter.t :=
  {| RateLimiter.calls_per_minute := 60; RateLimiter.tokens := 0.5;
     RateLimiter.max_tokens := 60; RateLimiter.last_refill := 0 |}.

(** The module with that limiter, a closed breaker and nothing spent. *)
Definition rationed : Globals :=
  {| rate_limiter := short_limiter;
     circuit_breaker := CircuitBreaker.__init__ 5 60;
     budget_tracker := fresh_budget |}.

(** The module as it is when it has just been loaded at time 0. *)
Definition ready : Globals :=
  {| rate_limiter := fst (RateLimiter.__init__ quiet 60 (boot 0));
     circuit_breaker := CircuitBreaker.__init__ 5 60;
     budget_tracker := fresh_budget |}.

(** A provider that is down. *)
Definition dead : nat -> string -> string -> Z -> Q -> Q -> outcome VertexAI.SdkResponse :=
  fun _ _ _ _ _ _ => Raises boom.

(** A breaker with threshold 1 after one failure at time 0. *)
Definition failed_once : CircuitBreaker.t :=
  CircuitBreaker.on_failure 0%Q (CircuitBreaker.__init__ 1 60).

(** The longest delay of the sample platforms: [2 ** 33 + 1] seconds. *)
Definition longest_sleep : Q := inject_Z (2 ^ 33 + 1).

(** A [time.sleep] that refuses a negative delay and a delay beyond
    [longest_sleep]. *)
Definition sleeps (d : Q) : option exn :=
  if negb (Qle_bool 0 d) then Some ValueError
  else if Qle_bool d longest_sleep then None else Some OverflowError.

(** A platform whose stream takes every line, and one whose stream has
    an ASCII encoding: it takes none of the lines of [llm_client.py]. *)
Definition utf8_platform : Platform.t :=
  {| Platform.stdout := fun _ => None; Platform.time_sleep := sleeps |}.

Definition ascii_platform : Platform.t :=
  {| Platform.stdout := fun _ => Some UnicodeEncodeError;
     Platform.time_sleep := sleeps |}.

(** A provider of [call_llm] that is down. *)
Definition failing : nat -> string -> Z -> Q -> outcome Response :=
  fun _ _ _ _ => Raises boom.

End Samples.

(** * Properties *)

Local Open Scope Q_scope.

Lemma Qge_bool_true a b : Qge_bool a b = true <-> b <= a.
Proof. unfold Qge_bool. apply Qle_bool_iff. Qed.

Lemma Qge_bool_false a b : Qge_bool a b = false <-> a < b.
Proof.
  unfold Qge_bool. split; intros H.
  - apply Qnot_le_lt. intros Hle. apply Qle_bool_iff in Hle. congruence.
  - destruct (Qle_bool b a) eqn:E; [|reflexivity].
    apply Qle_bool_iff in E. exfalso. exact (Qlt_not_le _ _ H E).
Qed.

Lemma Qgt_bool_true a b : Qgt_bool a b = true <-> b < a.
Proof.
  unfold Qgt_bool. split; intros H.
  - apply Qnot_le_lt. intros Hle. apply Qle_bool_iff in Hle.
    rewrite Hle in H. discriminate.
  - destruct (Qle_bool a b) eqn:E; [|reflexivity].
    apply Qle_bool_iff in E. exfalso. exact (Qlt_not_le _ _ H E).
Qed.

Lemma Qgt_bool_false a b : Qgt_bool a b = false <-> a <= b.
Proof.
  unfold Qgt_bool. rewrite <- Qle_bool_iff.
  destruct (Qle_bool a b); simpl; split; congruence.
Qed.

(** Unfolding of the plumbing of the two monads. *)
Ltac plumbing :=
  cbv beta iota zeta delta
    [Eff.bind Eff.ret Eff.raise Eff.lift Eff.get Eff.put Eff.try_except
     Sys.bind Sys.ret].

Ltac plumbing_in H :=
  cbv beta iota zeta delta
    [Eff.bind Eff.ret Eff.raise Eff.lift Eff.get Eff.put Eff.try_except
     Sys.bind Sys.ret] in H.

(** ** The fallback generator *)

Section Fallback.
Import LlmClient.

Example lower_demo : lower "Bundle PRICING?" = "bundle pricing?"%string.
Proof. reflexivity. Qed.

Example split_len_demo :
  split_len "  Compliance check passed. VAT rates applied per region. " = 8%Z.
Proof. reflexivity. Qed.

Example contains_demo :
  contains "tax" "syntax error" = true /\ contains "tax" "ta x" = false.
Proof. split; reflexivity. Qed.

Example fallback_text_empty :
  fallback_text (lower "") = "Analysis complete. Proceeding with standard configuration."%string.
Proof. reflexivity. Qed.

Example fallback_text_order :
  fallback_text (lower "Price the BUNDLE")
  = "Suggested bundle: CRM+Support with expected uplift 8%"%string.
Proof. reflexivity. Qed.

(** C2.  For every prompt, the empty one included, both fallback
    generators return and do not raise.  [VertexAIClient._fallback_response]
    returns a result whose source is "fallback" and whose cost is zero;
    [_deterministic_fallback] returns a result marked with the model
    "deterministic-fallback".  Neither touches the objects that hold the
    spend. *)
Theorem fallback_totality :
  forall (prompt model : string) (self : VertexAI.t) (g : Globals) (s : Sys.t),
    (exists r s',
        VertexAI._fallback_response prompt model self s = (Returns r, self, s')
        /\ VertexAI.source r = "fallback"%string
        /\ VertexAI.cost_usd r == 0
        /\ VertexAI.text r = fallback_text (lower prompt))
    /\ (exists r s',
           _deterministic_fallback prompt g s = (Returns r, g, s')
           /\ LlmClient.model r = "deterministic-fallback"%string
           /\ LlmClient.text r = fallback_text (lower prompt)).
Proof.
  intros prompt model self g s. split.
  - unfold VertexAI._fallback_response. plumbing.
    eexists. eexists. split; [reflexivity|]. simpl. repeat split; reflexivity.
  - unfold _deterministic_fallback. plumbing.
    eexists. eexists. split; [reflexivity|]. simpl. split; reflexivity.
Qed.

End Fallback.

(** ** The circuit breaker *)

Section Breaker.
Import LlmClient Runs.
Import CircuitBreaker.
Local Open Scope Z_scope.

Variable env : Sys.Env.

Lemma precheck_closed cb s :
  state cb <> OPEN -> precheck env cb s = (Returns tt, cb, s).
Proof. unfold precheck. destruct (state cb); [reflexivity|congruence|reflexivity]. Qed.

Lemma call_of_failure {A} (func : Sys.M (outcome A)) cb s :
  fails func -> state cb <> OPEN ->
  exists e s1,
    func s = (Raises e, s1)
    /\ call env func cb s
       = (Raises e, on_failure (fst (Sys.time_time env s1)) cb,
          snd (Sys.time_time env s1)).
Proof.
  intros Hf Hst. destruct (Hf s) as (e & s1 & Hrun).
  exists e, s1. split; [exact Hrun|].
  unfold call. unfold Sys.bind at 1. rewrite (precheck_closed _ _ Hst).
  unfold Sys.bind at 1. rewrite Hrun. reflexivity.
Qed.

Lemma call_of_success {A} (func : Sys.M (outcome A)) cb s :
  succeeds func -> state cb <> OPEN ->
  exists a s1,
    func s = (Returns a, s1)
    /\ call env func cb s = (Returns a, on_success cb, s1).
Proof.
  intros Hf Hst. destruct (Hf s) as (a & s1 & Hrun).
  exists a, s1. split; [exact Hrun|].
  unfold call. unfold Sys.bind at 1. rewrite (precheck_closed _ _ Hst).
  unfold Sys.bind at 1. rewrite Hrun. reflexivity.
Qed.

Lemma guard_all_app {A} (l1 l2 : list (Sys.M (outcome A))) cb s :
  guard_all env (l1 ++ l2) cb s
  = guard_all env l2 (fst (guard_all env l1 cb s)) (snd (guard_all env l1 cb s)).
Proof.
  revert cb s. induction l1 as [|f l1 IH]; intros cb s; [reflexivity|].
  simpl. unfold Sys.bind.
  destruct (call env f cb s) as [r s1]. apply IH.
Qed.

(** Failures below the threshold are counted and leave the breaker
    closed. *)
Lemma failures_below_threshold {A} (funcs : list (Sys.M (outcome A))) :
  Forall fails funcs ->
  forall cb s,
    state cb = CLOSED ->
    failure_count cb + Z.of_nat (length funcs) < failure_threshold cb ->
    let cb' := fst (guard_all env funcs cb s) in
    state cb' = CLOSED
    /\ failure_count cb' = failure_count cb + Z.of_nat (length funcs)
    /\ failure_threshold cb' = failure_threshold cb
    /\ timeout cb' = timeout cb.
Proof.
  induction 1 as [|f funcs Hf _ IH]; intros cb s Hst Hlt.
  - simpl. repeat split; try assumption; lia.
  - assert (Hno : state cb <> OPEN) by congruence.
    destruct (call_of_failure f cb s Hf Hno) as (e & s1 & _ & Hcall).
    cbn [guard_all]. unfold Sys.bind. rewrite Hcall. cbn [snd fst].
    set (now := fst (Sys.time_time env s1)).
    set (s2 := snd (Sys.time_time env s1)).
    cbn [length] in Hlt. rewrite Nat2Z.inj_succ in Hlt.
    assert (Hgeb : (failure_count cb + 1 >=? failure_threshold cb) = false)
      by (rewrite Z.geb_leb; apply Z.leb_gt; lia).
    assert (Hs : state (on_failure now cb) = CLOSED).
    { unfold on_failure. cbn [state]. rewrite Hgeb. exact Hst. }
    assert (Hc : failure_count (on_failure now cb) = failure_count cb + 1)
      by reflexivity.
    assert (Ht : failure_threshold (on_failure now cb) = failure_threshold cb)
      by reflexivity.
    assert (Hto : timeout (on_failure now cb) = timeout cb) by reflexivity.
    destruct (IH (on_failure now cb) s2 Hs) as (H1 & H2 & H3 & H4).
    { rewrite Hc, Ht. lia. }
    cbn [length]. rewrite Nat2Z.inj_succ.
    repeat split; try assumption; try congruence.
    rewrite H2, Hc. lia.
Qed.

(** C4.  A breaker built with a positive threshold starts CLOSED.  While
    fewer consecutive guarded operations have failed than the threshold,
    it stays CLOSED and counts them, and one success at that point sets the
    count to zero and leaves it CLOSED.  When exactly [failure_threshold]
    consecutive guarded operations have failed, it is OPEN. *)
Theorem circuit_monotonicity {A} :
  forall (failure_threshold timeout : Z) (funcs : list (Sys.M (outcome A))) (s : Sys.t),
    0 < failure_threshold ->
    Forall fails funcs ->
    let cb0 := __init__ failure_threshold timeout in
    let cb := fst (guard_all env funcs cb0 s) in
    let s' := snd (guard_all env funcs cb0 s) in
    state cb0 = CLOSED
    /\ (Z.of_nat (length funcs) < failure_threshold ->
        state cb = CLOSED
        /\ failure_count cb = Z.of_nat (length funcs)
        /\ forall func : Sys.M (outcome A),
            succeeds func ->
            let after := snd (fst (call env func cb s')) in
            failure_count after = 0 /\ state after = CLOSED)
    /\ (Z.of_nat (length funcs) = failure_threshold -> state cb = OPEN).
Proof.
  intros threshold tmo funcs s Hpos Hall cb0 cb s'.
  split; [reflexivity|]. split.
  - intros Hlt.
    destruct (failures_below_threshold funcs Hall cb0 s eq_refl) as (H1 & H2 & _).
    { simpl. lia. }
    fold cb in H1, H2. split; [exact H1|]. split; [rewrite H2; reflexivity|].
    intros func Hok after.
    assert (Hno : state cb <> OPEN) by congruence.
    destruct (call_of_success func cb s' Hok Hno) as (a & s1 & _ & Hcall).
    subst after. rewrite Hcall. split; reflexivity.
  - intros Hlen.
    destruct (exists_last (l := funcs)) as (front & last & Heq).
    { intros ->. simpl in Hlen. lia. }
    subst cb. rewrite Heq in Hlen |- *. rewrite guard_all_app.
    rewrite length_app in Hlen. cbn [length] in Hlen.
    rewrite Heq in Hall. apply Forall_app in Hall. destruct Hall as [Hfront Hlast].
    destruct (failures_below_threshold front Hfront cb0 s eq_refl)
      as (H1 & H2 & H3 & _).
    { simpl. lia. }
    set (cb1 := fst (guard_all env front cb0 s)) in *.
    set (s1 := snd (guard_all env front cb0 s)) in *.
    assert (Hno : state cb1 <> OPEN) by congruence.
    apply Forall_inv in Hlast.
    destruct (call_of_failure last cb1 s1 Hlast Hno) as (e & s2 & _ & Hcall).
    cbn [guard_all]. unfold Sys.bind. rewrite Hcall. cbn [snd fst Sys.ret].
    unfold on_failure. cbn [state].
    rewrite H2, H3. simpl failure_count. simpl CircuitBreaker.failure_threshold.
    replace (0 + Z.of_nat (length front) + 1 >=? threshold) with true; [reflexivity|].
    symmetry. rewrite Z.geb_leb. apply Z.leb_le. lia.
Qed.

Lemma precheck_cooling cb last s :
  state cb = OPEN -> last_failure_time cb = Some last ->
  (fst (Sys.time_time env s) - last <= inject_Z (timeout cb))%Q ->
  precheck env cb s = (Raises breaker_open, cb, snd (Sys.time_time env s)).
Proof.
  intros Hst Hlast Hle. unfold precheck. rewrite Hst. unfold Sys.bind.
  destruct (Sys.time_time env s) as [now s1]. cbn [fst snd] in *.
  rewrite Hlast. apply Qgt_bool_false in Hle. rewrite Hle. reflexivity.
Qed.

Lemma precheck_elapsed cb last s :
  state cb = OPEN -> last_failure_time cb = Some last ->
  (inject_Z (timeout cb) < fst (Sys.time_time env s) - last)%Q ->
  precheck env cb s = (Returns tt, set_state HALF_OPEN cb, snd (Sys.time_time env s)).
Proof.
  intros Hst Hlast Hlt. unfold precheck. rewrite Hst. unfold Sys.bind.
  destruct (Sys.time_time env s) as [now s1]. cbn [fst snd] in *.
  rewrite Hlast. apply Qgt_bool_true in Hlt. rewrite Hlt. reflexivity.
Qed.

Lemma call_checked {A} (func : Sys.M (outcome A)) cb cb1 s s1 :
  precheck env cb s = (Returns tt, cb1, s1) ->
  call env func cb s = settle env func cb1 s1.
Proof.
  intros Hadm. unfold call, settle. unfold Sys.bind at 1. rewrite Hadm.
  unfold Sys.bind. destruct (func s1) as [[a|e] s2]; reflexivity.
Qed.

(** C5.  With the breaker OPEN and a recorded failure time [last]: if
    the clock reading of the check is at most [timeout] past [last], the
    guard raises "Circuit breaker is OPEN", the breaker is unchanged and
    the guarded function has not been run (the outcome does not depend on
    it, no provider invocation is counted).  If the reading is more than
    [timeout] past [last], the check moves the state to HALF_OPEN and the
    guarded function is run exactly once. *)
Theorem open_breaker_guard {A} :
  forall (cb : t) (last : Q) (s : Sys.t) (func : Sys.M (outcome A))
         (answers : nat -> outcome A),
    state cb = OPEN ->
    last_failure_time cb = Some last ->
    let now := fst (Sys.time_time env s) in
    let s1 := snd (Sys.time_time env s) in
    ((now - last <= inject_Z (timeout cb))%Q ->
     call env func cb s = (Raises breaker_open, cb, s1)
     /\ Sys.provider_calls (snd (call env (Sys.invoke answers) cb s))
        = Sys.provider_calls s)
    /\ ((inject_Z (timeout cb) < now - last)%Q ->
        precheck env cb s = (Returns tt, set_state HALF_OPEN cb, s1)
        /\ state (set_state HALF_OPEN cb) = HALF_OPEN
        /\ call env func cb s = settle env func (set_state HALF_OPEN cb) s1
        /\ Sys.provider_calls (snd (call env (Sys.invoke answers) cb s))
           = S (Sys.provider_calls s)).
Proof.
  intros cb last s func answers Hst Hlast now s1. split.
  - intros Hle.
    pose proof (precheck_cooling cb last s Hst Hlast Hle) as Hadm.
    assert (Hcall : forall B (f : Sys.M (outcome B)),
               call env f cb s = (Raises breaker_open, cb, s1)).
    { intros B f. unfold call. unfold Sys.bind at 1. rewrite Hadm. reflexivity. }
    split; [apply Hcall|]. rewrite Hcall. reflexivity.
  - intros Hlt.
    pose proof (precheck_elapsed cb last s Hst Hlast Hlt) as Hadm.
    split; [exact Hadm|]. split; [reflexivity|].
    split; [apply (call_checked _ _ _ _ _ Hadm)|].
    rewrite (call_checked _ _ _ _ _ Hadm). unfold settle, Sys.invoke.
    cbn [Sys.time_time Sys.provider_calls fst snd].
    destruct (answers (Sys.provider_calls s)); reflexivity.
Qed.

(** In every state that threads can produce, a breaker that is not
    CLOSED has counted at least [failure_threshold] failures. *)
Lemma reachable_invariant threshold tmo cb :
  reachable threshold tmo cb ->
  failure_threshold cb = threshold
  /\ (state cb <> CLOSED -> threshold <= failure_count cb).
Proof.
  induction 1 as [|cb env' s _ [IHt IHc]|cb _ [IHt IHc]|cb now _ [IHt IHc]].
  - split; [reflexivity|]. intros H. exfalso. apply H. reflexivity.
  - unfold precheck. destruct (state cb) eqn:Hst; cbn [Sys.ret fst snd].
    + split; [exact IHt|]. intros H. apply IHc. congruence.
    + unfold Sys.bind. destruct (Sys.time_time env' s) as [t1 s1].
      assert (Hc : threshold <= failure_count cb) by (apply IHc; congruence).
      destruct (last_failure_time cb) as [last|]; cbn [Sys.ret fst snd].
      * destruct (Qgt_bool (t1 - last) (inject_Z (timeout cb)));
          cbn [fst snd]; split; auto.
      * split; auto.
    + split; [exact IHt|]. intros H. apply IHc. congruence.
  - split; [exact IHt|]. intros H. exfalso. apply H. reflexivity.
  - split; [exact IHt|]. unfold on_failure. cbn [state failure_count].
    rewrite IHt.
    destruct (failure_count cb + 1 >=? threshold) eqn:Hge.
    + intros _. rewrite Z.geb_leb in Hge. apply Z.leb_le in Hge. exact Hge.
    + intros H. specialize (IHc H). lia.
Qed.

(** In every state that threads can produce, a breaker that is not
    CLOSED holds the time of a failure: the subtraction of line 70 does not
    meet [None]. *)
Lemma reachable_has_failure_time threshold tmo cb :
  reachable threshold tmo cb ->
  state cb <> CLOSED -> exists last, last_failure_time cb = Some last.
Proof.
  induction 1 as [|cb env' s _ IH|cb _ IH|cb now _ IH].
  - intros H. exfalso. apply H. reflexivity.
  - unfold precheck. destruct (state cb) eqn:Hst; cbn [Sys.ret fst snd].
    + intros H. congruence.
    + unfold Sys.bind. destruct (Sys.time_time env' s) as [t1 s1].
      destruct IH as [last Hlast]; [discriminate|]. rewrite Hlast.
      destruct (Qgt_bool (t1 - last) (inject_Z (timeout cb)));
        cbn [Sys.ret fst snd set_state last_failure_time]; eauto.
    + intros _. apply IH. congruence.
  - intros H. exfalso. apply H. reflexivity.
  - intros _. exists now. reflexivity.
Qed.

(** C6.  In every HALF_OPEN state that threads going through [call] can
    produce, the bookkeeping of a success makes the state CLOSED with a
    failure count of zero, and the bookkeeping of a failure makes the
    state OPEN with the failure time set to the clock reading of that
    failure.  So a guarded call that finds the breaker OPEN after the
    cool-down ends CLOSED with count zero if the trial returns, and OPEN
    with the failure time of the trial if it raises. *)
Theorem half_open_trial {A} :
  forall (threshold tmo : Z) (cb : t),
    reachable threshold tmo cb ->
    (state cb = HALF_OPEN ->
     (state (on_success cb) = CLOSED /\ failure_count (on_success cb) = 0)
     /\ forall now : Q,
         state (on_failure now cb) = OPEN
         /\ last_failure_time (on_failure now cb) = Some now)
    /\ (forall (last : Q) (s : Sys.t) (func : Sys.M (outcome A)),
           state cb = OPEN ->
           last_failure_time cb = Some last ->
           (inject_Z (timeout cb) < fst (Sys.time_time env s) - last)%Q ->
           let s1 := snd (Sys.time_time env s) in
           let after := snd (fst (call env func cb s)) in
           (forall a s2, func s1 = (Returns a, s2) ->
                         state after = CLOSED /\ failure_count after = 0)
           /\ (forall e s2, func s1 = (Raises e, s2) ->
                            state after = OPEN
                            /\ last_failure_time after
                               = Some (fst (Sys.time_time env s2)))).
Proof.
  intros threshold tmo cb Hreach.
  destruct (reachable_invariant _ _ _ Hreach) as [Ht Hc].
  assert (Hfail : forall cb1 now,
             failure_threshold cb1 = threshold ->
             threshold <= failure_count cb1 ->
             state (on_failure now cb1) = OPEN
             /\ last_failure_time (on_failure now cb1) = Some now).
  { intros cb1 now H1 H2. unfold on_failure. cbn [state last_failure_time].
    replace (failure_count cb1 + 1 >=? failure_threshold cb1) with true;
      [split; reflexivity|].
    symmetry. rewrite Z.geb_leb. apply Z.leb_le. lia. }
  split.
  - intros Hst. split; [split; reflexivity|].
    intros now. apply Hfail; [exact Ht|]. apply Hc. congruence.
  - intros last s func Hst Hlast Hlt s1 after.
    pose proof (precheck_elapsed cb last s Hst Hlast Hlt) as Hadm.
    subst after. rewrite (call_checked _ _ _ _ _ Hadm). unfold settle. split.
    + intros a s2 Hrun. fold s1. rewrite Hrun. split; reflexivity.
    + intros e s2 Hrun. fold s1. rewrite Hrun. cbn [fst snd].
      apply Hfail; [exact Ht|]. cbn [set_state failure_count].
      apply Hc. congruence.
Qed.

End Breaker.

Section BreakerSamples.
Import LlmClient Runs Samples.
Import CircuitBreaker.

Lemma down_fails : fails down.
Proof. intros s. eexists. eexists. reflexivity. Qed.

Lemma up_succeeds : succeeds up.
Proof. intros s. eexists. eexists. reflexivity. Qed.

Lemma tripped_by_five_failures :
  fst (guard_all quiet [down; down; down; down; down] (__init__ 5 60) (boot 0))
  = tripped.
Proof. reflexivity. Qed.

Lemma circuit_monotonicity_witness :
  (0 < 3)%Z
  /\ Forall fails [down; down; down]
  /\ state (fst (guard_all quiet [down; down; down] (__init__ 3 60) (boot 0))) = OPEN.
Proof.
  assert (H : Forall fails [down; down; down])
    by (repeat constructor; apply down_fails).
  split; [reflexivity|]. split; [exact H|].
  exact (proj2 (proj2 (circuit_monotonicity quiet 3 60 [down; down; down] (boot 0)
                         eq_refl H)) eq_refl).
Defined.

Lemma open_breaker_guard_witness :
  state tripped = OPEN
  /\ last_failure_time tripped = Some 0%Q
  /\ call quiet up tripped (boot 59)
     = (Raises breaker_open, tripped, snd (Sys.time_time quiet (boot 59)))
  /\ Sys.provider_calls (snd (call quiet up tripped (boot 61))) = 1%nat.
Proof.
  split; [reflexivity|]. split; [reflexivity|]. split.
  - apply (open_breaker_guard quiet tripped 0%Q (boot 59) up (fun _ => Returns answer)
             eq_refl eq_refl).
    vm_compute. discriminate.
  - apply (open_breaker_guard quiet tripped 0%Q (boot 61) up (fun _ => Returns answer)
             eq_refl eq_refl).
    vm_compute. reflexivity.
Defined.

Lemma half_open_trial_witness :
  reachable 1 60 probing
  /\ state probing = HALF_OPEN
  /\ state (on_failure 130%Q probing) = OPEN
  /\ last_failure_time (on_failure 130%Q probing) = Some 130%Q.
Proof.
  assert (H : reachable 1 60 probing)
    by (apply reach_precheck, reach_failure, reach_init).
  split; [exact H|]. split; [reflexivity|].
  exact (proj2 (proj1 (half_open_trial (A := Response) quiet 1 60 probing H) eq_refl)
               130%Q).
Defined.

End BreakerSamples.

(** ** The rate limiters *)

Section Bucket.
Import LlmClient Runs.
Import RateLimiter.

Variable env : Sys.Env.

Lemma inject_Z_nonneg (z : Z) : (0 <= z)%Z -> 0 <= inject_Z z.
Proof. intros H. unfold Qle. simpl. lia. Qed.

Lemma rate_nonneg (cpm : Z) : (0 <= cpm)%Z -> 0 <= inject_Z cpm / 60.
Proof.
  intros H. apply Qle_shift_div_l; [reflexivity|].
  rewrite Qmult_0_l. apply inject_Z_nonneg. exact H.
Qed.

Lemma init_ok cpm s :
  (0 <= cpm)%Z ->
  bucket_ok (fst (__init__ env cpm s)) (snd (__init__ env cpm s)).
Proof.
  intros H. unfold bucket_ok, __init__, Sys.bind, Sys.time_time, Sys.ret.
  cbn [fst snd tokens max_tokens calls_per_minute last_refill Sys.clock].
  refine (conj (conj _ _) (conj H _)).
  - apply inject_Z_nonneg. exact H.
  - apply Qle_refl.
  - apply Qle_refl.
Qed.

Lemma refill_ok rl s :
  monotone_clock env -> bucket_ok rl s ->
  bucket_ok (fst (_refill env rl s)) (snd (_refill env rl s)).
Proof.
  intros Hm ((Hlo & Hhi) & Hc & Hl).
  unfold bucket_ok, _refill, Sys.bind, Sys.time_time, Sys.ret.
  cbn [fst snd tokens max_tokens calls_per_minute last_refill Sys.clock].
  assert (Hadd : 0 <= (Sys.clock s + Sys.drift env (Sys.reads s) - last_refill rl)
                      * (inject_Z (calls_per_minute rl) / 60)).
  { apply Qmult_le_0_compat; [|apply rate_nonneg; exact Hc].
    specialize (Hm (Sys.reads s)).
    unfold Qminus. rewrite <- (Qplus_opp_r (last_refill rl)).
    apply Qplus_le_l.
    apply Qle_trans with (Sys.clock s); [exact Hl|].
    rewrite <- (Qplus_0_r (Sys.clock s)) at 1. apply Qplus_le_r. exact Hm. }
  refine (conj (conj _ _) (conj Hc _)).
  - apply Q.min_glb.
    + apply Qle_trans with (tokens rl); assumption.
    + rewrite <- (Qplus_0_r 0). apply Qplus_le_compat; assumption.
  - apply Q.le_min_l.
  - apply Qle_refl.
Qed.

Lemma acquire_ok rl s :
  monotone_clock env -> bucket_ok rl s ->
  bucket_ok (snd (fst (acquire env rl s))) (snd (acquire env rl s)).
Proof.
  intros Hm Hok. pose proof (refill_ok rl s Hm Hok) as H.
  unfold acquire, Sys.bind.
  destruct (_refill env rl s) as [rl1 s1]. cbn [fst snd] in H.
  destruct H as ((Hlo & Hhi) & Hc & Hl).
  destruct (Qge_bool (tokens rl1) 1) eqn:Hge; cbn [Sys.ret fst snd].
  - apply Qge_bool_true in Hge. unfold bucket_ok.
    cbn [tokens max_tokens calls_per_minute last_refill].
    refine (conj (conj _ _) (conj Hc Hl)).
    + unfold Qminus. rewrite <- (Qplus_opp_r 1). apply Qplus_le_l. exact Hge.
    + apply Qle_trans with (tokens rl1); [|exact Hhi].
      unfold Qminus. rewrite <- (Qplus_0_r (tokens rl1)) at 2.
      apply Qplus_le_r. discriminate.
  - exact (conj (conj Hlo Hhi) (conj Hc Hl)).
Qed.

Lemma acquire_keeps_capacity rl s :
  max_tokens (snd (fst (acquire env rl s))) = max_tokens rl.
Proof.
  unfold acquire, _refill, Sys.bind, Sys.time_time, Sys.ret. cbn [tokens].
  match goal with |- context [if ?b then _ else _] => destruct b end; reflexivity.
Qed.

Lemma sleep_ok rl s d :
  0 <= d -> bucket_ok rl s -> bucket_ok rl (snd (Sys.sleep d s)).
Proof.
  intros Hd (Ht & Hc & Hl). refine (conj Ht (conj Hc _)).
  cbn [Sys.sleep snd Sys.clock]. apply Qle_trans with (Sys.clock s); [exact Hl|].
  rewrite <- (Qplus_0_r (Sys.clock s)) at 1. apply Qplus_le_r. exact Hd.
Qed.

Lemma acquire_all_bounded pauses :
  monotone_clock env ->
  Forall (fun d => 0 <= d) pauses ->
  forall rl s,
    bucket_ok rl s ->
    Forall (fun balance => 0 <= balance <= inject_Z (max_tokens rl))
           (fst (acquire_all env pauses rl s)).
Proof.
  intros Hm. induction 1 as [|d pauses Hd _ IH]; intros rl s Hok.
  - constructor.
  - cbn [acquire_all]. unfold Sys.bind at 1.
    pose proof (sleep_ok rl s d Hd Hok) as Hok1.
    destruct (Sys.sleep d s) as [u s1]. cbn [snd] in Hok1.
    unfold Sys.bind at 1.
    pose proof (acquire_ok rl s1 Hm Hok1) as Hok2.
    pose proof (acquire_keeps_capacity rl s1) as Hcap.
    destruct (acquire env rl s1) as [[granted rl2] s2]. cbn [fst snd] in *.
    specialize (IH rl2 s2 Hok2). rewrite Hcap in IH.
    unfold Sys.bind.
    destruct (acquire_all env pauses rl2 s2) as [balances s3].
    cbn [Sys.ret fst snd] in *. constructor; [|exact IH].
    rewrite <- Hcap. apply Hok2.
Qed.

(** C7.  For a limiter built with a capacity that is not negative, and a
    clock that does not run backwards, the balance of the bucket is between
    zero and the capacity when the limiter is built and after every call of
    [acquire] in any sequence of calls, whatever the pauses between them. *)
Theorem token_bucket_bound :
  forall (calls_per_minute : Z) (pauses : list Q) (s : Sys.t),
    (0 <= calls_per_minute)%Z ->
    monotone_clock env ->
    Forall (fun d => 0 <= d) pauses ->
    let rl := fst (__init__ env calls_per_minute s) in
    let s0 := snd (__init__ env calls_per_minute s) in
    max_tokens rl = calls_per_minute
    /\ 0 <= tokens rl <= inject_Z calls_per_minute
    /\ length (fst (acquire_all env pauses rl s0)) = length pauses
    /\ Forall (fun balance => 0 <= balance <= inject_Z calls_per_minute)
              (fst (acquire_all env pauses rl s0)).
Proof.
  intros cpm pauses s Hc Hm Hp rl s0.
  pose proof (init_ok cpm s Hc) as Hok. fold rl s0 in Hok.
  split; [reflexivity|]. split; [apply Hok|]. split.
  - clear. generalize rl s0. induction pauses as [|d pauses IH]; intros r s1.
    + reflexivity.
    + cbn [acquire_all]. unfold Sys.bind at 1. destruct (Sys.sleep d s1) as [u s2].
      unfold Sys.bind at 1. destruct (acquire env r s2) as [[b r2] s3].
      unfold Sys.bind. specialize (IH r2 s3). cbn [snd].
      destruct (acquire_all env pauses r2 s3) as [bs s4].
      cbn [Sys.ret fst length] in *. rewrite IH. reflexivity.
  - exact (acquire_all_bounded pauses Hm Hp rl s0 Hok).
Qed.

End Bucket.

Section BucketContract.
Import LlmClient Runs.

Variable env : Sys.Env.

Lemma time_time_ends_at_reading s :
  ends_at_reading env s (snd (Sys.time_time env s)).
Proof. split; [apply Qeq_refl | reflexivity]. Qed.

(** What [RateLimiter.acquire] does, for a limiter whose two capacity
    fields hold the configured capacity. *)
Lemma limiter_acquire (capacity : Z) (self : RateLimiter.t) (s : Sys.t) :
  RateLimiter.max_tokens self = capacity ->
  RateLimiter.calls_per_minute self = capacity ->
  let now := fst (Sys.time_time env s) in
  let balance :=
    refilled capacity (RateLimiter.tokens self) (RateLimiter.last_refill self) now in
  let granted := fst (fst (RateLimiter.acquire env self s)) in
  let self' := snd (fst (RateLimiter.acquire env self s)) in
  snd (RateLimiter.acquire env self s) = snd (Sys.time_time env s)
  /\ RateLimiter.last_refill self' = now
  /\ (1 <= balance -> granted = true /\ RateLimiter.tokens self' = balance - 1)
  /\ (balance < 1 -> granted = false /\ RateLimiter.tokens self' = balance).
Proof.
  intros Hmax Hcpm now balance granted self'.
  subst granted self' balance now.
  unfold RateLimiter.acquire, RateLimiter._refill, refilled, Sys.bind, Sys.ret.
  rewrite Hmax, Hcpm.
  destruct (Sys.time_time env s) as [now s1].
  cbn [fst snd RateLimiter.tokens RateLimiter.max_tokens RateLimiter.calls_per_minute
       RateLimiter.last_refill].
  match goal with |- context [Qge_bool ?b 1] => set (balance := b) end.
  destruct (Qge_bool balance 1) eqn:Hge; cbn [fst snd RateLimiter.tokens
    RateLimiter.last_refill].
  - apply Qge_bool_true in Hge.
    split; [reflexivity|]. split; [reflexivity|]. split.
    + intros _. split; reflexivity.
    + intros Hlt. exfalso. exact (Qlt_not_le _ _ Hlt Hge).
  - apply Qge_bool_false in Hge.
    split; [reflexivity|]. split; [reflexivity|]. split.
    + intros Hle. exfalso. exact (Qlt_not_le _ _ Hge Hle).
    + intros _. split; reflexivity.
Qed.

(** What [VertexAIClient._rate_limit_acquire] does. *)
Lemma client_acquire (capacity : Z) (self : VertexAI.t) (s : Sys.t) :
  VertexAI.max_tokens self = capacity ->
  VertexAI.tokens_per_minute self = capacity ->
  let now := fst (Sys.time_time env s) in
  let s1 := snd (Sys.time_time env s) in
  let balance :=
    refilled capacity (VertexAI.rate_limit_tokens self) (VertexAI.last_refill self) now in
  (1 <= balance ->
   VertexAI._rate_limit_acquire env self s
   = (Returns tt, VertexAI.set_bucket (balance - 1) now self, s1))
  /\ (balance < 1 ->
      capacity <> 0%Z ->
      let wait_time := (1 - balance) / (inject_Z capacity / 60) in
      VertexAI._rate_limit_acquire env self s
      = (Returns tt, VertexAI.set_bucket 0 now self,
         snd (Sys.sleep wait_time
                (snd (Sys.emit Sys.INFO (Sys.RateLimited wait_time) s1))))).
Proof.
  intros Hmax Htpm now s1 balance. subst balance s1 now.
  unfold VertexAI._rate_limit_acquire, VertexAI.rate_limit_take,
    VertexAI.rate_limit_resume, refilled.
  plumbing. rewrite Hmax, Htpm.
  destruct (Sys.time_time env s) as [now s1].
  cbn [fst snd VertexAI.set_bucket VertexAI.rate_limit_tokens VertexAI.max_tokens
       VertexAI.tokens_per_minute VertexAI.last_refill].
  match goal with |- context [Qge_bool ?b 1] => set (balance := b) end.
  destruct (Qge_bool balance 1) eqn:Hge.
  - apply Qge_bool_true in Hge. split.
    + intros _. reflexivity.
    + intros Hlt. exfalso. exact (Qlt_not_le _ _ Hlt Hge).
  - apply Qge_bool_false in Hge. split.
    + intros Hle. exfalso. exact (Qlt_not_le _ _ Hge Hle).
    + intros _ Hrate. rewrite Htpm.
      apply Z.eqb_neq in Hrate. rewrite Hrate. reflexivity.
Qed.

(** C8, as the code has it.  [RateLimiter.acquire] reads the clock once,
    refills the bucket to [min(capacity, tokens + elapsed * (capacity / 60))]
    and, when that balance is at least 1, takes exactly one token and
    grants; otherwise it denies, and in both cases it returns at the time of
    its clock reading, without waiting.
    [VertexAIClient._rate_limit_acquire] refills in the same way and takes
    one token when the balance is at least 1; otherwise it does not deny: it
    sleeps [(1 - balance) / (capacity / 60)] seconds, sets the balance to
    zero and lets the call go on. *)
Theorem acquire_contract :
  forall (capacity capacity_c : Z) (limiter : RateLimiter.t) (client : VertexAI.t)
         (s : Sys.t),
    RateLimiter.max_tokens limiter = capacity ->
    RateLimiter.calls_per_minute limiter = capacity ->
    VertexAI.max_tokens client = capacity_c ->
    VertexAI.tokens_per_minute client = capacity_c ->
    let now := fst (Sys.time_time env s) in
    let s1 := snd (Sys.time_time env s) in
    let balance :=
      refilled capacity (RateLimiter.tokens limiter) (RateLimiter.last_refill limiter) now in
    let granted := fst (fst (RateLimiter.acquire env limiter s)) in
    let limiter' := snd (fst (RateLimiter.acquire env limiter s)) in
    let balance_c :=
      refilled capacity_c (VertexAI.rate_limit_tokens client)
               (VertexAI.last_refill client) now in
    (snd (RateLimiter.acquire env limiter s) = s1
     /\ ends_at_reading env s s1
     /\ (1 <= balance -> granted = true /\ RateLimiter.tokens limiter' = balance - 1)
     /\ (balance < 1 -> granted = false /\ RateLimiter.tokens limiter' = balance))
    /\ (1 <= balance_c ->
        VertexAI._rate_limit_acquire env client s
        = (Returns tt, VertexAI.set_bucket (balance_c - 1) now client, s1))
    /\ (balance_c < 1 ->
        capacity_c <> 0%Z ->
        let wait_time := (1 - balance_c) / (inject_Z capacity_c / 60) in
        VertexAI._rate_limit_acquire env client s
        = (Returns tt, VertexAI.set_bucket 0 now client,
           snd (Sys.sleep wait_time
                  (snd (Sys.emit Sys.INFO (Sys.RateLimited wait_time) s1))))).
Proof.
  intros capacity capacity_c limiter client s H1 H2 H3 H4
         now s1 balance granted limiter' balance_c.
  destruct (limiter_acquire capacity limiter s H1 H2) as (Ha & _ & Hb & Hc).
  destruct (client_acquire capacity_c client s H3 H4) as (Hd & He).
  split; [|split; assumption].
  split; [exact Ha|]. split; [apply time_time_ends_at_reading|]. split; assumption.
Qed.

End BucketContract.

Section BucketSamples.
Import LlmClient Runs Samples.

Lemma quiet_monotone : monotone_clock quiet.
Proof. intros n. apply Qle_refl. Qed.

Lemma token_bucket_bound_witness :
  (0 <= 60)%Z
  /\ monotone_clock quiet
  /\ Forall (fun d => 0 <= d) [0; 1; 30]
  /\ Forall (fun balance => 0 <= balance <= inject_Z 60)
            (fst (acquire_all quiet [0; 1; 30]
                    (fst (RateLimiter.__init__ quiet 60 (boot 0)))
                    (snd (RateLimiter.__init__ quiet 60 (boot 0))))).
Proof.
  assert (Hc : (0 <= 60)%Z) by discriminate.
  assert (Hp : Forall (fun d => 0 <= d) [0; 1; 30])
    by (repeat constructor; discriminate).
  split; [exact Hc|]. split; [exact quiet_monotone|]. split; [exact Hp|].
  exact (proj2 (proj2 (proj2 (token_bucket_bound quiet 60 [0; 1; 30] (boot 0)
                                Hc quiet_monotone Hp)))).
Defined.

Lemma acquire_contract_witness :
  RateLimiter.max_tokens short_limiter = 60%Z
  /\ RateLimiter.calls_per_minute short_limiter = 60%Z
  /\ VertexAI.max_tokens drained = 100%Z
  /\ VertexAI.tokens_per_minute drained = 100%Z
  /\ fst (fst (RateLimiter.acquire quiet short_limiter (boot 0))) = false
  /\ snd (RateLimiter.acquire quiet short_limiter (boot 0))
     = snd (Sys.time_time quiet (boot 0)).
Proof.
  split; [reflexivity|]. split; [reflexivity|].
  split; [reflexivity|]. split; [reflexivity|].
  pose proof (acquire_contract quiet 60 100 short_limiter drained (boot 0)
                eq_refl eq_refl eq_refl eq_refl) as ((Ha & _ & _ & Hb) & _).
  split; [|exact Ha]. apply Hb. vm_compute. reflexivity.
Defined.

(** C8 fails on [VertexAIClient._rate_limit_acquire]: with an empty bucket
    the refilled balance is below 1, and the call neither denies nor returns
    at once: it returns normally after sleeping 0.6 seconds. *)
Lemma client_acquire_waits :
  let s := boot 0 in
  let now := fst (Sys.time_time quiet s) in
  refilled 100 (VertexAI.rate_limit_tokens drained) (VertexAI.last_refill drained) now < 1
  /\ fst (fst (VertexAI._rate_limit_acquire quiet drained s)) = Returns tt
  /\ Sys.clock (snd (VertexAI._rate_limit_acquire quiet drained s)) == 0.6
  /\ ~ ends_at_reading quiet s (snd (VertexAI._rate_limit_acquire quiet drained s)).
Proof.
  cbv zeta. split; [vm_compute; reflexivity|]. split; [vm_compute; reflexivity|].
  split; [vm_compute; reflexivity|].
  intros [H _]. vm_compute in H. discriminate.
Qed.

End BucketSamples.

(** ** Cost of a model that is not in the price table *)

Section UnknownModel.
Import LlmClient Samples.

Variable env : Sys.Env.
Variable strftime_date : Q -> string.

Lemma reset_keeps_prices bt s :
  BudgetTracker.model_costs (fst (BudgetTracker._reset_if_needed env bt s))
  = BudgetTracker.model_costs bt.
Proof.
  unfold BudgetTracker._reset_if_needed, Sys.bind.
  destruct (Sys.time_time env s) as [now s1].
  destruct (Qgt_bool now (BudgetTracker.reset_time bt)); [|reflexivity].
  destruct (Sys.time_time env s1) as [now' s2]. reflexivity.
Qed.

Lemma reset_keeps_output bt s :
  Sys.output (snd (BudgetTracker._reset_if_needed env bt s)) = Sys.output s.
Proof.
  unfold BudgetTracker._reset_if_needed, Sys.bind.
  destruct (Qgt_bool (fst (Sys.time_time env s)) (BudgetTracker.reset_time bt)) eqn:E;
    cbn [Sys.time_time fst snd] in *; rewrite E; reflexivity.
Qed.


End UnknownModel.

Section UnknownModelSamples.
Import LlmClient Samples.



End UnknownModelSamples.

(** ** When the orchestrators return *)

Section Totality.
Import Runs.

Context {St : Type}.

Lemma returns_ret {A} (a : A) (P : A -> Prop) :
  P a -> returns_with (St := St) (Eff.ret a) P.
Proof. intros H st s. exists a, st, s. split; [reflexivity|exact H]. Qed.

Lemma returns_lift {A} (m : Sys.M A) :
  returns_with (St := St) (Eff.lift m) (fun _ => True).
Proof.
  intros st s. unfold Eff.lift, Sys.bind. destruct (m s) as [a s'].
  exists a, st, s'. split; [reflexivity|exact I].
Qed.

Lemma returns_get : returns_with (St := St) Eff.get (fun _ => True).
Proof. intros st s. exists st, st, s. split; [reflexivity|exact I]. Qed.

Lemma returns_put (st0 : St) : returns_with (Eff.put st0) (fun _ => True).
Proof. intros st s. exists tt, st0, s. split; [reflexivity|exact I]. Qed.

Lemma returns_bind {A B} (m : Eff.M St A) (k : A -> Eff.M St B)
  (Q : A -> Prop) (P : B -> Prop) :
  returns_with m Q ->
  (forall a, Q a -> returns_with (k a) P) ->
  returns_with (Eff.bind m k) P.
Proof.
  intros Hm Hk st s. destruct (Hm st s) as (a & st1 & s1 & Hrun & Ha).
  unfold Eff.bind, Sys.bind. rewrite Hrun. apply (Hk a Ha).
Qed.

Lemma returns_weaken {A} (m : Eff.M St A) (P Q : A -> Prop) :
  returns_with m P -> (forall a, P a -> Q a) -> returns_with m Q.
Proof.
  intros Hm HPQ st s. destruct (Hm st s) as (a & st1 & s1 & Hrun & Ha).
  exists a, st1, s1. split; [exact Hrun|]. apply HPQ, Ha.
Qed.

Lemma when_of_returns {A} (m : Eff.M St A) (P : A -> Prop) :
  returns_with m P -> when_returns m P.
Proof.
  intros Hm st s a st' s' Hrun. destruct (Hm st s) as (a1 & st1 & s1 & Hrun1 & Ha).
  rewrite Hrun in Hrun1. injection Hrun1 as -> _ _. exact Ha.
Qed.

Lemma when_bind {A B} (m : Eff.M St A) (k : A -> Eff.M St B)
  (Q : A -> Prop) (P : B -> Prop) :
  when_returns m Q ->
  (forall a, Q a -> when_returns (k a) P) ->
  when_returns (Eff.bind m k) P.
Proof.
  intros Hm Hk st s b st' s' Hrun. unfold Eff.bind, Sys.bind in Hrun.
  destruct (m st s) as [[[a|e] st1] s1] eqn:E.
  - apply (Hk a (Hm _ _ _ _ _ E) _ _ _ _ _ Hrun).
  - discriminate.
Qed.

Lemma when_trivial {A} (m : Eff.M St A) : when_returns m (fun _ => True).
Proof. intros st s a st' s' _. exact I. Qed.

(** A [try] whose handler always returns always returns. *)
Lemma returns_try {A} (m : Eff.M St A) (h : exn -> Eff.M St A) (P : A -> Prop) :
  when_returns m P ->
  (forall e, returns_with (h e) P) ->
  returns_with (Eff.try_except m h) P.
Proof.
  intros Hm Hh st s. unfold Eff.try_except, Sys.bind.
  destruct (m st s) as [[[a|e] st1] s1] eqn:E.
  - exists a, st1, s1. split; [reflexivity|]. apply (Hm _ _ _ _ _ E).
  - apply Hh.
Qed.

End Totality.

Section TotalityLlm.
Import LlmClient Runs.

Variable env : Sys.Env.
Variable gemini : nat -> string -> Z -> Q -> outcome Response.

(** What the guard returns, the guarded function returned. *)
Lemma guarded_result (prompt : string) (max_tokens : Z) (temperature : Q) :
  when_returns
    (circuit_breaker_call env (_call_gemini gemini prompt max_tokens temperature))
    (from_gemini gemini prompt max_tokens temperature).
Proof.
  intros g s a g' s' Hrun.
  unfold circuit_breaker_call, CircuitBreaker.call, Sys.bind in Hrun.
  destruct (CircuitBreaker.precheck env (circuit_breaker g) s) as [[[[]|e] cb1] s1].
  - unfold _call_gemini, Sys.invoke in Hrun.
    destruct (gemini (Sys.provider_calls s1) prompt max_tokens temperature) as [r|e] eqn:E;
      cbn in Hrun.
    + injection Hrun as <- _ _. exists (Sys.provider_calls s1). exact E.
    + discriminate.
  - cbn in Hrun. discriminate.
Qed.

Lemma attempt_body_returns prompt max_tokens temperature max_retries attempt :
  returns_with (attempt_body env gemini prompt max_tokens temperature max_retries attempt)
               (pass_ok gemini prompt max_tokens temperature).
Proof.
  unfold attempt_body, try_call, on_exception. apply returns_try.
  - apply when_bind with (Q := fun _ => True); [apply when_trivial|].
    intros granted _. destruct granted; cbn [negb].
    + apply when_bind with (Q := from_gemini gemini prompt max_tokens temperature);
        [apply guarded_result|].
      intros r Hr. apply when_bind with (Q := fun _ => True); [apply when_trivial|].
      intros _ _. apply when_of_returns, returns_ret. exact Hr.
    + apply when_of_returns.
      apply returns_bind with (Q := fun _ => True); [apply returns_lift|]. intros _ _.
      apply returns_bind with (Q := fun _ => True); [apply returns_lift|]. intros _ _.
      apply returns_ret. exact I.
  - intros e.
    apply returns_bind with (Q := fun _ => True); [apply returns_lift|]. intros u _.
    apply returns_bind with (Q := fun _ => True); [apply returns_lift|]. intros _ _.
    destruct (attempt <? max_retries - 1)%Z.
    + apply returns_bind with (Q := fun _ => True); [apply returns_lift|]. intros _ _.
      apply returns_bind with (Q := fun _ => True); [apply returns_lift|]. intros _ _.
      apply returns_ret. exact I.
    + apply returns_bind with (Q := fun _ => True); [apply returns_lift|]. intros _ _.
      apply returns_ret. exact I.
Qed.

Lemma retry_loop_returns prompt max_tokens temperature max_retries attempts :
  returns_with (retry_loop env gemini prompt max_tokens temperature max_retries attempts)
               (fun o => match o with
                         | Some r => from_gemini gemini prompt max_tokens temperature r
                         | None => True
                         end).
Proof.
  induction attempts as [|attempt rest IH]; cbn [retry_loop].
  - apply returns_ret. exact I.
  - apply returns_bind with (Q := pass_ok gemini prompt max_tokens temperature);
      [apply attempt_body_returns|].
    intros [|r] Hc.
    + exact IH.
    + apply returns_ret. exact Hc.
Qed.

Lemma deterministic_fallback_returns prompt :
  returns_with (_deterministic_fallback prompt) (fun r => r = fallback_result prompt).
Proof.
  unfold _deterministic_fallback.
  apply returns_bind with (Q := fun _ => True); [apply returns_lift|]. intros _ _.
  apply returns_ret. reflexivity.
Qed.

Lemma call_llm_returns prompt use_gemini max_tokens temperature max_retries :
  returns_with (call_llm env gemini prompt use_gemini max_tokens temperature max_retries)
               (fun r => r = fallback_result prompt
                         \/ from_gemini gemini prompt max_tokens temperature r).
Proof.
  assert (Hfb : returns_with (_deterministic_fallback prompt)
                  (fun r => r = fallback_result prompt
                            \/ from_gemini gemini prompt max_tokens temperature r)).
  { apply returns_weaken with (1 := deterministic_fallback_returns prompt). auto. }
  unfold call_llm.
  destruct (gemini_enabled env use_gemini); [|exact Hfb].
  apply returns_bind with (Q := fun _ => True).
  { intros g s. unfold budget_tracker_check_budget, Sys.bind.
    destruct (BudgetTracker.check_budget env _ (budget_tracker g) s) as [[ok bt] s1].
    eexists. eexists. eexists. split; [reflexivity|exact I]. }
  intros allowed _. destruct allowed; cbn [negb].
  - eapply returns_bind; [apply retry_loop_returns|].
    intros [r|] Hr; [|exact Hfb]. apply returns_ret. right. exact Hr.
  - apply returns_bind with (Q := fun _ => True); [apply returns_lift|]. intros _ _.
    exact Hfb.
Qed.

End TotalityLlm.

Section TotalityVertex.
Import VertexAI Runs.

Variable env : Sys.Env.
Variable strftime_date : Q -> string.
Variable generate : nat -> string -> string -> Z -> Q -> Q -> outcome SdkResponse.

Lemma fallback_response_returns prompt model :
  returns_with (_fallback_response prompt model) fallback_tagged.
Proof.
  unfold _fallback_response.
  apply returns_bind with (Q := fun _ => True); [apply returns_lift|]. intros _ _.
  apply returns_ret. split; reflexivity.
Qed.

Lemma track_cost_returns model input_tokens output_tokens :
  returns_with (_track_cost env strftime_date model input_tokens output_tokens)
               (fun _ => True).
Proof.
  unfold _track_cost.
  apply returns_bind with (Q := fun _ => True); [apply returns_get|]. intros self _.
  destruct (model_costs self !! model) as [costs|].
  - apply returns_bind with (Q := fun _ => True); [apply returns_lift|]. intros now _.
    apply returns_bind with (Q := fun _ => True); [apply returns_put|]. intros _ _.
    apply returns_bind with (Q := fun _ => True).
    { match goal with |- context [if ?b then _ else _] => destruct b end;
        [apply returns_lift | apply returns_ret; exact I]. }
    intros _ _.
    apply returns_bind with (Q := fun _ => True); [apply returns_lift|]. intros _ _.
    apply returns_ret. exact I.
  - apply returns_bind with (Q := fun _ => True); [apply returns_lift|]. intros _ _.
    apply returns_ret. exact I.
Qed.

Lemma on_response_returns model response :
  returns_with (on_response env strftime_date model response)
               (fun r => source r = "vertex_ai"%string /\ text r = r_text response).
Proof.
  unfold on_response.
  apply returns_bind with (Q := fun _ => True); [apply returns_get|]. intros self _.
  apply returns_bind with (Q := fun _ => True); [apply returns_put|]. intros _ _.
  apply returns_bind with (Q := fun _ => True); [apply track_cost_returns|]. intros cost _.
  apply returns_bind with (Q := fun _ => True); [apply returns_lift|]. intros _ _.
  apply returns_ret. split; reflexivity.
Qed.

Lemma on_exception_returns prompt model max_output_tokens temperature top_p
      max_retries attempt e :
  returns_with (on_exception env prompt model max_retries attempt e)
               (pass_ok_v generate prompt model max_output_tokens temperature top_p).
Proof.
  assert (Hfb : returns_with
                  (Eff.bind (_fallback_response prompt model)
                            (fun fb => Eff.ret (Return fb)))
                  (pass_ok_v generate prompt model max_output_tokens temperature top_p)).
  { eapply returns_bind; [apply fallback_response_returns|].
    intros fb Hfb. apply returns_ret. left. exact Hfb. }
  unfold on_exception, record_failure.
  apply returns_bind with (Q := fun _ => True).
  { apply returns_bind with (Q := fun _ => True); [apply returns_get|]. intros self _.
    apply returns_bind with (Q := fun _ => True); [apply returns_lift|]. intros now _.
    apply returns_bind with (Q := fun _ => True); [apply returns_put|]. intros _ _.
    apply returns_lift. }
  intros _ _.
  apply returns_bind with (Q := fun _ => True); [apply returns_get|]. intros self _.
  destruct (failure_count self >=? 5)%Z.
  - apply returns_bind with (Q := fun _ => True); [apply returns_put|]. intros _ _.
    apply returns_bind with (Q := fun _ => True); [apply returns_lift|]. intros _ _.
    exact Hfb.
  - destruct (attempt <? max_retries - 1)%Z.
    + apply returns_bind with (Q := fun _ => True); [apply returns_lift|]. intros u _.
      apply returns_bind with (Q := fun _ => True); [apply returns_lift|]. intros _ _.
      apply returns_bind with (Q := fun _ => True); [apply returns_lift|]. intros _ _.
      apply returns_ret. exact I.
    + apply returns_bind with (Q := fun _ => True); [apply returns_lift|]. intros _ _.
      exact Hfb.
Qed.

Lemma finish_attempt_returns prompt model max_output_tokens temperature top_p
      max_retries attempt r :
  (exists n, generate n prompt model max_output_tokens temperature top_p = r) ->
  returns_with (finish_attempt env strftime_date prompt model max_retries attempt r)
               (pass_ok_v generate prompt model max_output_tokens temperature top_p).
Proof.
  intros [n Hn]. unfold finish_attempt. apply returns_try.
  - destruct r as [sdk|e]; cbn [receive].
    + apply when_bind with (Q := fun p => p = provider_response prompt model sdk).
      { apply when_of_returns, returns_ret. reflexivity. }
      intros response ->.
      apply when_bind
        with (Q := fun r => source r = "vertex_ai"%string
                            /\ text r = r_text (provider_response prompt model sdk)).
      { apply when_of_returns, on_response_returns. }
      intros result [Hsrc Htext]. apply when_of_returns, returns_ret.
      right. split; [exact Hsrc|]. exists n, sdk. split; assumption.
    + intros st s a st' s' Hrun. cbn in Hrun. discriminate.
  - intros e. apply on_exception_returns.
Qed.

Lemma attempt_body_returns_v prompt model max_output_tokens temperature top_p
      max_retries attempt :
  returns_with (attempt_body env strftime_date generate prompt model max_output_tokens
                             temperature top_p max_retries attempt)
               (pass_ok_v generate prompt model max_output_tokens temperature top_p).
Proof.
  unfold attempt_body.
  apply returns_bind
    with (Q := fun r => exists n,
                   generate n prompt model max_output_tokens temperature top_p = r).
  - unfold begin_attempt.
    apply returns_bind with (Q := fun _ => True); [apply returns_lift|]. intros _ _.
    intros st s. unfold Eff.lift, Sys.bind, dispatch, Sys.invoke, Sys.ret.
    eexists. eexists. eexists. split; [reflexivity|].
    exists (Sys.provider_calls s). reflexivity.
  - intros r Hr. apply finish_attempt_returns. exact Hr.
Qed.

Lemma retry_loop_returns_v prompt model max_output_tokens temperature top_p
      max_retries attempts :
  returns_with (retry_loop env strftime_date generate prompt model max_output_tokens
                           temperature top_p max_retries attempts)
               (fun o => match o with
                         | Some r =>
                             fallback_tagged r
                             \/ live_tagged generate prompt model max_output_tokens
                                            temperature top_p r
                         | None => True
                         end).
Proof.
  induction attempts as [|attempt rest IH]; cbn [retry_loop].
  - apply returns_ret. exact I.
  - eapply returns_bind; [apply attempt_body_returns_v|].
    intros [|r] Hc.
    + exact IH.
    + apply returns_ret. exact Hc.
Qed.

(** The rate of the bucket is set by the constructor and never written
    again; with a rate that is not zero the wait of line 330 is defined. *)
Lemma rate_limit_acquire_returns (self : t) (s : Sys.t) :
  tokens_per_minute self <> 0%Z ->
  exists self' s', _rate_limit_acquire env self s = (Returns tt, self', s').
Proof.
  intros Hrate. apply Z.eqb_neq in Hrate.
  unfold _rate_limit_acquire, rate_limit_take, rate_limit_resume. plumbing.
  cbn [Sys.time_time set_bucket rate_limit_tokens tokens_per_minute].
  match goal with |- context [if Qge_bool ?b 1 then _ else _] =>
    destruct (Qge_bool b 1) end.
  - eexists. eexists. reflexivity.
  - rewrite Hrate. eexists. eexists. reflexivity.
Qed.

Lemma call_model_returns prompt model max_output_tokens temperature top_p max_retries
      (self : t) (s : Sys.t) :
  tokens_per_minute self <> 0%Z ->
  exists r self' s',
    call_model env strftime_date generate prompt model max_output_tokens
               temperature top_p max_retries self s
    = (Returns r, self', s')
    /\ (fallback_tagged r
        \/ live_tagged generate prompt model max_output_tokens temperature top_p r).
Proof.
  intros Hrate.
  assert (Hfb : returns_with (_fallback_response prompt model)
                  (fun r => fallback_tagged r
                            \/ live_tagged generate prompt model max_output_tokens
                                           temperature top_p r)).
  { apply returns_weaken with (1 := fallback_response_returns prompt model). auto. }
  unfold call_model. unfold Eff.bind at 1. unfold Sys.bind at 1. cbn [Eff.get Sys.ret].
  destruct (use_fallback self); [apply Hfb|].
  destruct (rate_limit_acquire_returns self s Hrate) as (self1 & s1 & Hacq).
  unfold Eff.bind at 1. unfold Sys.bind at 1. rewrite Hacq.
  revert self1 s1 Hacq. intros self1 s1 _.
  assert (Hrest : returns_with
            (Eff.bind (retry_loop env strftime_date generate prompt model
                                  max_output_tokens temperature top_p max_retries
                                  (range max_retries))
                      (fun r => match r with
                                | Some result => Eff.ret result
                                | None => _fallback_response prompt model
                                end))
            (fun r => fallback_tagged r
                      \/ live_tagged generate prompt model max_output_tokens
                                     temperature top_p r)).
  { eapply returns_bind; [apply retry_loop_returns_v|].
    intros [r|] Hr; [|exact Hfb]. apply returns_ret. exact Hr. }
  apply Hrest.
Qed.

End TotalityVertex.

Section Rate.
Import VertexAI Runs.

Context {St : Type}.
Variable I : St -> Prop.

Lemma keeps_ret {A} (a : A) (P : A -> Prop) : P a -> keeps I (Eff.ret a) P.
Proof.
  intros HP st s r st' s' HI H. injection H as <- <- _. split; [exact HI|].
  intros a0 Ha. injection Ha as <-. exact HP.
Qed.

Lemma keeps_raise {A} (e : exn) (P : A -> Prop) : keeps I (Eff.raise e) P.
Proof.
  intros st s r st' s' HI H. injection H as <- <- _. split; [exact HI|].
  intros a0 Ha. discriminate.
Qed.

Lemma keeps_lift {A} (m : Sys.M A) : keeps I (Eff.lift m) (fun _ => True).
Proof.
  intros st s r st' s' HI H. unfold Eff.lift, Sys.bind in H.
  destruct (m s) as [a s1]. injection H as _ <- _. split; [exact HI|]. auto.
Qed.

Lemma keeps_get : keeps I Eff.get I.
Proof.
  intros st s r st' s' HI H. injection H as <- <- _. split; [exact HI|].
  intros a Ha. injection Ha as <-. exact HI.
Qed.

Lemma keeps_put (st0 : St) : I st0 -> keeps I (Eff.put st0) (fun _ => True).
Proof.
  intros H0 st s r st' s' HI H. injection H as _ <- _. split; [exact H0|]. auto.
Qed.

Lemma keeps_bind {A B} (m : Eff.M St A) (k : A -> Eff.M St B)
  (Q : A -> Prop) (P : B -> Prop) :
  keeps I m Q -> (forall a, Q a -> keeps I (k a) P) -> keeps I (Eff.bind m k) P.
Proof.
  intros Hm Hk st s r st' s' HI H. unfold Eff.bind, Sys.bind in H.
  destruct (m st s) as [[[a|e] st1] s1] eqn:E;
    destruct (Hm _ _ _ _ _ HI E) as [HI1 HQ].
  - apply (Hk a (HQ a eq_refl) _ _ _ _ _ HI1 H).
  - injection H as <- <- _. split; [exact HI1|]. intros a Ha. discriminate.
Qed.

Lemma keeps_try {A} (m : Eff.M St A) (h : exn -> Eff.M St A) (P : A -> Prop) :
  keeps I m P -> (forall e, keeps I (h e) P) -> keeps I (Eff.try_except m h) P.
Proof.
  intros Hm Hh st s r st' s' HI H. unfold Eff.try_except, Sys.bind in H.
  destruct (m st s) as [[[a|e] st1] s1] eqn:E;
    destruct (Hm _ _ _ _ _ HI E) as [HI1 HQ].
  - injection H as <- <- _. split; [exact HI1|].
    intros a0 Ha. injection Ha as <-. apply HQ. reflexivity.
  - apply (Hh e _ _ _ _ _ HI1 H).
Qed.

Lemma keeps_weaken {A} (m : Eff.M St A) (P Q : A -> Prop) :
  keeps I m P -> (forall a, P a -> Q a) -> keeps I m Q.
Proof.
  intros Hm HPQ st s r st' s' HI H. destruct (Hm _ _ _ _ _ HI H) as [HI1 HP].
  split; [exact HI1|]. intros a Ha. apply HPQ, HP, Ha.
Qed.

End Rate.


Section SaneVertex.
Import VertexAI Runs.

Variable env : Sys.Env.
Variable strftime_date : Q -> string.
Variable generate : nat -> string -> string -> Z -> Q -> Q -> outcome SdkResponse.
Variable rate : Z.

Local Abbreviation sane :=
  (fun self : t => tokens_per_minute self = rate /\ (0 <= failure_count self)%Z).

Ltac keep_lift := apply keeps_bind with (Q := fun _ => True); [apply keeps_lift|intros ? _].
Ltac keep_get self H := apply keeps_bind with (Q := sane); [apply keeps_get|intros self H].
Ltac sane_put :=
  repeat match goal with H : _ /\ _ |- _ => destruct H end;
  split; [assumption | cbn; lia].
Ltac keep_put := apply keeps_bind with (Q := fun _ => True);
                 [apply keeps_put; sane_put|intros _ _].

Lemma fallback_response_keeps_sane prompt model :
  keeps sane (_fallback_response prompt model) (fun _ => True).
Proof. unfold _fallback_response. keep_lift. apply keeps_ret. exact I. Qed.

Lemma track_cost_keeps_sane model input_tokens output_tokens :
  keeps sane (_track_cost env strftime_date model input_tokens output_tokens)
        (fun _ => True).
Proof.
  unfold _track_cost. keep_get self Hself.
  destruct (model_costs self !! model) as [costs|].
  - keep_lift. keep_put.
    apply keeps_bind with (Q := fun _ => True).
    { match goal with |- context [if ?b then _ else _] => destruct b end;
        [apply keeps_lift | apply keeps_ret; exact I]. }
    intros _ _. keep_lift. apply keeps_ret. exact I.
  - keep_lift. apply keeps_ret. exact I.
Qed.

Lemma rate_limit_acquire_keeps_sane :
  keeps sane (_rate_limit_acquire env) (fun _ => True).
Proof.
  unfold _rate_limit_acquire, rate_limit_take, rate_limit_resume.
  apply keeps_bind with (Q := fun _ => True).
  { keep_get self Hself. keep_lift.
    match goal with |- context [if Qge_bool ?b 1 then _ else _] =>
      destruct (Qge_bool b 1) end.
    - keep_put. apply keeps_ret. exact I.
    - keep_put. cbn [set_bucket tokens_per_minute].
      destruct (tokens_per_minute self =? 0)%Z; [apply keeps_raise|].
      keep_lift. apply keeps_ret. exact I. }
  intros [wait_time|] _.
  - keep_lift. keep_get self Hself. apply keeps_put. exact Hself.
  - apply keeps_ret. exact I.
Qed.

Lemma on_exception_keeps_sane prompt model max_retries attempt e :
  keeps sane (on_exception env prompt model max_retries attempt e) (fun _ => True).
Proof.
  assert (Hfb : keeps sane
                  (Eff.bind (_fallback_response prompt model)
                            (fun fb => Eff.ret (Return fb))) (fun _ => True)).
  { eapply keeps_bind; [apply fallback_response_keeps_sane|].
    intros fb _. apply keeps_ret. exact I. }
  unfold on_exception, record_failure.
  apply keeps_bind with (Q := fun _ => True).
  { keep_get self Hself. keep_lift. keep_put. apply keeps_lift. }
  intros _ _. keep_get self Hself.
  destruct (failure_count self >=? 5)%Z.
  - keep_put. keep_lift. exact Hfb.
  - destruct (attempt <? max_retries - 1)%Z.
    + keep_lift. keep_lift. keep_lift. apply keeps_ret. exact I.
    + keep_lift. exact Hfb.
Qed.

Lemma attempt_body_keeps_sane prompt model max_output_tokens temperature top_p
      max_retries attempt :
  keeps sane (attempt_body env strftime_date generate prompt model max_output_tokens
                              temperature top_p max_retries attempt) (fun _ => True).
Proof.
  unfold attempt_body, begin_attempt, finish_attempt.
  apply keeps_bind with (Q := fun _ => True).
  { keep_lift. apply keeps_lift. }
  intros r _. apply keeps_try.
  - apply keeps_bind with (Q := fun _ => True).
    { destruct r; [apply keeps_ret; exact I | apply keeps_raise]. }
    intros response _. unfold on_response.
    apply keeps_bind with (Q := fun _ => True).
    { keep_get self Hself. keep_put.
      apply keeps_bind with (Q := fun _ => True); [apply track_cost_keeps_sane|].
      intros cost _. keep_lift. apply keeps_ret. exact I. }
    intros result _. apply keeps_ret. exact I.
  - intros e. apply on_exception_keeps_sane.
Qed.

Lemma retry_loop_keeps_sane prompt model max_output_tokens temperature top_p
      max_retries attempts :
  keeps sane (retry_loop env strftime_date generate prompt model max_output_tokens
                            temperature top_p max_retries attempts) (fun _ => True).
Proof.
  induction attempts as [|attempt rest IH]; cbn [retry_loop].
  - apply keeps_ret. exact I.
  - eapply keeps_bind; [apply attempt_body_keeps_sane|].
    intros [|r] _; [exact IH|apply keeps_ret; exact I].
Qed.

(** [call_model] does not write the rate of the bucket, and it leaves a
    failure count that is not negative so. *)
Lemma call_model_keeps_sane prompt model max_output_tokens temperature top_p max_retries :
  keeps sane (call_model env strftime_date generate prompt model max_output_tokens
                            temperature top_p max_retries) (fun _ => True).
Proof.
  unfold call_model. keep_get self Hself.
  destruct (use_fallback self); [apply fallback_response_keeps_sane|].
  apply keeps_bind with (Q := fun _ => True); [apply rate_limit_acquire_keeps_sane|].
  intros _ _. eapply keeps_bind; [apply retry_loop_keeps_sane|].
  intros [r|] _; [apply keeps_ret; exact I|apply fallback_response_keeps_sane].
Qed.

End SaneVertex.

Section VertexTotal.
Import VertexAI Runs.

(** X22.  [VertexAIClient.call_model] on an instance as the code makes
    them, with the bucket rate 100 of the constructor and a failure count that
    is not negative, returns a result and does not raise, whatever the provider
    does: its source is "fallback" (with cost zero), or its source is
    "vertex_ai" and it carries the text of an answer of the SDK.  The instance
    it leaves again has the rate 100 and a failure count that is not negative,
    and the constructor builds an instance with rate 100 and count 0: so the
    same holds of every later call. *)
Theorem call_model_total :
  forall (env : Sys.Env) (strftime_date : Q -> string)
         (generate : nat -> string -> string -> Z -> Q -> Q -> outcome SdkResponse)
         (prompt model : string) (max_output_tokens : Z) (temperature top_p : Q)
         (max_retries : Z) (self : t) (s : Sys.t),
    tokens_per_minute self = 100%Z ->
    (0 <= failure_count self)%Z ->
    (exists r self' s',
        call_model env strftime_date generate prompt model max_output_tokens
                   temperature top_p max_retries self s
        = (Returns r, self', s')
        /\ (fallback_tagged r
            \/ live_tagged generate prompt model max_output_tokens temperature top_p r)
        /\ tokens_per_minute self' = 100%Z
        /\ (0 <= failure_count self')%Z)
    /\ (forall available init_ok project location budget force,
           let built := fst (__init__ env available init_ok project location budget
                                      force s) in
           tokens_per_minute built = 100%Z /\ failure_count built = 0%Z).
Proof.
  intros env strftime_date generate prompt model max_output_tokens temperature top_p
         max_retries self s Hrate Hcount. split.
  - assert (Hnz : tokens_per_minute self <> 0%Z) by (rewrite Hrate; discriminate).
    destruct (call_model_returns env strftime_date generate prompt model
                max_output_tokens temperature top_p max_retries self s Hnz)
      as (r & self' & s' & Hrun & Hr).
    exists r, self', s'. split; [exact Hrun|]. split; [exact Hr|].
    exact (proj1 (call_model_keeps_sane env strftime_date generate 100 prompt model
                    max_output_tokens temperature top_p max_retries self s
                    (Returns r) self' s' (conj Hrate Hcount) Hrun)).
  - intros. subst built. unfold __init__, Sys.bind, Sys.time_time.
    repeat match goal with |- context [if ?b then _ else _] => destruct b end;
      split; reflexivity.
Qed.

End VertexTotal.

Section VertexTotalSamples.
Import VertexAI Runs Samples.

Lemma call_model_total_witness :
  tokens_per_minute client = 100%Z
  /\ (0 <= failure_count client)%Z
  /\ exists r self' s',
       call_model quiet calendar outage "price this" "gemini-2.0-flash" 256 0.7 0.95 3
                  client (boot 0)
       = (Returns r, self', s')
       /\ (fallback_tagged r
           \/ live_tagged outage "price this" "gemini-2.0-flash" 256 0.7 0.95 r)
       /\ tokens_per_minute self' = 100%Z
       /\ (0 <= failure_count self')%Z.
Proof.
  assert (Hrate : tokens_per_minute client = 100%Z) by (vm_compute; reflexivity).
  assert (Hcount : (0 <= failure_count client)%Z) by (vm_compute; discriminate).
  split; [exact Hrate|]. split; [exact Hcount|].
  exact (proj1 (call_model_total quiet calendar outage "price this" "gemini-2.0-flash"
                  256 0.7 0.95 3 client (boot 0) Hrate Hcount)).
Defined.

End VertexTotalSamples.

(** ** [call_llm] on a platform that can refuse *)

Section Refusals.
Import LlmClient Runs Samples.

(** C1, where the code raises.  [call_llm] does not always return.  On a
    stream that cannot encode the symbols of its messages, the [print] of the
    exception handler (line 207) raises UnicodeEncodeError to the caller once
    the provider has failed; so does the [print] of line 179 when the budget
    check denies the request, and then the provider has not been asked at all.
    On any stream, a [max_tokens] beyond the doubles raises OverflowError on
    line 175.  These lines stand before the [try] or inside its handler. *)
Theorem call_llm_raises :
  fst (fst (OnPlatform.call_llm quiet ascii_platform failing "price this" true 256 0.7 3
                                ready (boot 0)))
  = Raises UnicodeEncodeError
  /\ fst (fst (OnPlatform.call_llm quiet ascii_platform always_ok "price this" true
                                   1000000000 0.7 3 ready (boot 0)))
     = Raises UnicodeEncodeError
  /\ fst (fst (OnPlatform.call_llm quiet utf8_platform always_ok "price this" true
                                   (10 ^ 400) 0.7 3 ready (boot 0)))
     = Raises OverflowError
  /\ Sys.provider_calls
       (snd (OnPlatform.call_llm quiet ascii_platform always_ok "price this" true
                                 1000000000 0.7 3 ready (boot 0)))
     = 0%nat.
Proof. repeat split; vm_compute; reflexivity. Qed.

End Refusals.

Section PlatformTotal.
Import LlmClient Runs.

Variable env : Sys.Env.
Variable platform : Platform.t.
Variable gemini : nat -> string -> Z -> Q -> outcome Response.

Hypothesis stdout_takes : forall m, Platform.stdout platform m = None.
Hypothesis sleep_takes :
  forall d, 0 <= d -> d <= inject_Z (2 ^ 33 + 1) -> Platform.time_sleep platform d = None.
Hypothesis uniform_unit :
  forall n, 0 <= Sys.uniform01 env n /\ Sys.uniform01 env n <= 1.

Lemma print_returns (m : Sys.message) :
  returns_with (OnPlatform.print platform m) (fun _ => True).
Proof.
  intros g s. unfold OnPlatform.print, OnPlatform.step, Platform.print.
  rewrite stdout_takes. unfold Sys.bind, Sys.emit, Sys.ret.
  eexists. eexists. eexists. split; [reflexivity|exact I].
Qed.

Lemma sleep_returns (d : Q) :
  0 <= d -> d <= inject_Z (2 ^ 33 + 1) ->
  returns_with (OnPlatform.sleep platform d) (fun _ => True).
Proof.
  intros Hlo Hhi g s. unfold OnPlatform.sleep, OnPlatform.step, Platform.sleep.
  rewrite (sleep_takes d Hlo Hhi). unfold Sys.bind, Sys.sleep, Sys.ret.
  eexists. eexists. eexists. split; [reflexivity|exact I].
Qed.

Lemma float_of_int_converts (n : Z) :
  (Z.abs n < float_limit)%Z -> float_of_int n = Returns (inject_Z n).
Proof.
  intros H. unfold float_of_int. apply Z.ltb_lt in H. rewrite H. reflexivity.
Qed.

Lemma float_returns (n : Z) :
  (Z.abs n < float_limit)%Z ->
  returns_with (OnPlatform.float n) (fun q => q = inject_Z n).
Proof.
  intros H g s. unfold OnPlatform.float, OnPlatform.step, Sys.bind, Sys.ret.
  rewrite (float_of_int_converts n H).
  eexists. eexists. eexists. split; reflexivity.
Qed.

Lemma uniform_returns :
  returns_with (St := Globals) (Eff.lift (Sys.random_uniform env))
               (fun u => 0 <= u /\ u <= 1).
Proof.
  intros g s. unfold Eff.lift, Sys.bind, Sys.random_uniform, Sys.ret.
  eexists. eexists. eexists. split; [reflexivity|apply uniform_unit].
Qed.

Lemma power_converts (attempt : Z) :
  (0 <= attempt <= 34)%Z -> (Z.abs (2 ^ attempt) < float_limit)%Z.
Proof.
  intros [Hlo Hhi].
  assert (Hpos : (0 < 2 ^ attempt)%Z) by (apply Z.pow_pos_nonneg; lia).
  assert (Hle : (2 ^ attempt <= 2 ^ 34)%Z) by (apply Z.pow_le_mono_r; lia).
  assert (Hlim : (2 ^ 34 < float_limit)%Z) by (apply Z.ltb_lt; vm_compute; reflexivity).
  rewrite Z.abs_eq; lia.
Qed.

Lemma backoff_fits (attempt : Z) (u : Q) :
  (0 <= attempt <= 33)%Z -> 0 <= u -> u <= 1 ->
  0 <= inject_Z (2 ^ attempt) + u /\ inject_Z (2 ^ attempt) + u <= inject_Z (2 ^ 33 + 1).
Proof.
  intros [Hlo Hhi] Hu0 Hu1.
  assert (Hpos : (0 < 2 ^ attempt)%Z) by (apply Z.pow_pos_nonneg; lia).
  assert (Hle : (2 ^ attempt <= 2 ^ 33)%Z) by (apply Z.pow_le_mono_r; lia).
  assert (H0 : 0 <= inject_Z (2 ^ attempt)).
  { change 0 with (inject_Z 0). rewrite <- Zle_Qle. lia. }
  assert (H1 : inject_Z (2 ^ attempt) <= inject_Z (2 ^ 33)) by (rewrite <- Zle_Qle; exact Hle).
  rewrite inject_Z_plus. change (inject_Z 1) with 1. split; lra.
Qed.

Lemma deterministic_fallback_returns_on prompt :
  returns_with (OnPlatform._deterministic_fallback platform prompt)
               (fun r => r = fallback_result prompt).
Proof.
  unfold OnPlatform._deterministic_fallback.
  apply returns_bind with (Q := fun _ => True).
  { apply sleep_returns.
    - unfold Qle; simpl; lia.
    - unfold Qle; simpl; lia. }
  intros _ _. apply returns_ret. reflexivity.
Qed.

Lemma on_exception_returns_on (P : control -> Prop) max_retries attempt e :
  (0 <= attempt <= 34)%Z -> (max_retries <= 35)%Z -> P Continue ->
  returns_with (OnPlatform.on_exception env platform max_retries attempt e) P.
Proof.
  intros Hattempt Hretries HP. unfold OnPlatform.on_exception.
  apply returns_bind with (Q := fun u => 0 <= u /\ u <= 1); [apply uniform_returns|].
  intros u [Hu0 Hu1].
  apply returns_bind with (Q := fun q => q = inject_Z (2 ^ attempt)).
  { apply float_returns, power_converts, Hattempt. }
  intros backoff ->.
  apply returns_bind with (Q := fun _ => True); [apply print_returns|]. intros _ _.
  destruct (attempt <? max_retries - 1)%Z eqn:Hlt.
  - apply Z.ltb_lt in Hlt.
    assert (Hfit := backoff_fits attempt u ltac:(lia) Hu0 Hu1).
    apply returns_bind with (Q := fun _ => True); [apply print_returns|]. intros _ _.
    apply returns_bind with (Q := fun _ => True);
      [apply sleep_returns; apply Hfit|]. intros _ _.
    apply returns_ret. exact HP.
  - apply returns_bind with (Q := fun _ => True); [apply print_returns|]. intros _ _.
    apply returns_ret. exact HP.
Qed.

Lemma try_call_when_returns prompt max_tokens temperature :
  when_returns (OnPlatform.try_call env platform gemini prompt max_tokens temperature)
               (pass_ok gemini prompt max_tokens temperature).
Proof.
  unfold OnPlatform.try_call.
  apply when_bind with (Q := fun _ => True); [apply when_trivial|].
  intros granted _. destruct granted; cbn [negb].
  - apply when_bind with (Q := from_gemini gemini prompt max_tokens temperature);
      [apply guarded_result|].
    intros r Hr. apply when_bind with (Q := fun _ => True); [apply when_trivial|].
    intros _ _. apply when_of_returns, returns_ret. exact Hr.
  - apply when_bind with (Q := fun _ => True); [apply when_trivial|]. intros _ _.
    apply when_bind with (Q := fun _ => True); [apply when_trivial|]. intros _ _.
    apply when_of_returns, returns_ret. exact I.
Qed.

Lemma attempt_body_returns_on prompt max_tokens temperature max_retries attempt :
  (0 <= attempt <= 34)%Z -> (max_retries <= 35)%Z ->
  returns_with (OnPlatform.attempt_body env platform gemini prompt max_tokens temperature
                                        max_retries attempt)
               (pass_ok gemini prompt max_tokens temperature).
Proof.
  intros Hattempt Hretries. unfold OnPlatform.attempt_body. apply returns_try.
  - apply try_call_when_returns.
  - intros e. apply on_exception_returns_on; [exact Hattempt|exact Hretries|exact I].
Qed.

Lemma retry_loop_returns_on prompt max_tokens temperature max_retries attempts :
  (max_retries <= 35)%Z ->
  Forall (fun attempt => (0 <= attempt <= 34)%Z) attempts ->
  returns_with (OnPlatform.retry_loop env platform gemini prompt max_tokens temperature
                                      max_retries attempts)
               (fun o => match o with
                         | Some r => from_gemini gemini prompt max_tokens temperature r
                         | None => True
                         end).
Proof.
  intros Hretries Hall.
  induction Hall as [|attempt rest Hattempt _ IH]; cbn [OnPlatform.retry_loop].
  - apply returns_ret. exact I.
  - apply returns_bind with (Q := pass_ok gemini prompt max_tokens temperature);
      [apply attempt_body_returns_on; assumption|].
    intros [|r] Hc; [exact IH|]. apply returns_ret. exact Hc.
Qed.

Lemma range_bound (n : Z) : Forall (fun i => (0 <= i < n)%Z) (range n).
Proof.
  unfold range. apply List.Forall_forall. intros i Hin.
  apply in_map_iff in Hin. destruct Hin as (k & <- & Hk).
  apply in_seq in Hk. lia.
Qed.

(** X21.  On a platform whose stream takes every line and whose
    [time.sleep] takes the delays from 0 to [2 ** 33 + 1] seconds, with the
    draws of [random.uniform(0, 1)] in the unit interval, a [max_tokens]
    within the doubles and at most 35 attempts, [call_llm] returns and does not
    raise, whatever the provider does and whatever the state of the instances:
    the result is that of [_deterministic_fallback], or one that an invocation
    of the provider returned.  (From the 36th attempt on the backoff
    [2 ** attempt] would exceed the longest delay.) *)
Theorem call_llm_returns_on_platform :
  forall (prompt : string) (use_gemini : bool) (max_tokens : Z) (temperature : Q)
         (max_retries : Z) (g : Globals) (s : Sys.t),
    (Z.abs max_tokens < float_limit)%Z ->
    (max_retries <= 35)%Z ->
    exists r g' s',
      OnPlatform.call_llm env platform gemini prompt use_gemini max_tokens temperature
                          max_retries g s
      = (Returns r, g', s')
      /\ (r = fallback_result prompt
          \/ from_gemini gemini prompt max_tokens temperature r).
Proof.
  intros prompt use_gemini max_tokens temperature max_retries g s Hfloat Hretries.
  revert g s.
  change (returns_with
            (OnPlatform.call_llm env platform gemini prompt use_gemini max_tokens
                                 temperature max_retries)
            (fun r => r = fallback_result prompt
                      \/ from_gemini gemini prompt max_tokens temperature r)).
  assert (Hfb : returns_with (OnPlatform._deterministic_fallback platform prompt)
                  (fun r => r = fallback_result prompt
                            \/ from_gemini gemini prompt max_tokens temperature r)).
  { apply returns_weaken with (1 := deterministic_fallback_returns_on prompt). auto. }
  unfold OnPlatform.call_llm.
  destruct (gemini_enabled env use_gemini); [|exact Hfb].
  apply returns_bind with (Q := fun q => q = inject_Z max_tokens);
    [apply float_returns, Hfloat|].
  intros requested ->.
  apply returns_bind with (Q := fun _ => True).
  { intros g s. unfold budget_tracker_check_budget, Sys.bind.
    destruct (BudgetTracker.check_budget env _ (budget_tracker g) s) as [[ok bt] s1].
    eexists. eexists. eexists. split; [reflexivity|exact I]. }
  intros allowed _. destruct allowed; cbn [negb].
  - eapply returns_bind.
    + apply retry_loop_returns_on; [exact Hretries|].
      apply List.Forall_impl with (2 := range_bound max_retries). intros i Hi. cbv beta. lia.
    + intros [r|] Hr; [|exact Hfb]. apply returns_ret. right. exact Hr.
  - apply returns_bind with (Q := fun _ => True); [apply print_returns|]. intros _ _.
    exact Hfb.
Qed.

End PlatformTotal.

Section Agrees.
Import Runs.
Context {St : Type}.

Lemma agrees_refl {A} (m : Eff.M St A) : agrees m m.
Proof. intros st s. reflexivity. Qed.

Lemma agrees_bind {A B} (m m' : Eff.M St A) (k k' : A -> Eff.M St B) (Q : A -> Prop) :
  agrees m m' -> when_returns m' Q ->
  (forall a, Q a -> agrees (k a) (k' a)) ->
  agrees (Eff.bind m k) (Eff.bind m' k').
Proof.
  intros Hm HQ Hk st s. unfold Eff.bind, Sys.bind. rewrite Hm.
  destruct (m' st s) as [[[a|e] st1] s1] eqn:E; [|reflexivity].
  apply Hk. exact (HQ _ _ _ _ _ E).
Qed.

Lemma agrees_try {A} (m m' : Eff.M St A) (h h' : exn -> Eff.M St A) :
  agrees m m' -> (forall e, agrees (h e) (h' e)) ->
  agrees (Eff.try_except m h) (Eff.try_except m' h').
Proof.
  intros Hm Hh st s. unfold Eff.try_except, Sys.bind. rewrite Hm.
  destruct (m' st s) as [[[a|e] st1] s1]; [reflexivity|apply Hh].
Qed.

End Agrees.

Section PlatformAgrees.
Import LlmClient Runs.

Variable env : Sys.Env.
Variable platform : Platform.t.
Variable gemini : nat -> string -> Z -> Q -> outcome Response.

Hypothesis stdout_takes : forall m, Platform.stdout platform m = None.
Hypothesis sleep_takes :
  forall d, 0 <= d -> d <= inject_Z (2 ^ 33 + 1) -> Platform.time_sleep platform d = None.
Hypothesis uniform_unit :
  forall n, 0 <= Sys.uniform01 env n /\ Sys.uniform01 env n <= 1.
Hypothesis answers_convert :
  forall n prompt max_tokens temperature r,
    gemini n prompt max_tokens temperature = Returns r ->
    (Z.abs (tokens r) < float_limit)%Z.

Lemma print_agrees (m : Sys.message) :
  agrees (OnPlatform.print platform m) (Eff.lift (St := Globals) (Sys.emit Sys.PRINT m)).
Proof.
  intros g s. unfold OnPlatform.print, OnPlatform.step, Platform.print.
  rewrite stdout_takes. reflexivity.
Qed.

Lemma sleep_agrees (d : Q) :
  0 <= d -> d <= inject_Z (2 ^ 33 + 1) ->
  agrees (OnPlatform.sleep platform d) (Eff.lift (St := Globals) (Sys.sleep d)).
Proof.
  intros Hlo Hhi g s. unfold OnPlatform.sleep, OnPlatform.step, Platform.sleep.
  rewrite (sleep_takes d Hlo Hhi). reflexivity.
Qed.

Lemma float_bind {B} (n : Z) (k : Q -> G B) :
  (Z.abs n < float_limit)%Z ->
  agrees (Eff.bind (OnPlatform.float n) k) (k (inject_Z n)).
Proof.
  intros H g s. unfold Eff.bind, OnPlatform.float, OnPlatform.step, Sys.bind, Sys.ret.
  rewrite (float_of_int_converts n H). reflexivity.
Qed.

Lemma record_usage_agrees (model : string) (tokens : Z) (bt : BudgetTracker.t) (s : Sys.t) :
  (Z.abs tokens < float_limit)%Z ->
  OnPlatform.record_usage env platform model tokens bt s
  = BudgetTracker.record_usage env model tokens bt s.
Proof.
  intros H. unfold OnPlatform.record_usage, BudgetTracker.record_usage, Sys.bind.
  destruct (BudgetTracker._reset_if_needed env bt s) as [bt1 s1].
  rewrite (float_of_int_converts tokens H). cbv zeta.
  match goal with |- context [Qeq_bool ?a 0] => destruct (Qeq_bool a 0) end;
    [reflexivity|].
  match goal with |- context [Qge_bool ?a 90] => destruct (Qge_bool a 90) end;
    [|reflexivity].
  unfold Platform.print. rewrite stdout_takes. reflexivity.
Qed.

Lemma deterministic_fallback_agrees prompt :
  agrees (OnPlatform._deterministic_fallback platform prompt)
         (_deterministic_fallback prompt).
Proof.
  unfold OnPlatform._deterministic_fallback, _deterministic_fallback.
  apply agrees_bind with (Q := fun _ => True).
  - apply sleep_agrees; unfold Qle; simpl; lia.
  - apply when_trivial.
  - intros _ _. apply agrees_refl.
Qed.

Lemma try_call_agrees prompt max_tokens temperature :
  agrees (OnPlatform.try_call env platform gemini prompt max_tokens temperature)
         (try_call env gemini prompt max_tokens temperature).
Proof.
  unfold OnPlatform.try_call, try_call.
  apply agrees_bind with (Q := fun _ => True); [apply agrees_refl|apply when_trivial|].
  intros granted _. destruct granted; cbn [negb].
  - apply agrees_bind with (Q := from_gemini gemini prompt max_tokens temperature);
      [apply agrees_refl|apply guarded_result|].
    intros r [n Hr].
    apply agrees_bind with (Q := fun _ => True); [|apply when_trivial|].
    + intros g s. unfold OnPlatform.budget_tracker_record_usage,
        budget_tracker_record_usage, Sys.bind.
      rewrite record_usage_agrees by exact (answers_convert _ _ _ _ _ Hr).
      reflexivity.
    + intros _ _. apply agrees_refl.
  - cbv zeta.
    apply agrees_bind with (Q := fun _ => True); [apply print_agrees|apply when_trivial|].
    intros _ _.
    apply agrees_bind with (Q := fun _ => True); [|apply when_trivial|].
    + apply sleep_agrees; unfold Qle; simpl; lia.
    + intros _ _. apply agrees_refl.
Qed.

Lemma on_exception_agrees max_retries attempt e :
  (0 <= attempt <= 34)%Z -> (max_retries <= 35)%Z ->
  agrees (OnPlatform.on_exception env platform max_retries attempt e)
         (on_exception env max_retries attempt e).
Proof.
  intros Hattempt Hretries. unfold OnPlatform.on_exception, on_exception.
  apply agrees_bind with (Q := fun u => 0 <= u /\ u <= 1);
    [apply agrees_refl|apply when_of_returns, uniform_returns, uniform_unit|].
  intros u [Hu0 Hu1] g s.
  rewrite (float_bind (2 ^ attempt) _ (power_converts attempt Hattempt)).
  revert g s. cbv zeta.
  apply agrees_bind with (Q := fun _ => True); [apply print_agrees|apply when_trivial|].
  intros _ _. destruct (attempt <? max_retries - 1)%Z eqn:Hlt.
  - apply Z.ltb_lt in Hlt.
    assert (Hfit := backoff_fits attempt u ltac:(lia) Hu0 Hu1).
    apply agrees_bind with (Q := fun _ => True); [apply print_agrees|apply when_trivial|].
    intros _ _.
    apply agrees_bind with (Q := fun _ => True);
      [apply sleep_agrees; apply Hfit|apply when_trivial|].
    intros _ _. apply agrees_refl.
  - apply agrees_bind with (Q := fun _ => True); [apply print_agrees|apply when_trivial|].
    intros _ _. apply agrees_refl.
Qed.

Lemma retry_loop_agrees prompt max_tokens temperature max_retries attempts :
  (max_retries <= 35)%Z ->
  Forall (fun attempt => (0 <= attempt <= 34)%Z) attempts ->
  agrees (OnPlatform.retry_loop env platform gemini prompt max_tokens temperature
                                max_retries attempts)
         (retry_loop env gemini prompt max_tokens temperature max_retries attempts).
Proof.
  intros Hretries Hall.
  induction Hall as [|attempt rest Hattempt _ IH];
    cbn [OnPlatform.retry_loop retry_loop].
  - apply agrees_refl.
  - apply agrees_bind with (Q := fun _ => True); [|apply when_trivial|].
    + unfold OnPlatform.attempt_body, attempt_body.
      apply agrees_try; [apply try_call_agrees|].
      intros e. apply on_exception_agrees; assumption.
    + intros [|r] _; [exact IH|apply agrees_refl].
Qed.

(** X23.  On a platform that refuses nothing the call asks of it (the
    stream takes every line, [time.sleep] takes the delays up to
    [2 ** 33 + 1] seconds, the draws are in the unit interval, [max_tokens]
    and the token counts of the provider's answers are within the doubles, at
    most 35 attempts), [call_llm] with the refusals of the platform runs as
    [LlmClient.call_llm], which has none: from every state, the same outcome,
    the same instances, the same clock, draws, provider calls and output. *)
Theorem call_llm_agrees prompt use_gemini max_tokens temperature max_retries :
  (Z.abs max_tokens < float_limit)%Z ->
  (max_retries <= 35)%Z ->
  agrees (OnPlatform.call_llm env platform gemini prompt use_gemini max_tokens
                              temperature max_retries)
         (call_llm env gemini prompt use_gemini max_tokens temperature max_retries).
Proof.
  intros Hfloat Hretries. unfold OnPlatform.call_llm, call_llm.
  destruct (gemini_enabled env use_gemini); [|apply deterministic_fallback_agrees].
  intros g s. rewrite (float_bind max_tokens _ Hfloat). revert g s. cbv zeta.
  change ((inject_Z max_tokens + inject_Z (split_len prompt) * 1.3) / 1000 * 0.00025)
    with (estimated_cost prompt max_tokens).
  apply agrees_bind with (Q := fun _ => True); [apply agrees_refl|apply when_trivial|].
  intros allowed _. destruct allowed; cbn [negb].
  - apply agrees_bind with (Q := fun _ => True); [|apply when_trivial|].
    + apply retry_loop_agrees; [exact Hretries|].
      apply List.Forall_impl with (2 := range_bound max_retries).
      intros i Hi. cbv beta. lia.
    + intros [r|] _; [apply agrees_refl|apply deterministic_fallback_agrees].
  - apply agrees_bind with (Q := fun _ => True); [apply print_agrees|apply when_trivial|].
    intros _ _. apply deterministic_fallback_agrees.
Qed.

End PlatformAgrees.

Section PlatformSamples.
Import LlmClient Runs Samples.

Lemma utf8_takes_lines : forall m, Platform.stdout utf8_platform m = None.
Proof. reflexivity. Qed.

Lemma utf8_takes_delays :
  forall d, 0 <= d -> d <= inject_Z (2 ^ 33 + 1) ->
            Platform.time_sleep utf8_platform d = None.
Proof.
  intros d Hlo Hhi. cbn [Platform.time_sleep utf8_platform]. unfold sleeps, longest_sleep.
  apply Qle_bool_iff in Hlo. apply Qle_bool_iff in Hhi. rewrite Hlo, Hhi. reflexivity.
Qed.

Lemma quiet_unit : forall n, 0 <= Sys.uniform01 quiet n /\ Sys.uniform01 quiet n <= 1.
Proof. intros n. cbn [Sys.uniform01 quiet env]. split; unfold Qle; simpl; lia. Qed.

Lemma always_ok_converts :
  forall n prompt max_tokens temperature r,
    always_ok n prompt max_tokens temperature = Returns r ->
    (Z.abs (tokens r) < float_limit)%Z.
Proof.
  intros n prompt max_tokens temperature r H. injection H as <-.
  apply Z.ltb_lt. vm_compute. reflexivity.
Qed.

Lemma call_llm_returns_on_platform_witness :
  (Z.abs 256 < float_limit)%Z
  /\ (3 <= 35)%Z
  /\ exists r g' s',
       OnPlatform.call_llm quiet utf8_platform failing "price this" true 256 0.7 3
                           ready (boot 0)
       = (Returns r, g', s')
       /\ (r = fallback_result "price this"
           \/ from_gemini failing "price this" 256 0.7 r).
Proof.
  assert (Hfloat : (Z.abs 256 < float_limit)%Z) by (apply Z.ltb_lt; vm_compute; reflexivity).
  assert (Hretries : (3 <= 35)%Z) by lia.
  split; [exact Hfloat|]. split; [exact Hretries|].
  exact (call_llm_returns_on_platform quiet utf8_platform failing utf8_takes_lines
           utf8_takes_delays quiet_unit "price this" true 256 0.7 3 ready (boot 0)
           Hfloat Hretries).
Defined.

Lemma call_llm_agrees_witness :
  (Z.abs 256 < float_limit)%Z
  /\ (3 <= 35)%Z
  /\ OnPlatform.call_llm quiet utf8_platform always_ok "price this" true 256 0.7 3
                         ready (boot 0)
     = call_llm quiet always_ok "price this" true 256 0.7 3 ready (boot 0).
Proof.
  assert (Hfloat : (Z.abs 256 < float_limit)%Z) by (apply Z.ltb_lt; vm_compute; reflexivity).
  assert (Hretries : (3 <= 35)%Z) by lia.
  split; [exact Hfloat|]. split; [exact Hretries|].
  exact (call_llm_agrees quiet utf8_platform always_ok utf8_takes_lines
           utf8_takes_delays quiet_unit always_ok_converts "price this" true 256 0.7 3
           Hfloat Hretries ready (boot 0)).
Defined.

End PlatformSamples.

(** ** The clock during a call *)

Section Clock.
Import Runs.

Variable env : Sys.Env.
Hypothesis clock_ok : monotone_clock env.

Lemma clock_step (c d : Q) : 0 <= d -> c <= c + d.
Proof.
  intros H. rewrite <- (Qplus_0_r c) at 1. apply Qplus_le_r. exact H.
Qed.

Lemma time_time_advances : advances_sys (Sys.time_time env).
Proof.
  intros s a s' H. injection H as _ <-. cbn [Sys.clock].
  apply clock_step, clock_ok.
Qed.

Lemma sleep_advances d : 0 <= d -> advances_sys (Sys.sleep d).
Proof.
  intros Hd s a s' H. injection H as _ <-. cbn [Sys.clock]. apply clock_step, Hd.
Qed.

Lemma emit_advances l m : advances_sys (Sys.emit l m).
Proof. intros s a s' H. injection H as _ <-. apply Qle_refl. Qed.

Lemma random_advances : advances_sys (Sys.random_uniform env).
Proof. intros s a s' H. injection H as _ <-. apply Qle_refl. Qed.

Lemma invoke_advances {A} (answers : nat -> outcome A) :
  advances_sys (Sys.invoke answers).
Proof. intros s a s' H. injection H as _ <-. apply Qle_refl. Qed.

Context {St : Type}.

Lemma advances_ret {A} (a : A) : advances (St := St) (Eff.ret a).
Proof. intros st s r st' s' H. injection H as _ _ <-. apply Qle_refl. Qed.

Lemma advances_get : advances (St := St) Eff.get.
Proof. intros st s r st' s' H. injection H as _ _ <-. apply Qle_refl. Qed.

Lemma advances_put (st0 : St) : advances (Eff.put st0).
Proof. intros st s r st' s' H. injection H as _ _ <-. apply Qle_refl. Qed.

Lemma advances_lift {A} (m : Sys.M A) :
  advances_sys m -> advances (St := St) (Eff.lift m).
Proof.
  intros Hm st s r st' s' H. unfold Eff.lift, Sys.bind in H.
  destruct (m s) as [a s1] eqn:E. injection H as _ _ <-. apply (Hm _ _ _ E).
Qed.

Lemma advances_bind {A B} (m : Eff.M St A) (k : A -> Eff.M St B) :
  advances m -> (forall a, advances (k a)) -> advances (Eff.bind m k).
Proof.
  intros Hm Hk st s r st' s' H. unfold Eff.bind, Sys.bind in H.
  destruct (m st s) as [[[a|e] st1] s1] eqn:E.
  - apply Qle_trans with (Sys.clock s1); [apply (Hm _ _ _ _ _ E)|].
    apply (Hk a _ _ _ _ _ H).
  - injection H as _ _ <-. apply (Hm _ _ _ _ _ E).
Qed.

Lemma advances_try {A} (m : Eff.M St A) (h : exn -> Eff.M St A) :
  advances m -> (forall e, advances (h e)) -> advances (Eff.try_except m h).
Proof.
  intros Hm Hh st s r st' s' H. unfold Eff.try_except, Sys.bind in H.
  destruct (m st s) as [[[a|e] st1] s1] eqn:E.
  - injection H as _ _ <-. apply (Hm _ _ _ _ _ E).
  - apply Qle_trans with (Sys.clock s1); [apply (Hm _ _ _ _ _ E)|].
    apply (Hh e _ _ _ _ _ H).
Qed.

End Clock.

Section ClockLlm.
Import LlmClient Runs.

Variable env : Sys.Env.
Variable gemini : nat -> string -> Z -> Q -> outcome Response.
Hypothesis clock_ok : monotone_clock env.
Hypothesis jitter_ok : jitter_nonneg env.

Lemma acquire_advances rl : advances_sys (RateLimiter.acquire env rl).
Proof.
  intros s a s' H. unfold RateLimiter.acquire, RateLimiter._refill, Sys.bind in H.
  destruct (Sys.time_time env s) as [now s1] eqn:E. unfold Sys.ret in H.
  match type of H with context [if ?b then _ else _] => destruct b end;
    injection H as _ <-; apply (time_time_advances env clock_ok _ _ _ E).
Qed.

Lemma reset_advances bt : advances_sys (BudgetTracker._reset_if_needed env bt).
Proof.
  intros s a s' H. unfold BudgetTracker._reset_if_needed, Sys.bind in H.
  destruct (Sys.time_time env s) as [now s1] eqn:E.
  pose proof (time_time_advances env clock_ok _ _ _ E) as H1.
  destruct (Qgt_bool now (BudgetTracker.reset_time bt)).
  - destruct (Sys.time_time env s1) as [now' s2] eqn:E2.
    pose proof (time_time_advances env clock_ok _ _ _ E2) as H2.
    injection H as _ <-. apply Qle_trans with (Sys.clock s1); assumption.
  - injection H as _ <-. exact H1.
Qed.

Lemma check_budget_advances cost bt :
  advances_sys (BudgetTracker.check_budget env cost bt).
Proof.
  intros s a s' H. unfold BudgetTracker.check_budget, Sys.bind in H.
  destruct (BudgetTracker._reset_if_needed env bt s) as [bt1 s1] eqn:E.
  injection H as _ <-. apply (reset_advances _ _ _ _ E).
Qed.

Lemma record_usage_advances model tokens bt :
  advances_sys (BudgetTracker.record_usage env model tokens bt).
Proof.
  intros s a s' H. unfold BudgetTracker.record_usage, Sys.bind in H.
  destruct (BudgetTracker._reset_if_needed env bt s) as [bt1 s1] eqn:E.
  pose proof (reset_advances _ _ _ _ E) as H1.
  repeat match type of H with context [if ?b then _ else _] => destruct b end;
    cbn in H; injection H as _ <-; exact H1.
Qed.

Lemma precheck_advances cb : advances_sys (CircuitBreaker.precheck env cb).
Proof.
  intros s a s' H. unfold CircuitBreaker.precheck in H.
  destruct (CircuitBreaker.state cb);
    try (injection H as _ <-; apply Qle_refl).
  unfold Sys.bind in H. destruct (Sys.time_time env s) as [now s1] eqn:E.
  pose proof (time_time_advances env clock_ok _ _ _ E) as H1.
  destruct (CircuitBreaker.last_failure_time cb) as [last|].
  - destruct (Qgt_bool (now - last) (inject_Z (CircuitBreaker.timeout cb)));
      injection H as _ <-; exact H1.
  - injection H as _ <-. exact H1.
Qed.

Lemma settle_advances {A} (func : Sys.M (outcome A)) cb s :
  advances_sys func ->
  Sys.clock s <= Sys.clock (snd (settle env func cb s)).
Proof.
  intros Hf. unfold settle. destruct (func s) as [[a|e] s1] eqn:E;
    pose proof (Hf _ _ _ E) as H1; cbn [snd].
  - exact H1.
  - apply Qle_trans with (Sys.clock s1); [exact H1|].
    apply (time_time_advances env clock_ok s1 _ _ (surjective_pairing _)).
Qed.

Lemma call_advances {A} (func : Sys.M (outcome A)) cb :
  advances_sys func -> advances_sys (CircuitBreaker.call env func cb).
Proof.
  intros Hf s a s' H.
  destruct (CircuitBreaker.precheck env cb s) as [[[[]|e] cb1] s1] eqn:E;
    pose proof (precheck_advances _ _ _ _ E) as H1.
  - rewrite (call_checked env func _ _ _ _ E) in H.
    apply Qle_trans with (Sys.clock s1); [exact H1|].
    pose proof (settle_advances func cb1 s1 Hf) as H2. rewrite H in H2. exact H2.
  - unfold CircuitBreaker.call, Sys.bind in H. rewrite E in H.
    injection H as _ <-. exact H1.
Qed.

Lemma rate_limiter_acquire_advances : advances (rate_limiter_acquire env).
Proof.
  intros g s r g' s' H. unfold rate_limiter_acquire, Sys.bind in H.
  destruct (RateLimiter.acquire env (rate_limiter g) s) as [a s1] eqn:E.
  injection H as _ _ <-. apply (acquire_advances _ _ _ _ E).
Qed.

Lemma circuit_breaker_call_advances {A} (func : Sys.M (outcome A)) :
  advances_sys func -> advances (circuit_breaker_call env func).
Proof.
  intros Hf g s r g' s' H. unfold circuit_breaker_call, Sys.bind in H.
  destruct (CircuitBreaker.call env func (circuit_breaker g) s) as [a s1] eqn:E.
  injection H as _ _ <-. apply (call_advances func _ Hf _ _ _ E).
Qed.

Lemma budget_tracker_check_budget_advances cost :
  advances (budget_tracker_check_budget env cost).
Proof.
  intros g s r g' s' H. unfold budget_tracker_check_budget, Sys.bind in H.
  destruct (BudgetTracker.check_budget env cost (budget_tracker g) s) as [a s1] eqn:E.
  injection H as _ _ <-. apply (check_budget_advances _ _ _ _ _ E).
Qed.

Lemma budget_tracker_record_usage_advances model tokens :
  advances (budget_tracker_record_usage env model tokens).
Proof.
  intros g s r g' s' H. unfold budget_tracker_record_usage, Sys.bind in H.
  destruct (BudgetTracker.record_usage env model tokens (budget_tracker g) s)
    as [a s1] eqn:E.
  injection H as _ _ <-. apply (record_usage_advances _ _ _ _ _ _ E).
Qed.

Lemma backoff_nonneg (attempt : Z) (u : Q) : 0 <= u -> 0 <= inject_Z (2 ^ attempt) + u.
Proof.
  intros Hu. rewrite <- (Qplus_0_r 0). apply Qplus_le_compat; [|exact Hu].
  apply inject_Z_nonneg. apply Z.pow_nonneg. discriminate.
Qed.

Lemma on_exception_advances max_retries attempt e :
  advances (on_exception env max_retries attempt e).
Proof.
  intros g s r g' s' H. unfold on_exception in H. plumbing_in H.
  cbn [Sys.random_uniform Sys.emit Sys.sleep] in H.
  destruct (attempt <? max_retries - 1)%Z; injection H as _ _ <-; cbn [Sys.clock].
  - apply clock_step, backoff_nonneg, jitter_ok.
  - apply Qle_refl.
Qed.

Lemma try_call_advances prompt max_tokens temperature :
  advances (try_call env gemini prompt max_tokens temperature).
Proof.
  unfold try_call. apply advances_bind; [apply rate_limiter_acquire_advances|].
  intros granted. destruct granted; cbn [negb].
  - apply advances_bind.
    + apply circuit_breaker_call_advances. apply invoke_advances.
    + intros result. apply advances_bind;
        [apply budget_tracker_record_usage_advances|].
      intros _. apply advances_ret.
  - apply advances_bind; [apply advances_lift, emit_advances|]. intros _.
    apply advances_bind; [apply advances_lift, sleep_advances; discriminate|].
    intros _. apply advances_ret.
Qed.

Lemma attempt_body_advances prompt max_tokens temperature max_retries attempt :
  advances (attempt_body env gemini prompt max_tokens temperature max_retries attempt).
Proof.
  unfold attempt_body. apply advances_try.
  - apply try_call_advances.
  - intros e. apply on_exception_advances.
Qed.

Lemma retry_loop_advances prompt max_tokens temperature max_retries attempts :
  advances (retry_loop env gemini prompt max_tokens temperature max_retries attempts).
Proof.
  induction attempts as [|attempt rest IH]; cbn [retry_loop].
  - apply advances_ret.
  - apply advances_bind; [apply attempt_body_advances|].
    intros [|r]; [exact IH|apply advances_ret].
Qed.

Lemma deterministic_fallback_advances prompt :
  advances (_deterministic_fallback prompt).
Proof.
  unfold _deterministic_fallback.
  apply advances_bind; [apply advances_lift, sleep_advances; discriminate|].
  intros _. apply advances_ret.
Qed.

End ClockLlm.

(** ** Routing to the fallback *)

Section OpenBreaker.
Import LlmClient Runs.

Variable env : Sys.Env.
Variable gemini : nat -> string -> Z -> Q -> outcome Response.
Hypothesis clock_ok : monotone_clock env.
Hypothesis jitter_ok : jitter_nonneg env.

Lemma acquire_keeps_calls rl s :
  Sys.provider_calls (snd (RateLimiter.acquire env rl s)) = Sys.provider_calls s.
Proof.
  unfold RateLimiter.acquire, RateLimiter._refill, Sys.bind, Sys.time_time, Sys.ret.
  cbn [RateLimiter.tokens].
  match goal with |- context [if ?b then _ else _] => destruct b end; reflexivity.
Qed.

(** The handler goes on with the loop and leaves the objects and the count
    of provider invocations as they are. *)
Lemma on_exception_goes_on max_retries attempt e g s :
  exists s', on_exception env max_retries attempt e g s = (Returns Continue, g, s')
             /\ Sys.provider_calls s' = Sys.provider_calls s.
Proof.
  unfold on_exception. plumbing. cbn [Sys.random_uniform Sys.emit Sys.sleep].
  destruct (attempt <? max_retries - 1)%Z; eexists; split; reflexivity.
Qed.

(** The body of the [try] with the breaker OPEN since [last]: the limiter
    denies and the loop goes on; or the guard raises "breaker open"; or the
    cool-down is over when the body ends.  In the first two cases the
    breaker and the count of provider invocations are unchanged. *)
Lemma try_call_open prompt max_tokens temperature last g s r g0 s0 :
  CircuitBreaker.state (circuit_breaker g) = CircuitBreaker.OPEN ->
  CircuitBreaker.last_failure_time (circuit_breaker g) = Some last ->
  try_call env gemini prompt max_tokens temperature g s = (r, g0, s0) ->
  ((r = Returns Continue \/ r = Raises CircuitBreaker.breaker_open)
   /\ circuit_breaker g0 = circuit_breaker g
   /\ Sys.provider_calls s0 = Sys.provider_calls s)
  \/ inject_Z (CircuitBreaker.timeout (circuit_breaker g)) < Sys.clock s0 - last.
Proof.
  intros Hst Hlast H. unfold try_call in H.
  unfold Eff.bind at 1 in H. unfold Sys.bind at 1 in H.
  unfold rate_limiter_acquire, Sys.bind, Sys.ret in H.
  pose proof (acquire_keeps_calls (rate_limiter g) s) as Hpc.
  destruct (RateLimiter.acquire env (rate_limiter g) s) as [[granted rl1] s1].
  cbn [fst snd] in *. destruct granted; cbn [negb] in H.
  - unfold Eff.bind at 1 in H. unfold Sys.bind at 1 in H.
    unfold circuit_breaker_call, Sys.bind, Sys.ret in H.
    cbn [circuit_breaker rate_limiter budget_tracker] in H.
    destruct (Sys.time_time env s1) as [now s2] eqn:Etime.
    assert (Hnow : now = fst (Sys.time_time env s1)) by (rewrite Etime; reflexivity).
    assert (Hs2 : s2 = snd (Sys.time_time env s1)) by (rewrite Etime; reflexivity).
    destruct (Qgt_bool (now - last) (inject_Z (CircuitBreaker.timeout (circuit_breaker g))))
      eqn:Egt.
    + right. apply Qgt_bool_true in Egt.
      assert (Hpre : CircuitBreaker.precheck env (circuit_breaker g) s1
                     = (Returns tt,
                        CircuitBreaker.set_state CircuitBreaker.HALF_OPEN (circuit_breaker g),
                        s2)).
      { rewrite Hs2. apply precheck_elapsed with (last := last); try assumption.
        rewrite <- Hnow. exact Egt. }
      rewrite (call_checked env _ _ _ _ _ Hpre) in H.
      pose proof (settle_advances env clock_ok
                    (_call_gemini gemini prompt max_tokens temperature)
                    (CircuitBreaker.set_state CircuitBreaker.HALF_OPEN (circuit_breaker g))
                    s2 (invoke_advances _)) as Hadv.
      destruct (settle env (_call_gemini gemini prompt max_tokens temperature)
                  (CircuitBreaker.set_state CircuitBreaker.HALF_OPEN (circuit_breaker g)) s2)
        as [[[result|e] cb3] s3]; cbn [fst snd] in *.
      * assert (Hs2c : Sys.clock s2 == now).
        { rewrite Hs2, Hnow. reflexivity. }
        unfold Eff.bind, Sys.bind in H.
        match type of H with
        | context [budget_tracker_record_usage env ?m ?t ?g3 s3] =>
            destruct (budget_tracker_record_usage env m t g3 s3)
              as [[[[]|e] g4] s4] eqn:Erec;
              pose proof (budget_tracker_record_usage_advances env clock_ok _ _ _ _ _ _ _ Erec)
                as Hadv2
        end; injection H as _ _ <-; lra.
      * assert (Hs2c : Sys.clock s2 == now).
        { rewrite Hs2, Hnow. reflexivity. }
        injection H as _ _ <-. lra.
    + left. apply Qgt_bool_false in Egt.
      assert (Hpre : CircuitBreaker.precheck env (circuit_breaker g) s1
                     = (Raises CircuitBreaker.breaker_open, circuit_breaker g, s2)).
      { rewrite Hs2. apply precheck_cooling with (last := last); try assumption.
        rewrite <- Hnow. exact Egt. }
      unfold CircuitBreaker.call, Sys.bind in H. rewrite Hpre in H.
      cbn [Sys.ret fst snd] in H. injection H as <- <- <-.
      split; [right; reflexivity|]. split; [reflexivity|].
      rewrite Hs2. cbn [Sys.time_time snd Sys.provider_calls]. exact Hpc.
  - plumbing_in H. cbn [Sys.emit Sys.sleep] in H. injection H as <- <- <-.
    left. split; [left; reflexivity|]. split; [reflexivity|]. exact Hpc.
Qed.

(** One pass with the breaker OPEN since [last], when the cool-down is not
    over at the end of the pass: the loop goes on, the breaker and the count
    of provider invocations are unchanged. *)
Lemma attempt_body_open prompt max_tokens temperature max_retries attempt last g s c g1 s1 :
  CircuitBreaker.state (circuit_breaker g) = CircuitBreaker.OPEN ->
  CircuitBreaker.last_failure_time (circuit_breaker g) = Some last ->
  attempt_body env gemini prompt max_tokens temperature max_retries attempt g s
  = (c, g1, s1) ->
  Sys.clock s1 - last <= inject_Z (CircuitBreaker.timeout (circuit_breaker g)) ->
  c = Returns Continue
  /\ circuit_breaker g1 = circuit_breaker g
  /\ Sys.provider_calls s1 = Sys.provider_calls s.
Proof.
  intros Hst Hlast H Hbound. unfold attempt_body, Eff.try_except, Sys.bind in H.
  destruct (try_call env gemini prompt max_tokens temperature g s)
    as [[r g0] s0] eqn:Etry.
  pose proof (try_call_open _ _ _ _ _ _ _ _ _ Hst Hlast Etry) as Hcases.
  destruct r as [c0|e].
  - injection H as <- <- <-.
    destruct Hcases as [([Hr|Hr] & Hcb & Hpc)|Hlate].
    + injection Hr as ->. auto.
    + discriminate.
    + exfalso. lra.
  - destruct (on_exception_goes_on max_retries attempt e g0 s0) as (s' & Hh & Hpc').
    pose proof (on_exception_advances env jitter_ok _ _ _ _ _ _ _ _ Hh) as Hadv.
    rewrite Hh in H. injection H as <- <- <-.
    destruct Hcases as [(_ & Hcb & Hpc)|Hlate].
    + split; [reflexivity|]. split; [exact Hcb|]. congruence.
    + exfalso. lra.
Qed.

(** The retry loop with the breaker OPEN since [last], when the cool-down
    is not over at the end of the loop: every pass was rejected, the
    provider was not invoked and the breaker is unchanged. *)
Lemma retry_loop_open prompt max_tokens temperature max_retries last attempts :
  forall g s r g' s',
    CircuitBreaker.state (circuit_breaker g) = CircuitBreaker.OPEN ->
    CircuitBreaker.last_failure_time (circuit_breaker g) = Some last ->
    retry_loop env gemini prompt max_tokens temperature max_retries attempts g s
    = (r, g', s') ->
    Sys.clock s' - last <= inject_Z (CircuitBreaker.timeout (circuit_breaker g)) ->
    r = Returns None
    /\ circuit_breaker g' = circuit_breaker g
    /\ Sys.provider_calls s' = Sys.provider_calls s.
Proof.
  induction attempts as [|attempt rest IH]; intros g s r g' s' Hst Hlast H Hbound.
  - cbn in H. injection H as <- <- <-. auto.
  - cbn [retry_loop] in H. unfold Eff.bind at 1 in H. unfold Sys.bind at 1 in H.
    destruct (attempt_body env gemini prompt max_tokens temperature max_retries attempt g s)
      as [[c g1] s1] eqn:Epass.
    assert (Hadv : Sys.clock s1 <= Sys.clock s').
    { destruct c as [[|result]|e].
      - apply (retry_loop_advances env gemini clock_ok jitter_ok _ _ _ _ _ _ _ _ _ _ H).
      - cbn in H. injection H as _ _ <-. apply Qle_refl.
      - cbn in H. injection H as _ _ <-. apply Qle_refl. }
    assert (Hbound1 : Sys.clock s1 - last
                      <= inject_Z (CircuitBreaker.timeout (circuit_breaker g))) by lra.
    destruct (attempt_body_open _ _ _ _ _ _ _ _ _ _ _ Hst Hlast Epass Hbound1)
      as (-> & Hcb & Hpc).
    destruct (IH g1 s1 r g' s') as (Hr & Hcb' & Hpc').
    + rewrite Hcb. exact Hst.
    + rewrite Hcb. exact Hlast.
    + exact H.
    + rewrite Hcb. exact Hbound.
    + split; [exact Hr|]. split; congruence.
Qed.

(** [call_llm] with the breaker OPEN since [last], when the cool-down is
    not over at the time the call returns. *)
Lemma call_llm_open prompt use_gemini max_tokens temperature max_retries last g s out g' s' :
  CircuitBreaker.state (circuit_breaker g) = CircuitBreaker.OPEN ->
  CircuitBreaker.last_failure_time (circuit_breaker g) = Some last ->
  call_llm env gemini prompt use_gemini max_tokens temperature max_retries g s
  = (out, g', s') ->
  Sys.clock s' - last <= inject_Z (CircuitBreaker.timeout (circuit_breaker g)) ->
  out = Returns (fallback_result prompt)
  /\ circuit_breaker g' = circuit_breaker g
  /\ Sys.provider_calls s' = Sys.provider_calls s.
Proof.
  intros Hst Hlast H Hbound.
  assert (Hfb : forall g0 s0 out0 g1 s1,
             _deterministic_fallback prompt g0 s0 = (out0, g1, s1) ->
             out0 = Returns (fallback_result prompt) /\ g1 = g0
             /\ Sys.provider_calls s1 = Sys.provider_calls s0
             /\ Sys.clock s0 <= Sys.clock s1).
  { intros g0 s0 out0 g1 s1 Hrun.
    pose proof (deterministic_fallback_advances prompt _ _ _ _ _ Hrun) as Hadv.
    unfold _deterministic_fallback in Hrun. plumbing_in Hrun.
    cbn [Sys.sleep] in Hrun. injection Hrun as <- <- <-. auto. }
  unfold call_llm in H. destruct (gemini_enabled env use_gemini).
  - unfold Eff.bind at 1 in H. unfold Sys.bind at 1 in H.
    unfold budget_tracker_check_budget, Sys.bind, Sys.ret in H.
    destruct (BudgetTracker.check_budget env (estimated_cost prompt max_tokens)
                (budget_tracker g) s) as [[allowed bt1] s1] eqn:Echeck.
    cbn [fst snd] in H.
    assert (Hpc1 : Sys.provider_calls s1 = Sys.provider_calls s).
    { clear H. unfold BudgetTracker.check_budget, BudgetTracker._reset_if_needed,
        Sys.bind, Sys.time_time, Sys.ret in Echeck.
      match type of Echeck with context [if ?b then _ else _] => destruct b end;
        injection Echeck as _ _ <-; reflexivity. }
    destruct allowed; cbn [negb] in H.
    + unfold Eff.bind, Sys.bind in H.
      match type of H with
      | context [retry_loop env gemini ?a ?b ?c ?d ?l ?g0 s1] =>
          destruct (retry_loop env gemini a b c d l g0 s1) as [[r g2] s2] eqn:Eloop
      end.
      assert (Hadv : Sys.clock s2 <= Sys.clock s').
      { destruct r as [[result|]|e].
        - cbn in H. injection H as _ _ <-. apply Qle_refl.
        - destruct (Hfb _ _ _ _ _ H) as (_ & _ & _ & Hle). exact Hle.
        - injection H as _ _ <-. apply Qle_refl. }
      destruct (retry_loop_open prompt max_tokens temperature max_retries last
                  (range max_retries)
                  {| rate_limiter := rate_limiter g;
                     circuit_breaker := circuit_breaker g;
                     budget_tracker := bt1 |} s1 r g2 s2 Hst Hlast Eloop)
        as (-> & Hcb & Hpc).
      { cbn [circuit_breaker]. lra. }
      destruct (Hfb _ _ _ _ _ H) as (-> & -> & Hpc' & _).
      split; [reflexivity|]. split; [exact Hcb|]. congruence.
    + plumbing_in H. cbn [Sys.emit] in H.
      match type of H with
      | context [_deterministic_fallback prompt ?g0 ?s0] =>
          destruct (_deterministic_fallback prompt g0 s0) as [[out0 g2] s2] eqn:Efb
      end.
      destruct (Hfb _ _ _ _ _ Efb) as (-> & -> & Hpc' & _).
      injection H as <- <- <-.
      split; [reflexivity|]. split; [reflexivity|].
      rewrite Hpc'. cbn [Sys.provider_calls]. exact Hpc1.
  - destruct (Hfb _ _ _ _ _ H) as (-> & -> & Hpc' & _). auto.
Qed.

End OpenBreaker.

Section Routing.
Import LlmClient Runs.

Variable env : Sys.Env.
Variable gemini : nat -> string -> Z -> Q -> outcome Response.
Variable strftime_date : Q -> string.
Variable generate : nat -> string -> string -> Z -> Q -> Q -> outcome VertexAI.SdkResponse.

Lemma check_budget_keeps_calls cost bt s :
  Sys.provider_calls (snd (BudgetTracker.check_budget env cost bt s))
  = Sys.provider_calls s.
Proof.
  unfold BudgetTracker.check_budget, BudgetTracker._reset_if_needed,
    Sys.bind, Sys.time_time, Sys.ret.
  match goal with |- context [if ?b then _ else _] => destruct b end; reflexivity.
Qed.

(** The budget check denies: the fallback at once. *)
Lemma call_llm_over_budget prompt use_gemini max_tokens temperature max_retries g s :
  gemini_enabled env use_gemini = true ->
  let check := BudgetTracker.check_budget env (estimated_cost prompt max_tokens)
                                          (budget_tracker g) s in
  fst (fst check) = false ->
  call_llm env gemini prompt use_gemini max_tokens temperature max_retries g s
  = (Returns (fallback_result prompt),
     {| rate_limiter := rate_limiter g; circuit_breaker := circuit_breaker g;
        budget_tracker := snd (fst check) |},
     snd (Sys.sleep 0.1
            (snd (Sys.emit Sys.PRINT Sys.BudgetExceededUsingFallback (snd check))))).
Proof.
  intros Hon check Hdenied. subst check. unfold call_llm. rewrite Hon.
  unfold Eff.bind at 1. unfold Sys.bind at 1.
  unfold budget_tracker_check_budget, Sys.bind, Sys.ret.
  destruct (BudgetTracker.check_budget env (estimated_cost prompt max_tokens)
              (budget_tracker g) s) as [[allowed bt1] s1].
  cbn [fst snd] in *. subst allowed. cbn [negb].
  unfold _deterministic_fallback. plumbing. reflexivity.
Qed.

(** The circuit of the client is open: the fallback at once. *)
Lemma call_model_circuit_open prompt model max_output_tokens temperature top_p
      max_retries self s :
  VertexAI.circuit_open self = true ->
  VertexAI.call_model env strftime_date generate prompt model max_output_tokens
                      temperature top_p max_retries self s
  = (Returns (fallback_response_result prompt model), self, snd (Sys.sleep 0.1 s)).
Proof.
  intros Hopen. unfold VertexAI.call_model. unfold Eff.bind at 1.
  unfold Sys.bind at 1. cbn [Eff.get Sys.ret].
  unfold VertexAI.use_fallback. rewrite Hopen, orb_true_r. cbn [orb].
  unfold VertexAI._fallback_response. plumbing. reflexivity.
Qed.


End Routing.

Section RoutingSamples.
Import LlmClient Runs Samples.

Lemma quiet_jitter : jitter_nonneg quiet.
Proof. intros n. discriminate. Qed.



End RoutingSamples.

(** ** The circuit flag of the client *)

Section CircuitFlag.
Import VertexAI Runs.

Variable env : Sys.Env.
Variable strftime_date : Q -> string.
Variable generate : nat -> string -> string -> Z -> Q -> Q -> outcome SdkResponse.

(** An invocation resumed on its own does what [call_model] does. *)
Lemma attempts_agree (q : Request) :
  forall (n a fuel : nat) (self : t) (s : Sys.t),
    (2 * n <= fuel)%nat ->
    (Z.of_nat a + Z.of_nat n = Z.max (q_max_retries q) (Z.of_nat a))%Z ->
    Eff.bind (start_attempt generate q (Z.of_nat a))
             (alone env strftime_date generate fuel q) self s
    = Eff.bind (retry_loop env strftime_date generate (q_prompt q) (q_model q)
                           (q_max_output_tokens q) (q_temperature q) (q_top_p q)
                           (q_max_retries q) (map Z.of_nat (seq a n)))
               (fun r => match r with
                         | Some result => Eff.ret (Some result)
                         | None =>
                             Eff.bind (_fallback_response (q_prompt q) (q_model q))
                                      (fun fb => Eff.ret (Some fb))
                         end) self s.
Proof.
  induction n as [|n IH]; intros a fuel self s Hfuel Hend.
  - cbn [seq map retry_loop]. unfold start_attempt.
    replace ((0 <=? Z.of_nat a) && (Z.of_nat a <? q_max_retries q))%Z with false.
    2:{ symmetry. apply andb_false_intro2. apply Z.ltb_ge. lia. }
    unfold _fallback_response. plumbing. cbn [Sys.sleep].
    destruct fuel; reflexivity.
  - cbn [seq map retry_loop]. unfold start_attempt.
    replace ((0 <=? Z.of_nat a) && (Z.of_nat a <? q_max_retries q))%Z with true.
    2:{ symmetry. apply andb_true_intro. split; [apply Z.leb_le|apply Z.ltb_lt]; lia. }
    destruct fuel as [|[|fuel]]; [lia|lia|].
    assert (Hnext : (2 * n <= fuel)%nat) by lia.
    assert (Hend' : (Z.of_nat (S a) + Z.of_nat n
                     = Z.max (q_max_retries q) (Z.of_nat (S a)))%Z) by lia.
    unfold attempt_body, Eff.bind, Sys.bind.
    destruct (begin_attempt generate (q_prompt q) (q_model q) (q_max_output_tokens q)
                (q_temperature q) (q_top_p q) (q_max_retries q) (Z.of_nat a) self s)
      as [[[r|e] self1] s1]; [|reflexivity].
    cbn [Eff.ret Sys.ret alone resume]. unfold Eff.bind, Sys.bind.
    destruct (finish_attempt env strftime_date (q_prompt q) (q_model q) (q_max_retries q)
                (Z.of_nat a) r self1 s1) as [[[[|result]|e] self2] s2];
      cbn [Eff.ret Sys.ret alone resume]; try reflexivity.
    replace (Z.of_nat a + 1)%Z with (Z.of_nat (S a)) by lia.
    specialize (IH (S a) fuel self2 s2 Hnext Hend').
    unfold Eff.bind, Sys.bind in IH. exact IH.
Qed.

Lemma alone_created (q : Request) (fuel : nat) :
  alone env strftime_date generate (S fuel) q Created
  = Eff.bind (resume env strftime_date generate q Created)
             (alone env strftime_date generate fuel q).
Proof. reflexivity. Qed.

Lemma alone_rate_wait (q : Request) (fuel : nat) :
  alone env strftime_date generate (S fuel) q RateWait
  = Eff.bind (resume env strftime_date generate q RateWait)
             (alone env strftime_date generate fuel q).
Proof. reflexivity. Qed.

Lemma alone_is_call_model (q : Request) (fuel : nat) (self : t) (s : Sys.t) :
  (2 * Z.to_nat (q_max_retries q) + 2 <= fuel)%nat ->
  alone env strftime_date generate fuel q Created self s
  = Eff.bind (call_request env strftime_date generate q)
             (fun r => Eff.ret (Some r)) self s.
Proof.
  intros Hfuel. destruct fuel as [|[|fuel]]; [lia|lia|].
  assert (Hloop : forall self1 s1 fuel1,
             (2 * Z.to_nat (q_max_retries q) <= fuel1)%nat ->
             Eff.bind (start_attempt generate q 0)
                      (alone env strftime_date generate fuel1 q) self1 s1
             = Eff.bind (retry_loop env strftime_date generate (q_prompt q) (q_model q)
                           (q_max_output_tokens q) (q_temperature q) (q_top_p q)
                           (q_max_retries q) (range (q_max_retries q)))
                        (fun r => match r with
                                  | Some result => Eff.ret (Some result)
                                  | None =>
                                      Eff.bind (_fallback_response (q_prompt q) (q_model q))
                                               (fun fb => Eff.ret (Some fb))
                                  end) self1 s1).
  { intros self1 s1 fuel1 H1.
    apply (attempts_agree q (Z.to_nat (q_max_retries q)) 0 fuel1 self1 s1 H1). lia. }
  assert (Hloop' := fun self1 s1 => conj (Hloop self1 s1 fuel) (Hloop self1 s1 (S fuel))).
  clear Hloop.
  rewrite alone_created. cbn [resume].
  unfold call_request, call_model, _rate_limit_acquire.
  unfold Eff.bind, Eff.lift, Eff.get, Eff.ret, Sys.bind, Sys.ret in *.
  destruct (use_fallback self).
  - destruct (_fallback_response (q_prompt q) (q_model q) self s)
      as [[[fb|e] self5] s5]; reflexivity.
  - destruct (rate_limit_take env self s) as [[[[wait_time|]|e] self1] s1];
      [| |reflexivity].
    + destruct (Sys.sleep wait_time s1) as [[] s2].
      rewrite alone_rate_wait. cbn [resume].
      unfold Eff.bind, Eff.ret, Sys.bind, Sys.ret.
      destruct (rate_limit_resume self1 s2) as [[[[]|e] self3] s3]; [|reflexivity].
      destruct (Hloop' self3 s3) as [H1 _]. rewrite H1 by lia.
      destruct (retry_loop env strftime_date generate (q_prompt q) (q_model q)
                  (q_max_output_tokens q) (q_temperature q) (q_top_p q)
                  (q_max_retries q) (range (q_max_retries q)) self3 s3)
        as [[[[result|]|e] self4] s4]; reflexivity.
    + destruct (Hloop' self1 s1) as [_ H1]. rewrite H1 by lia.
      destruct (retry_loop env strftime_date generate (q_prompt q) (q_model q)
                  (q_max_output_tokens q) (q_temperature q) (q_top_p q)
                  (q_max_retries q) (range (q_max_retries q)) self1 s1)
        as [[[[result|]|e] self4] s4]; reflexivity.
Qed.

(** One invocation on a client whose circuit is open. *)
Lemma call_request_circuit_open (q : Request) (self : t) (s : Sys.t) :
  circuit_open self = true ->
  call_request env strftime_date generate q self s
  = (Returns (fallback_response_result (q_prompt q) (q_model q)), self,
     snd (Sys.sleep 0.1 s)).
Proof. intros Hopen. apply call_model_circuit_open. exact Hopen. Qed.

Lemma call_models_circuit_open (qs : list Request) :
  forall (self : t) (s : Sys.t),
    circuit_open self = true ->
    exists s',
      call_models env strftime_date generate qs self s
      = (Returns (map (fun q => fallback_response_result (q_prompt q) (q_model q)) qs),
         self, s')
      /\ Sys.provider_calls s' = Sys.provider_calls s.
Proof.
  induction qs as [|q qs IH]; intros self s Hopen.
  - exists s. split; reflexivity.
  - cbn [call_models map]. unfold Eff.bind at 1. unfold Sys.bind at 1.
    rewrite (call_request_circuit_open q self s Hopen).
    destruct (IH self (snd (Sys.sleep 0.1 s)) Hopen) as (s' & Hrun & Hpc).
    exists s'. unfold Eff.bind, Sys.bind. rewrite Hrun. split; [reflexivity|].
    rewrite Hpc. reflexivity.
Qed.

Lemma resume_circuit_open (q : Request) (self : t) (s : Sys.t) :
  circuit_open self = true ->
  resume env strftime_date generate q Created self s
  = (Returns (Done (fallback_response_result (q_prompt q) (q_model q))), self,
     snd (Sys.sleep 0.1 s)).
Proof.
  intros Hopen. cbn [resume]. unfold Eff.bind at 1. unfold Sys.bind at 1.
  cbn [Eff.get Sys.ret]. unfold use_fallback. rewrite Hopen, orb_true_r. cbn [orb].
  unfold _fallback_response. plumbing. reflexivity.
Qed.

(** The pieces of [call_model] that leave the flag alone. *)
Lemma start_attempt_keeps_instance (q : Request) (attempt : Z) (self : t) (s : Sys.t) :
  snd (fst (start_attempt generate q attempt self s)) = self.
Proof.
  unfold start_attempt, begin_attempt, _fallback_response, dispatch.
  destruct ((0 <=? attempt) && (attempt <? q_max_retries q))%Z; plumbing; reflexivity.
Qed.

Lemma on_exception_keeps_flag prompt model max_retries attempt e (self : t) (s : Sys.t) :
  circuit_open self = true ->
  circuit_open (snd (fst (on_exception env prompt model max_retries attempt e self s)))
  = true.
Proof.
  intros Hopen. unfold on_exception, record_failure, _fallback_response. plumbing.
  cbn [Sys.time_time Sys.emit set_breaker failure_count].
  destruct (failure_count self + 1 >=? 5)%Z; [reflexivity|].
  destruct (attempt <? max_retries - 1)%Z; cbn; exact Hopen.
Qed.

(** While the flag is true, only the arrival of an answer of the provider
    at an invocation that waits for it can clear the flag. *)
Lemma resume_keeps_flag (q : Request) (tk : task) (self : t) (s : Sys.t) :
  circuit_open self = true ->
  (forall attempt sdk, tk <> AtProvider attempt (Returns sdk)) ->
  circuit_open (snd (fst (resume env strftime_date generate q tk self s))) = true.
Proof.
  intros Hopen Hnot. destruct tk as [| |attempt [sdk|e]|attempt|result].
  - rewrite (resume_circuit_open q self s Hopen). exact Hopen.
  - cbn [resume]. unfold rate_limit_resume. plumbing.
    match goal with
    | |- context [start_attempt generate q 0 ?st ?s0] =>
        pose proof (start_attempt_keeps_instance q 0 st s0) as Hk;
        destruct (start_attempt generate q 0 st s0) as [[[tk'|e] self'] s']
    end; cbn [fst snd] in *; subst self'; exact Hopen.
  - exfalso. exact (Hnot attempt sdk eq_refl).
  - cbn [resume]. unfold finish_attempt, Eff.try_except, Eff.bind, Sys.bind.
    cbn [receive Eff.raise Sys.ret].
    pose proof (on_exception_keeps_flag (q_prompt q) (q_model q) (q_max_retries q)
                  attempt e self s Hopen) as H.
    destruct (on_exception env (q_prompt q) (q_model q) (q_max_retries q) attempt e self s)
      as [[[[|result]|e'] self'] s']; cbn [fst snd Eff.ret Sys.ret] in *; exact H.
  - cbn [resume]. rewrite start_attempt_keeps_instance. exact Hopen.
  - exact Hopen.
Qed.

(** C10, as the code has it.  An invocation of [call_model] that starts
    while [circuit_open] is true returns a result whose source is "fallback"
    without invoking the provider and leaves the instance, the flag
    included, as it was.  So over invocations made one after the other, once
    the flag is true it stays true and every later invocation returns the
    fallback: there is no cool-down and no probe.  Among overlapping
    invocations, the flag stays true through every step but the arrival of an
    answer of the provider at an invocation that was waiting for it. *)
Theorem circuit_stays_open :
  forall (qs : list Request) (q : Request) (self : t) (s : Sys.t),
    circuit_open self = true ->
    let run := call_models env strftime_date generate qs self s in
    let started := resume env strftime_date generate q Created self s in
    (exists results,
        fst (fst run) = Returns results
        /\ length results = length qs
        /\ Forall (fun r => source r = "fallback"%string) results)
    /\ snd (fst run) = self
    /\ circuit_open (snd (fst run)) = true
    /\ Sys.provider_calls (snd run) = Sys.provider_calls s
    /\ (exists fb, fst (fst started) = Returns (Done fb)
                   /\ source fb = "fallback"%string)
    /\ snd (fst started) = self
    /\ Sys.provider_calls (snd started) = Sys.provider_calls s
    /\ (forall tk : task,
           (forall attempt sdk, tk <> AtProvider attempt (Returns sdk)) ->
           circuit_open (snd (fst (resume env strftime_date generate q tk self s)))
           = true).
Proof.
  intros qs q self s Hopen run started.
  destruct (call_models_circuit_open qs self s Hopen) as (s' & Hrun & Hpc).
  subst run started. rewrite Hrun. cbn [fst snd].
  split.
  { eexists. split; [reflexivity|]. split; [apply length_map|].
    clear. induction qs as [|q0 qs IH]; cbn [map]; constructor;
      [reflexivity|exact IH]. }
  split; [reflexivity|]. split; [exact Hopen|]. split; [exact Hpc|].
  rewrite (resume_circuit_open q self s Hopen). cbn [fst snd].
  split; [eexists; split; reflexivity|]. split; [reflexivity|].
  split; [reflexivity|].
  intros tk Hnot. apply resume_keeps_flag; assumption.
Qed.

End CircuitFlag.

Section CircuitFlagSamples.
Import VertexAI Runs Samples.

Lemma circuit_stays_open_witness :
  circuit_open tripped_client = true
  /\ snd (fst (call_models quiet calendar outage [request 3; request 5]
                 tripped_client (boot 100)))
     = tripped_client
  /\ Sys.provider_calls
       (snd (call_models quiet calendar outage [request 3; request 5]
               tripped_client (boot 100)))
     = 0%nat.
Proof.
  assert (H : circuit_open tripped_client = true) by reflexivity.
  split; [exact H|].
  destruct (circuit_stays_open quiet calendar outage [request 3; request 5] (request 3)
              tripped_client (boot 100) H) as (_ & H1 & _ & H2 & _).
  split; [exact H1 | exact H2].
Defined.

(** C10 fails when invocations overlap.  Two invocations on one client:
    the first passes the check of line 144 and waits for the provider; the second runs
    through five failed attempts, which opens the circuit; then the answer of
    the first arrives, and its success path sets [circuit_open] back to
    false.  An invocation made after that reaches the provider again and
    returns its answer. *)
Lemma overlapping_call_closes_circuit :
  let start := [Created; Created] in
  let opened := run quiet calendar outage two_requests second_runs_out start
                    client (boot 0) in
  let closed := run quiet calendar outage two_requests (second_runs_out ++ [0%nat]) start
                    client (boot 0) in
  let later := call_request quiet calendar outage (request 3)
                            (snd (fst closed)) (snd closed) in
  circuit_open client = false
  /\ circuit_open (snd (fst opened)) = true
  /\ (exists pending fb,
         fst (fst opened) = Returns [AtProvider 0 pending; Done fb]
         /\ source fb = "fallback"%string)
  /\ circuit_open (snd (fst closed)) = false
  /\ (exists r, fst (fst later) = Returns r /\ source r = "vertex_ai"%string)
  /\ Sys.provider_calls (snd later) = S (Sys.provider_calls (snd closed)).
Proof.
  cbv zeta. split; [reflexivity|]. split; [vm_compute; reflexivity|].
  split; [eexists; eexists; split; vm_compute; reflexivity|].
  split; [vm_compute; reflexivity|].
  split; [eexists; split; vm_compute; reflexivity|].
  vm_compute. reflexivity.
Qed.

End CircuitFlagSamples.

(** * Further properties of the code *)

(** ** The rate the limiter enforces *)

Section BucketRate.
Import LlmClient Runs.
Import RateLimiter.

Variable env : Sys.Env.

(** One call of [acquire]: the token it grants comes out of the balance, and
    the balance gains no more than the refill of the time since the last
    call. *)
Lemma acquire_pays rl s :
  let r := acquire env rl s in
  let rl' := snd (fst r) in
  tokens rl' + inject_Z (grants [fst (fst r)])
  <= tokens rl + (last_refill rl' - last_refill rl) * (inject_Z (calls_per_minute rl) / 60)
  /\ calls_per_minute rl' = calls_per_minute rl
  /\ last_refill rl' == Sys.clock (snd r).
Proof.
  cbv zeta. unfold acquire, _refill, Sys.bind, Sys.time_time, Sys.ret.
  cbn [fst snd tokens max_tokens calls_per_minute last_refill].
  match goal with |- context [Qge_bool ?b 1] => set (balance := b) end.
  assert (Hb : balance <= tokens rl
                + (Sys.clock s + Sys.drift env (Sys.reads s) - last_refill rl)
                  * (inject_Z (calls_per_minute rl) / 60))
    by apply Q.le_min_r.
  destruct (Qge_bool balance 1);
    cbn [fst snd tokens calls_per_minute last_refill grants Sys.clock].
  - split; [|split; [reflexivity|apply Qeq_refl]].
    assert (E : balance - 1 + inject_Z (1 + 0) == balance)
      by (change (inject_Z (1 + 0)) with 1; ring).
    rewrite E. exact Hb.
  - split; [|split; [reflexivity|apply Qeq_refl]].
    assert (E : balance + inject_Z (0 + 0) == balance)
      by (change (inject_Z (0 + 0)) with 0; ring).
    rewrite E. exact Hb.
Qed.

Lemma grants_cons (b : bool) (l : list bool) :
  inject_Z (grants (b :: l)) == inject_Z (grants [b]) + inject_Z (grants l).
Proof.
  cbn [grants]. rewrite <- inject_Z_plus. destruct b; apply inject_Z_injective; lia.
Qed.

Lemma acquire_seq_pays pauses :
  monotone_clock env ->
  Forall (fun d => 0 <= d) pauses ->
  forall rl s,
    bucket_ok rl s ->
    let r := acquire_seq env pauses rl s in
    let rl' := snd (fst r) in
    tokens rl' + inject_Z (grants (fst (fst r)))
    <= tokens rl
       + (last_refill rl' - last_refill rl) * (inject_Z (calls_per_minute rl) / 60)
    /\ bucket_ok rl' (snd r)
    /\ calls_per_minute rl' = calls_per_minute rl.
Proof.
  intros Hm. induction 1 as [|d pauses Hd _ IH]; intros rl s Hok; cbv zeta.
  - cbn [acquire_seq Sys.ret fst snd grants].
    split; [|split; [exact Hok|reflexivity]].
    assert (E : tokens rl + (last_refill rl - last_refill rl)
                             * (inject_Z (calls_per_minute rl) / 60)
                == tokens rl + inject_Z 0) by (change (inject_Z 0) with 0; ring).
    rewrite E. apply Qle_refl.
  - cbn [acquire_seq]. unfold Sys.bind.
    pose proof (sleep_ok rl s d Hd Hok) as Hok1.
    destruct (Sys.sleep d s) as [u s1]. cbn [snd] in Hok1.
    pose proof (acquire_ok env rl s1 Hm Hok1) as Hok2.
    pose proof (acquire_pays rl s1) as (Hpay & Hcpm & _).
    destruct (acquire env rl s1) as [[granted rl2] s2]. cbn [fst snd] in *.
    specialize (IH rl2 s2 Hok2). cbv zeta in IH.
    destruct (acquire_seq env pauses rl2 s2) as [[answers rl3] s3].
    cbn [Sys.ret fst snd] in *.
    destruct IH as (IHpay & IHok & IHcpm).
    split; [|split; [exact IHok|congruence]].
    rewrite grants_cons. rewrite Hcpm in IHpay.
    set (rate := inject_Z (calls_per_minute rl) / 60) in *.
    lra.
Qed.

(** X1.  Over any sequence of calls of [RateLimiter.acquire], whatever the
    pauses between them, the number of calls that are granted is at most the
    balance the bucket held at the start plus the refill of the time that has
    passed since its last refill, at [calls_per_minute / 60] tokens a second.
    The clock is assumed not to run backwards and the bucket to start within
    its bounds. *)
Theorem limiter_rate_bound :
  forall (pauses : list Q) (rl : RateLimiter.t) (s : Sys.t),
    monotone_clock env ->
    Forall (fun d => 0 <= d) pauses ->
    bucket_ok rl s ->
    let r := acquire_seq env pauses rl s in
    length (fst (fst r)) = length pauses
    /\ inject_Z (grants (fst (fst r)))
       <= tokens rl
          + (Sys.clock (snd r) - last_refill rl) * (inject_Z (calls_per_minute rl) / 60).
Proof.
  intros pauses rl s Hm Hp Hok r. subst r. split.
  - clear. revert rl s. induction pauses as [|d pauses IH]; intros rl s.
    + reflexivity.
    + cbn [acquire_seq]. unfold Sys.bind at 1. destruct (Sys.sleep d s) as [u s1].
      unfold Sys.bind at 1. destruct (acquire env rl s1) as [[b rl2] s2].
      unfold Sys.bind. specialize (IH rl2 s2). cbn [snd].
      destruct (acquire_seq env pauses rl2 s2) as [[bs rl3] s3].
      cbn [Sys.ret fst snd length] in *. rewrite IH. reflexivity.
  - pose proof (acquire_seq_pays pauses Hm Hp rl s Hok) as (Hpay & Hok' & _).
    cbv zeta in Hpay.
    destruct (acquire_seq env pauses rl s) as [[answers rl'] s']. cbn [fst snd] in *.
    destruct Hok' as ((Hlo & _) & _ & Hl).
    destruct Hok as (_ & Hc & _).
    pose proof (rate_nonneg (calls_per_minute rl) Hc) as Hrate.
    set (rate := inject_Z (calls_per_minute rl) / 60) in *.
    assert (Hmul : (last_refill rl' - last_refill rl) * rate
                   <= (Sys.clock s' - last_refill rl) * rate).
    { apply Qmult_le_compat_r; [|exact Hrate]. lra. }
    lra.
Qed.

End BucketRate.

Section BucketRateSamples.
Import LlmClient Runs Samples.

Lemma short_limiter_ok : bucket_ok short_limiter (boot 0).
Proof.
  unfold bucket_ok. cbn. refine (conj (conj _ _) (conj _ _)); discriminate.
Qed.

Lemma limiter_rate_bound_witness :
  monotone_clock quiet
  /\ Forall (fun d => 0 <= d) [0; 1; 30]
  /\ bucket_ok short_limiter (boot 0)
  /\ inject_Z (grants (fst (fst (acquire_seq quiet [0; 1; 30] short_limiter (boot 0)))))
     <= RateLimiter.tokens short_limiter
        + (Sys.clock (snd (acquire_seq quiet [0; 1; 30] short_limiter (boot 0)))
           - RateLimiter.last_refill short_limiter)
          * (inject_Z (RateLimiter.calls_per_minute short_limiter) / 60).
Proof.
  assert (Hp : Forall (fun d => 0 <= d) [0; 1; 30])
    by (repeat constructor; discriminate).
  split; [exact quiet_monotone|]. split; [exact Hp|]. split; [exact short_limiter_ok|].
  exact (proj2 (limiter_rate_bound quiet [0; 1; 30] short_limiter (boot 0)
                  quiet_monotone Hp short_limiter_ok)).
Defined.

End BucketRateSamples.

(** ** A denied attempt and the one after it *)

Section BucketWait.
Import LlmClient Runs.
Import RateLimiter.

Variable env : Sys.Env.

Lemma inject_Z_one_le (z : Z) : (1 <= z)%Z -> 1 <= inject_Z z.
Proof. intros H. unfold Qle. simpl. lia. Qed.

(** A bucket that is not overdrawn grants once [60 / calls_per_minute]
    seconds have passed: that much time refills one token. *)
Lemma acquire_grants_after rl s d :
  monotone_clock env ->
  0 <= tokens rl -> (1 <= max_tokens rl)%Z -> (0 < calls_per_minute rl)%Z ->
  last_refill rl <= Sys.clock s ->
  60 / inject_Z (calls_per_minute rl) <= d ->
  fst (fst (acquire env rl (snd (Sys.sleep d s)))) = true.
Proof.
  intros Hm Ht Hmax Hcpm Hl Hd.
  unfold acquire, _refill, Sys.bind, Sys.time_time, Sys.sleep, Sys.ret.
  cbn [fst snd tokens max_tokens calls_per_minute last_refill Sys.clock Sys.reads].
  match goal with |- context [Qge_bool ?b 1] => set (balance := b) end.
  assert (Hb : 1 <= balance).
  { apply Q.min_glb; [apply inject_Z_one_le; exact Hmax|].
    assert (Hpos : 0 < inject_Z (calls_per_minute rl)) by (unfold Qlt; simpl; lia).
    set (cpm := inject_Z (calls_per_minute rl)) in *.
    assert (Hrate : 0 <= cpm / 60).
    { apply Qle_shift_div_l; [reflexivity|]. lra. }
    assert (Hone : (60 / cpm) * (cpm / 60) == 1) by (field; lra).
    specialize (Hm (Sys.reads s)).
    assert (Hmul : (60 / cpm) * (cpm / 60)
                   <= (Sys.clock s + d + Sys.drift env (Sys.reads s) - last_refill rl)
                      * (cpm / 60)).
    { apply Qmult_le_compat_r; [|exact Hrate]. lra. }
    lra. }
  apply Qge_bool_true in Hb. rewrite Hb. reflexivity.
Qed.


End BucketWait.

Section BucketWaitSamples.
Import LlmClient Runs Samples.


End BucketWaitSamples.

(** ** The check of the breaker *)

Section BreakerCheck.
Import LlmClient Runs.
Import CircuitBreaker.

(** X3.  In every state that threads going through [CircuitBreaker.call] can
    produce, the check of lines 68-73 lets the call through or raises
    "Circuit breaker is OPEN": the subtraction of line 70 never meets a
    missing failure time, so the check raises no [TypeError]; and [call]
    raises one only if the guarded function does. *)
Theorem check_never_type_error {A} :
  forall (threshold tmo : Z) (cb : t) (env : Sys.Env) (func : Sys.M (outcome A))
         (s : Sys.t),
    reachable threshold tmo cb ->
    (fst (fst (precheck env cb s)) = Returns tt
     \/ fst (fst (precheck env cb s)) = Raises breaker_open)
    /\ ((forall s1, fst (func s1) <> Raises TypeError) ->
        fst (fst (call env func cb s)) <> Raises TypeError).
Proof.
  intros threshold tmo cb env func s Hreach.
  pose proof (reachable_has_failure_time threshold tmo cb Hreach) as Hlast.
  assert (Hcheck : fst (fst (precheck env cb s)) = Returns tt
                   \/ fst (fst (precheck env cb s)) = Raises breaker_open).
  { unfold precheck. destruct (state cb) eqn:Hst; [left; reflexivity| |left; reflexivity].
    destruct Hlast as [last Hlast]; [discriminate|]. rewrite Hlast.
    unfold Sys.bind. destruct (Sys.time_time env s) as [now s1].
    destruct (Qgt_bool (now - last) (inject_Z (timeout cb)));
      [left|right]; reflexivity. }
  split; [exact Hcheck|].
  intros Hfunc. unfold call, Sys.bind.
  destruct (precheck env cb s) as [[checked cb1] s1]. cbn [fst snd] in Hcheck.
  destruct Hcheck as [-> | ->].
  - specialize (Hfunc s1). destruct (func s1) as [[a|e] s2]; cbn [fst] in Hfunc.
    + cbn. discriminate.
    + destruct (Sys.time_time env s2) as [now s3]. cbn. exact Hfunc.
  - cbn. discriminate.
Qed.

End BreakerCheck.

Section BreakerCheckSamples.
Import LlmClient Runs Samples.
Import CircuitBreaker.

Lemma failed_once_reachable : reachable 1 60 failed_once.
Proof. exact (reach_failure 1 60 (__init__ 1 60) 0 (reach_init 1 60)). Qed.

Lemma check_never_type_error_witness :
  reachable 1 60 failed_once
  /\ state failed_once = OPEN
  /\ (fst (fst (precheck quiet failed_once (boot 30))) = Returns tt
      \/ fst (fst (precheck quiet failed_once (boot 30))) = Raises breaker_open).
Proof.
  split; [exact failed_once_reachable|]. split; [reflexivity|].
  exact (proj1 (check_never_type_error 1 60 failed_once quiet up (boot 30)
                  failed_once_reachable)).
Defined.

End BreakerCheckSamples.

(** ** The budget tracker *)

Section Budget.
Import LlmClient Runs.
Import BudgetTracker.

Variable env : Sys.Env.

Lemma reset_window bt s :
  let r := _reset_if_needed env bt s in
  Sys.clock (snd r) <= reset_time (fst r)
  /\ daily_budget (fst r) = daily_budget bt
  /\ model_costs (fst r) = model_costs bt
  /\ (reset_time bt < fst (Sys.time_time env s) -> daily_spent (fst r) = 0)
  /\ (fst (Sys.time_time env s) <= reset_time bt ->
      r = (bt, snd (Sys.time_time env s))).
Proof.
  cbv zeta. unfold _reset_if_needed, Sys.bind.
  destruct (Sys.time_time env s) as [now s1] eqn:E1. cbn [fst snd].
  destruct (Qgt_bool now (reset_time bt)) eqn:Hgt.
  - apply Qgt_bool_true in Hgt.
    unfold Sys.time_time, Sys.ret.
    cbn [fst snd set_spent reset_time daily_budget model_costs daily_spent Sys.clock].
    split; [lra|]. split; [reflexivity|]. split; [reflexivity|].
    split; [reflexivity|]. intros H. lra.
  - apply Qgt_bool_false in Hgt. cbn [Sys.ret fst snd].
    assert (Hc : Sys.clock s1 = now).
    { unfold Sys.time_time in E1. injection E1 as <- <-. reflexivity. }
    rewrite Hc. split; [exact Hgt|]. split; [reflexivity|]. split; [reflexivity|].
    split; [intros H; lra|reflexivity].
Qed.

(** X4.  A check or a charge never leaves the tracker with a window that
    has run out: after [check_budget] and after [record_usage] the reset time
    is not before the clock.  When the reset time has passed at the first
    clock reading, the check forgets the old spend: the spend is zero and the
    request is allowed exactly when its estimated cost alone fits the budget.
    Otherwise the tracker is left as it was and the request is allowed exactly
    when the spend plus the estimated cost fits the budget. *)
Theorem budget_window :
  forall (estimated_cost : Q) (model : string) (tokens : Z) (bt : t) (s : Sys.t),
    let checked := check_budget env estimated_cost bt s in
    let charged := record_usage env model tokens bt s in
    Sys.clock (snd checked) <= reset_time (snd (fst checked))
    /\ Sys.clock (snd charged) <= reset_time (snd (fst charged))
    /\ (reset_time bt < fst (Sys.time_time env s) ->
        daily_spent (snd (fst checked)) = 0
        /\ (fst (fst checked) = true <-> estimated_cost <= daily_budget bt))
    /\ (fst (Sys.time_time env s) <= reset_time bt ->
        snd (fst checked) = bt
        /\ (fst (fst checked) = true
            <-> daily_spent bt + estimated_cost <= daily_budget bt)).
Proof.
  intros cost model tokens bt s checked charged. subst checked charged.
  pose proof (reset_window bt s) as (Hw & Hb & _ & Hreset & Hkeep).
  unfold check_budget, record_usage, Sys.bind.
  destruct (_reset_if_needed env bt s) as [bt1 s1]. cbn [fst snd] in *.
  cbn [Sys.ret fst snd].
  split; [exact Hw|]. split.
  - cbn [set_spent daily_budget daily_spent reset_time].
    destruct (Qeq_bool (daily_budget bt1) 0); [exact Hw|].
    match goal with |- context [if ?b then _ else _] => destruct b end;
      cbn [Sys.emit Sys.ret fst snd Sys.clock reset_time]; exact Hw.
  - split.
    + intros Hlt. specialize (Hreset Hlt). split; [exact Hreset|].
      rewrite Hreset, Hb. rewrite Qle_bool_iff. split; intros H; lra.
    + intros Hle. specialize (Hkeep Hle). injection Hkeep as -> _.
      split; [reflexivity|]. apply Qle_bool_iff.
Qed.

End Budget.

Section BooksFirst.
Import LlmClient LlmClient.BudgetTracker Runs.

Variable env : Sys.Env.
Variable platform : Platform.t.

(** X5.  [record_usage] books the charge before anything that can
    fail.  For a token count within the doubles the spend of the current
    window grows by [tokens / 1000] times the price of the model and the budget
    stays as it is, in every case: when the budget is zero and line 127 raises
    ZeroDivisionError; when the usage is below 90 and nothing is printed; when
    it is at least 90 and the stream takes the alert, which is then the one
    line printed; and when the stream refuses the alert, so that [print]
    raises and nothing is printed.  The usage is the code's
    [(daily_spent / daily_budget) * 100]. *)
Theorem record_usage_books_first :
  forall (model : string) (tokens : Z) (bt : t) (s : Sys.t),
    (Z.abs tokens < float_limit)%Z ->
    let before := fst (_reset_if_needed env bt s) in
    let run := OnPlatform.record_usage env platform model tokens bt s in
    let after := snd (fst run) in
    let usage_pct := (daily_spent after / daily_budget bt) * 100 in
    let alert := Sys.BudgetAlert usage_pct (daily_spent after) (daily_budget bt) in
    daily_spent after = daily_spent before + (inject_Z tokens / 1000) * price bt model
    /\ daily_budget after = daily_budget bt
    /\ (daily_budget bt == 0 ->
        fst (fst run) = Raises ZeroDivisionError /\ Sys.output (snd run) = Sys.output s)
    /\ (~ daily_budget bt == 0 -> usage_pct < 90 ->
        fst (fst run) = Returns tt /\ Sys.output (snd run) = Sys.output s)
    /\ (~ daily_budget bt == 0 -> 90 <= usage_pct ->
        match Platform.stdout platform alert with
        | None =>
            fst (fst run) = Returns tt
            /\ Sys.output (snd run) = (Sys.output s ++ [(Sys.PRINT, alert)])%list
        | Some e =>
            fst (fst run) = Raises e /\ Sys.output (snd run) = Sys.output s
        end).
Proof.
  intros model tokens bt s Hfloat before run after usage_pct alert.
  subst alert usage_pct after run before.
  pose proof (reset_window env bt s) as (_ & Hb & Hp & _ & _).
  pose proof (reset_keeps_output env bt s) as Hout.
  unfold OnPlatform.record_usage, Sys.bind.
  destruct (_reset_if_needed env bt s) as [bt1 s1]. cbn [fst snd] in *.
  rewrite (float_of_int_converts tokens Hfloat).
  assert (Hprice : price bt1 model = price bt model).
  { unfold price. rewrite Hp. reflexivity. }
  rewrite Hprice.
  cbn [set_spent daily_budget daily_spent reset_time]. rewrite Hb.
  set (spent := daily_spent bt1 + inject_Z tokens / 1000 * price bt model).
  destruct (Qeq_bool (daily_budget bt) 0) eqn:Hz.
  - apply Qeq_bool_iff in Hz. cbn [Sys.ret fst snd set_spent daily_spent daily_budget].
    split; [reflexivity|]. split; [exact Hb|].
    split; [intros _; split; [reflexivity|exact Hout]|].
    split; intros Hnz; contradiction.
  - assert (Hnz : ~ daily_budget bt == 0).
    { intros E. apply Qeq_bool_iff in E. congruence. }
    destruct (Qge_bool (spent / daily_budget bt * 100) 90) eqn:Hge.
    + apply Qge_bool_true in Hge. unfold Platform.print.
      destruct (Platform.stdout platform
                  (Sys.BudgetAlert (spent / daily_budget bt * 100) spent
                                   (daily_budget bt))) as [e|] eqn:Hprint;
        cbn [Sys.bind Sys.emit Sys.ret fst snd set_spent daily_spent daily_budget
             Sys.output];
        (split; [reflexivity|]; split; [exact Hb|];
         split; [intros E; contradiction|];
         split; [intros _ Hlt; exfalso; exact (Qlt_not_le _ _ Hlt Hge)|];
         intros _ _; rewrite Hprint; split; [reflexivity|]).
      * exact Hout.
      * unfold Sys.bind, Sys.emit. cbn [fst snd Sys.output]. rewrite Hout. reflexivity.
    + apply Qge_bool_false in Hge.
      cbn [Sys.ret fst snd set_spent daily_spent daily_budget].
      split; [reflexivity|]. split; [exact Hb|].
      split; [intros E; contradiction|].
      split; [intros _ _; split; [reflexivity|exact Hout]|].
      intros _ Hle. exfalso. exact (Qlt_not_le _ _ Hge Hle).
Qed.

End BooksFirst.

Section BooksFirstSamples.
Import LlmClient Runs Samples.

Lemma record_usage_books_first_witness :
  (Z.abs 20 < float_limit)%Z
  /\ fst (fst (OnPlatform.record_usage quiet ascii_platform "gemini-pro" 20
                 (budget_tracker spent_globals) (boot 0)))
     = Raises UnicodeEncodeError
  /\ BudgetTracker.daily_spent
       (snd (fst (OnPlatform.record_usage quiet ascii_platform "gemini-pro" 20
                    (budget_tracker spent_globals) (boot 0))))
     = 100 + inject_Z 20 / 1000 * 0.00025.
Proof.
  assert (Hfloat : (Z.abs 20 < float_limit)%Z) by (apply Z.ltb_lt; vm_compute; reflexivity).
  split; [exact Hfloat|].
  pose proof (record_usage_books_first quiet ascii_platform "gemini-pro" 20
                (budget_tracker spent_globals) (boot 0) Hfloat) as H.
  cbv zeta in H. destruct H as (Hspent & _ & _ & _ & Halert).
  split.
  - assert (Hnz : ~ BudgetTracker.daily_budget (budget_tracker spent_globals) == 0)
      by (intros E; vm_compute in E; discriminate).
    specialize (Halert Hnz). cbn [Platform.stdout ascii_platform] in Halert.
    apply Halert. vm_compute. discriminate.
  - rewrite Hspent. vm_compute. reflexivity.
Defined.

End BooksFirstSamples.

(** ** How often a call reaches the provider *)

Section Spend.
Import Runs.

Context {St : Type}.
Variable env : Sys.Env.

Lemma time_time_spends : spends_sys 0 (Sys.time_time env).
Proof. intros s a s' H. injection H as _ <-. cbn. lia. Qed.

Lemma sleep_spends d : spends_sys 0 (Sys.sleep d).
Proof. intros s a s' H. injection H as _ <-. cbn. lia. Qed.

Lemma emit_spends l m : spends_sys 0 (Sys.emit l m).
Proof. intros s a s' H. injection H as _ <-. cbn. lia. Qed.

Lemma random_spends : spends_sys 0 (Sys.random_uniform env).
Proof. intros s a s' H. injection H as _ <-. cbn. lia. Qed.

Lemma invoke_spends {A} (answers : nat -> outcome A) : spends_sys 1 (Sys.invoke answers).
Proof. intros s a s' H. injection H as _ <-. cbn. lia. Qed.

Lemma spends_sys_ret {A} (a : A) : spends_sys 0 (Sys.ret a).
Proof. intros s a' s' H. injection H as _ <-. lia. Qed.

Lemma spends_sys_bind {A B} (n1 n2 : nat) (m : Sys.M A) (k : A -> Sys.M B) :
  spends_sys n1 m -> (forall a, spends_sys n2 (k a)) -> spends_sys (n1 + n2) (Sys.bind m k).
Proof.
  intros Hm Hk s b s' H. unfold Sys.bind in H.
  destruct (m s) as [a s1] eqn:E. specialize (Hm _ _ _ E). specialize (Hk _ _ _ _ H).
  lia.
Qed.

Lemma spends_sys_weaken {A} (n n' : nat) (m : Sys.M A) :
  (n <= n')%nat -> spends_sys n m -> spends_sys n' m.
Proof. intros Hn Hm s a s' H. specialize (Hm _ _ _ H). lia. Qed.

Lemma spends_ret {A} (a : A) : spends (St := St) 0 (Eff.ret a).
Proof. intros st s r st' s' H. injection H as _ _ <-. lia. Qed.

Lemma spends_raise {A} (e : exn) : spends (St := St) (A := A) 0 (Eff.raise e).
Proof. intros st s r st' s' H. injection H as _ _ <-. lia. Qed.

Lemma spends_get : spends (St := St) 0 Eff.get.
Proof. intros st s r st' s' H. injection H as _ _ <-. lia. Qed.

Lemma spends_put (st0 : St) : spends 0 (Eff.put st0).
Proof. intros st s r st' s' H. injection H as _ _ <-. lia. Qed.

Lemma spends_lift {A} (n : nat) (m : Sys.M A) :
  spends_sys n m -> spends (St := St) n (Eff.lift m).
Proof.
  intros Hm st s r st' s' H. unfold Eff.lift, Sys.bind in H.
  destruct (m s) as [a s1] eqn:E. injection H as _ _ <-. exact (Hm _ _ _ E).
Qed.

Lemma spends_bind {A B} (n1 n2 : nat) (m : Eff.M St A) (k : A -> Eff.M St B) :
  spends n1 m -> (forall a, spends n2 (k a)) -> spends (n1 + n2) (Eff.bind m k).
Proof.
  intros Hm Hk st s r st' s' H. unfold Eff.bind, Sys.bind in H.
  destruct (m st s) as [[[a|e] st1] s1] eqn:E; specialize (Hm _ _ _ _ _ E).
  - specialize (Hk _ _ _ _ _ _ H). lia.
  - injection H as _ _ <-. lia.
Qed.

Lemma spends_try {A} (n1 n2 : nat) (m : Eff.M St A) (h : exn -> Eff.M St A) :
  spends n1 m -> (forall e, spends n2 (h e)) -> spends (n1 + n2) (Eff.try_except m h).
Proof.
  intros Hm Hh st s r st' s' H. unfold Eff.try_except, Sys.bind in H.
  destruct (m st s) as [[[a|e] st1] s1] eqn:E; specialize (Hm _ _ _ _ _ E).
  - injection H as _ _ <-. lia.
  - specialize (Hh _ _ _ _ _ _ H). lia.
Qed.

Lemma spends_weaken {A} (n n' : nat) (m : Eff.M St A) :
  (n <= n')%nat -> spends n m -> spends n' m.
Proof. intros Hn Hm st s r st' s' H. specialize (Hm _ _ _ _ _ H). lia. Qed.

End Spend.

(** Steps of code that does not reach the provider. *)
Ltac free_step :=
  first [ apply spends_ret | apply spends_raise | apply spends_get | apply spends_put
        | apply spends_lift; first [ apply time_time_spends | apply sleep_spends
                                   | apply emit_spends | apply random_spends ] ].

Ltac free_bind := apply (spends_bind 0 0); [|intros ?].

Section SpendLlm.
Import LlmClient Runs.

Variable env : Sys.Env.
Variable gemini : nat -> string -> Z -> Q -> outcome Response.

Lemma acquire_spends rl : spends_sys 0 (RateLimiter.acquire env rl).
Proof.
  intros s a s' H. unfold RateLimiter.acquire, RateLimiter._refill, Sys.bind,
    Sys.time_time, Sys.ret in H. cbn [RateLimiter.tokens] in H.
  match type of H with context [if ?b then _ else _] => destruct b end;
    injection H as _ <-; cbn; lia.
Qed.

Lemma reset_spends bt : spends_sys 0 (BudgetTracker._reset_if_needed env bt).
Proof.
  unfold BudgetTracker._reset_if_needed.
  apply (spends_sys_bind 0 0); [apply time_time_spends|]. intros now.
  destruct (Qgt_bool now (BudgetTracker.reset_time bt)); [|apply spends_sys_ret].
  apply (spends_sys_bind 0 0); [apply time_time_spends|]. intros now'.
  apply spends_sys_ret.
Qed.

Lemma check_budget_spends cost bt : spends_sys 0 (BudgetTracker.check_budget env cost bt).
Proof.
  unfold BudgetTracker.check_budget.
  apply (spends_sys_bind 0 0); [apply reset_spends|]. intros bt1. apply spends_sys_ret.
Qed.

Lemma record_usage_spends model tokens bt :
  spends_sys 0 (BudgetTracker.record_usage env model tokens bt).
Proof.
  unfold BudgetTracker.record_usage.
  apply (spends_sys_bind 0 0); [apply reset_spends|]. intros bt1. cbv zeta.
  match goal with |- context [if ?b then _ else _] => destruct b end;
    [apply spends_sys_ret|].
  match goal with |- context [if ?b then _ else _] => destruct b end;
    [|apply spends_sys_ret].
  apply (spends_sys_bind 0 0); [apply emit_spends|]. intros _. apply spends_sys_ret.
Qed.

Lemma precheck_spends cb : spends_sys 0 (CircuitBreaker.precheck env cb).
Proof.
  unfold CircuitBreaker.precheck.
  destruct (CircuitBreaker.state cb); try apply spends_sys_ret.
  apply (spends_sys_bind 0 0); [apply time_time_spends|]. intros now.
  destruct (CircuitBreaker.last_failure_time cb); [|apply spends_sys_ret].
  match goal with |- context [if ?b then _ else _] => destruct b end;
    apply spends_sys_ret.
Qed.

Lemma call_spends {A} (n : nat) (func : Sys.M (outcome A)) cb :
  spends_sys n func -> spends_sys n (CircuitBreaker.call env func cb).
Proof.
  intros Hf. unfold CircuitBreaker.call.
  apply (spends_sys_bind 0 n); [apply precheck_spends|]. intros [[u|e] cb1].
  - replace n with (n + 0)%nat by lia.
    apply spends_sys_bind; [exact Hf|]. intros [a|e].
    + apply spends_sys_ret.
    + apply (spends_sys_bind 0 0); [apply time_time_spends|]. intros now.
      apply spends_sys_ret.
  - apply spends_sys_weaken with 0%nat; [lia|apply spends_sys_ret].
Qed.

Lemma on_global {A B} (n : nat) (m : Sys.M A) (f : A -> outcome B * Globals) :
  spends_sys n m ->
  forall g : Globals, spends_sys n (Sys.bind m (fun r => Sys.ret (f r))).
Proof.
  intros Hm g. replace n with (n + 0)%nat by lia.
  apply spends_sys_bind; [exact Hm|]. intros a. apply spends_sys_ret.
Qed.

Lemma try_call_spends prompt max_tokens temperature :
  spends 1 (try_call env gemini prompt max_tokens temperature).
Proof.
  unfold try_call. apply (spends_bind 0 1).
  { intros g s r g' s' H. unfold rate_limiter_acquire in H.
    exact (on_global 0 _ _ (acquire_spends _) g _ _ _ H). }
  intros granted. destruct granted; cbn [negb].
  - apply (spends_bind 1 0).
    { intros g s r g' s' H. unfold circuit_breaker_call in H.
      refine (on_global 1 _ _ (call_spends 1 _ _ _) g _ _ _ H).
      unfold _call_gemini. apply invoke_spends. }
    intros result. free_bind; [|free_step].
    intros g s r g' s' H. unfold budget_tracker_record_usage in H.
    exact (on_global 0 _ _ (record_usage_spends _ _ _) g _ _ _ H).
  - apply spends_weaken with 0%nat; [lia|].
    free_bind; [free_step|]. free_bind; free_step.
Qed.

Lemma on_exception_spends max_retries attempt e :
  spends 0 (on_exception env max_retries attempt e).
Proof.
  unfold on_exception. free_bind; [free_step|]. cbv zeta.
  free_bind; [free_step|].
  destruct (attempt <? max_retries - 1)%Z.
  - free_bind; [free_step|]. free_bind; free_step.
  - free_bind; free_step.
Qed.

Lemma attempt_body_spends prompt max_tokens temperature max_retries attempt :
  spends 1 (attempt_body env gemini prompt max_tokens temperature max_retries attempt).
Proof.
  unfold attempt_body. apply (spends_try 1 0);
    [apply try_call_spends|intros e; apply on_exception_spends].
Qed.

Lemma retry_loop_spends prompt max_tokens temperature max_retries attempts :
  spends (length attempts)
         (retry_loop env gemini prompt max_tokens temperature max_retries attempts).
Proof.
  induction attempts as [|attempt rest IH]; cbn [retry_loop length].
  - free_step.
  - apply (spends_bind 1 (length rest)); [apply attempt_body_spends|].
    intros [|result]; [exact IH|].
    apply spends_weaken with 0%nat; [lia|free_step].
Qed.

Lemma deterministic_fallback_spends prompt :
  spends 0 (_deterministic_fallback prompt).
Proof. unfold _deterministic_fallback. free_bind; free_step. Qed.

Lemma length_range (n : Z) : length (range n) = Z.to_nat n.
Proof. unfold range. rewrite length_map, length_seq. reflexivity. Qed.

(** X6.  One call of [call_llm] invokes the provider at most [max_retries]
    times (not at all when [max_retries] is zero or negative), whatever the
    state of the limiter, the breaker and the budget and whatever the provider
    answers.  When the provider is switched off ([USE_GEMINI] is not "1", or
    [use_gemini] is false) the call returns the result of the fallback after
    its sleep of 0.1 s, leaves the three global objects as they were, reads no
    clock and prints nothing. *)
Theorem call_llm_provider_calls :
  forall (prompt : string) (use_gemini : bool) (max_tokens : Z) (temperature : Q)
         (max_retries : Z) (g : Globals) (s : Sys.t),
    let run := call_llm env gemini prompt use_gemini max_tokens temperature max_retries g s in
    (Sys.provider_calls s <= Sys.provider_calls (snd run)
     <= Sys.provider_calls s + Z.to_nat max_retries)%nat
    /\ (gemini_enabled env use_gemini = false ->
        run = (Returns (fallback_result prompt), g, snd (Sys.sleep 0.1 s))).
Proof.
  intros prompt use_gemini max_tokens temperature max_retries g s run. subst run. split.
  - assert (H : spends (Z.to_nat max_retries)
                  (call_llm env gemini prompt use_gemini max_tokens temperature
                            max_retries)).
    { unfold call_llm. destruct (gemini_enabled env use_gemini).
      - apply (spends_bind 0 (Z.to_nat max_retries)).
        { intros g0 s0 r g' s' H. unfold budget_tracker_check_budget in H.
          exact (on_global 0 _ _ (check_budget_spends _ _) g0 _ _ _ H). }
        intros allowed. destruct allowed; cbn [negb].
        + replace (Z.to_nat max_retries) with (Z.to_nat max_retries + 0)%nat by lia.
          apply spends_bind.
          * rewrite <- length_range. apply retry_loop_spends.
          * intros [result|]; [free_step|apply deterministic_fallback_spends].
        + apply spends_weaken with 0%nat; [lia|].
          free_bind; [free_step|apply deterministic_fallback_spends].
      - apply spends_weaken with 0%nat; [lia|apply deterministic_fallback_spends]. }
    destruct (call_llm env gemini prompt use_gemini max_tokens temperature max_retries g s)
      as [[r g'] s'] eqn:E.
    exact (H _ _ _ _ _ E).
  - intros Hoff. unfold call_llm. rewrite Hoff. reflexivity.
Qed.

End SpendLlm.

Section SpendVertex.
Import VertexAI Runs.

Variable env : Sys.Env.
Variable strftime_date : Q -> string.
Variable generate : nat -> string -> string -> Z -> Q -> Q -> outcome SdkResponse.

Lemma fallback_response_spends prompt model :
  spends 0 (_fallback_response prompt model).
Proof. unfold _fallback_response. free_bind; free_step. Qed.

Lemma track_cost_spends model input_tokens output_tokens :
  spends 0 (_track_cost env strftime_date model input_tokens output_tokens).
Proof.
  unfold _track_cost. free_bind; [free_step|].
  destruct (model_costs a !! model) as [costs|].
  - free_bind; [free_step|]. cbv zeta. free_bind; [free_step|].
    free_bind.
    { match goal with |- context [if ?b then _ else _] => destruct b end; free_step. }
    free_bind; free_step.
  - free_bind; free_step.
Qed.

Lemma rate_limit_acquire_spends : spends 0 (_rate_limit_acquire env).
Proof.
  unfold _rate_limit_acquire, rate_limit_take, rate_limit_resume.
  free_bind.
  { free_bind; [free_step|]. free_bind; [free_step|]. cbv zeta.
    match goal with |- context [if Qge_bool ?b 1 then _ else _] =>
      destruct (Qge_bool b 1) end.
    - free_bind; free_step.
    - free_bind; [free_step|].
      match goal with |- context [if ?b then _ else _] => destruct b end;
        [free_step|].
      free_bind; free_step. }
  destruct a as [wait_time|]; [|free_step].
  free_bind; [free_step|]. free_bind; free_step.
Qed.

Lemma on_exception_spends_v prompt model max_retries attempt e :
  spends 0 (on_exception env prompt model max_retries attempt e).
Proof.
  unfold on_exception, record_failure.
  free_bind.
  { free_bind; [free_step|]. cbv zeta. free_bind; [free_step|].
    free_bind; free_step. }
  free_bind; [free_step|].
  destruct (failure_count a0 >=? 5)%Z.
  - free_bind; [free_step|]. free_bind; [free_step|].
    free_bind; [apply fallback_response_spends|free_step].
  - destruct (attempt <? max_retries - 1)%Z.
    + free_bind; [free_step|]. cbv zeta. free_bind; [free_step|].
      free_bind; free_step.
    + free_bind; [free_step|].
      free_bind; [apply fallback_response_spends|free_step].
Qed.

Lemma attempt_body_spends_v prompt model max_output_tokens temperature top_p
      max_retries attempt :
  spends 1 (attempt_body env strftime_date generate prompt model max_output_tokens
                         temperature top_p max_retries attempt).
Proof.
  unfold attempt_body, begin_attempt, finish_attempt.
  apply (spends_bind 1 0).
  { apply (spends_bind 0 1); [free_step|]. intros _.
    apply spends_lift. unfold dispatch. apply invoke_spends. }
  intros r. apply (spends_try 0 0); [|intros e; apply on_exception_spends_v].
  free_bind.
  { unfold receive. destruct r; free_step. }
  free_bind; [|free_step].
  unfold on_response. free_bind; [free_step|]. free_bind; [free_step|].
  free_bind; [apply track_cost_spends|]. cbv zeta. free_bind; free_step.
Qed.

Lemma retry_loop_spends_v prompt model max_output_tokens temperature top_p
      max_retries attempts :
  spends (length attempts)
         (retry_loop env strftime_date generate prompt model max_output_tokens
                     temperature top_p max_retries attempts).
Proof.
  induction attempts as [|attempt rest IH]; cbn [retry_loop length].
  - free_step.
  - apply (spends_bind 1 (length rest)); [apply attempt_body_spends_v|].
    intros [|result]; [exact IH|].
    apply spends_weaken with 0%nat; [lia|free_step].
Qed.

Lemma call_model_spends prompt model max_output_tokens temperature top_p max_retries :
  spends (Z.to_nat max_retries)
         (call_model env strftime_date generate prompt model max_output_tokens
                     temperature top_p max_retries).
Proof.
  unfold call_model. apply (spends_bind 0 (Z.to_nat max_retries)); [free_step|].
  intros self. destruct (use_fallback self).
  - apply spends_weaken with 0%nat; [lia|apply fallback_response_spends].
  - apply (spends_bind 0 (Z.to_nat max_retries)); [apply rate_limit_acquire_spends|].
    intros _. replace (Z.to_nat max_retries) with (Z.to_nat max_retries + 0)%nat by lia.
    apply spends_bind.
    + rewrite <- length_range. apply retry_loop_spends_v.
    + intros [result|]; [free_step|apply fallback_response_spends].
Qed.

(** X7.  One call of [VertexAIClient.call_model] invokes the provider at
    most [max_retries] times (not at all when [max_retries] is zero or
    negative), whatever the state of the instance and whatever the provider
    answers. *)
Theorem call_model_provider_calls :
  forall (prompt model : string) (max_output_tokens : Z) (temperature top_p : Q)
         (max_retries : Z) (self : t) (s : Sys.t),
    let run := call_model env strftime_date generate prompt model max_output_tokens
                          temperature top_p max_retries self s in
    (Sys.provider_calls s <= Sys.provider_calls (snd run)
     <= Sys.provider_calls s + Z.to_nat max_retries)%nat.
Proof.
  intros prompt model max_output_tokens temperature top_p max_retries self s run.
  subst run.
  destruct (call_model env strftime_date generate prompt model max_output_tokens
                       temperature top_p max_retries self s) as [[r self'] s'] eqn:E.
  exact (call_model_spends _ _ _ _ _ _ _ _ _ _ _ E).
Qed.

End SpendVertex.

(** ** The client: its bucket, its modes, its answers *)

Section VertexBucket.
Import VertexAI Runs.

Variable env : Sys.Env.

(** What [_rate_limit_acquire] leaves behind, whichever branch it takes:
    only the bucket is written, and the provider is not reached. *)
Lemma rate_limit_acquire_effect (self : t) (s : Sys.t) :
  tokens_per_minute self <> 0%Z ->
  exists balance s',
    _rate_limit_acquire env self s
    = (Returns tt, set_bucket balance (fst (Sys.time_time env s)) self, s')
    /\ Sys.provider_calls s' = Sys.provider_calls s.
Proof.
  intros Hrate. unfold _rate_limit_acquire, rate_limit_take, rate_limit_resume.
  plumbing. unfold Sys.time_time. cbn [fst snd].
  cbn [set_bucket rate_limit_tokens max_tokens tokens_per_minute last_refill].
  match goal with |- context [Qge_bool ?b 1] => destruct (Qge_bool b 1) end.
  - eexists. eexists. split; reflexivity.
  - apply Z.eqb_neq in Hrate. rewrite Hrate.
    eexists. eexists. split; reflexivity.
Qed.

(** X8.  [VertexAIClient._rate_limit_acquire] on a bucket within its bounds
    and a positive rate returns, leaves the balance between zero and the
    capacity, and makes the caller wait at most [60 / tokens_per_minute]
    seconds (0.6 s with the rate of 100 the constructor sets) after its clock
    reading.  The clock is assumed not to run backwards. *)
Theorem rate_limit_wait_bound :
  forall (self : t) (s : Sys.t),
    monotone_clock env ->
    0 <= rate_limit_tokens self <= inject_Z (max_tokens self) ->
    (0 < tokens_per_minute self)%Z ->
    last_refill self <= Sys.clock s ->
    let now := fst (Sys.time_time env s) in
    let run := _rate_limit_acquire env self s in
    let self' := snd (fst run) in
    fst (fst run) = Returns tt
    /\ 0 <= rate_limit_tokens self' <= inject_Z (max_tokens self')
    /\ last_refill self' == now
    /\ now <= Sys.clock (snd run) <= now + 60 / inject_Z (tokens_per_minute self).
Proof.
  intros self s Hm [Hlo Hhi] Hrate Hl now run self'. subst self' run now.
  unfold _rate_limit_acquire, rate_limit_take, rate_limit_resume.
  plumbing. unfold Sys.time_time. cbn [fst snd].
  cbn [set_bucket rate_limit_tokens max_tokens tokens_per_minute last_refill].
  assert (Hpos : 0 < inject_Z (tokens_per_minute self)) by (unfold Qlt; simpl; lia).
  set (tpm := inject_Z (tokens_per_minute self)) in *.
  assert (Hr : 0 < tpm / 60) by (apply Qlt_shift_div_l; [reflexivity|lra]).
  assert (Hw : 0 <= 60 / tpm) by (apply Qle_shift_div_l; [exact Hpos|lra]).
  specialize (Hm (Sys.reads s)).
  set (now := Sys.clock s + Sys.drift env (Sys.reads s)) in *.
  assert (Hadd : 0 <= (now - last_refill self) * (tpm / 60)).
  { apply Qmult_le_0_compat; [subst now; lra|lra]. }
  match goal with |- context [Qge_bool ?b 1] => set (balance := b) end.
  assert (Hb0 : 0 <= balance).
  { apply Q.min_glb; [lra|lra]. }
  assert (Hb1 : balance <= inject_Z (max_tokens self)) by apply Q.le_min_l.
  destruct (Qge_bool balance 1) eqn:Hge.
  - apply Qge_bool_true in Hge.
    cbn [fst snd set_bucket rate_limit_tokens max_tokens last_refill Sys.clock].
    split; [reflexivity|]. split; [split; lra|]. split; [reflexivity|]. split; lra.
  - apply Qge_bool_false in Hge.
    assert (Hz : (tokens_per_minute self =? 0)%Z = false) by (apply Z.eqb_neq; lia).
    rewrite Hz.
    cbn [fst snd set_bucket rate_limit_tokens max_tokens last_refill Sys.clock
         Sys.emit Sys.sleep].
    assert (Hwait : 0 <= (1 - balance) / (tpm / 60) <= 60 / tpm).
    { split.
      - apply Qle_shift_div_l; [exact Hr|]. lra.
      - apply Qle_shift_div_r; [exact Hr|].
        assert (E : 60 / tpm * (tpm / 60) == 1) by (field; lra).
        lra. }
    split; [reflexivity|]. split; [split; lra|]. split; [reflexivity|]. split; lra.
Qed.

End VertexBucket.

Section VertexModes.
Import VertexAI Runs.

Variable env : Sys.Env.
Variable strftime_date : Q -> string.
Variable generate : nat -> string -> string -> Z -> Q -> Q -> outcome SdkResponse.

Lemma call_request_use_fallback (q : Request) (self : t) (s : Sys.t) :
  use_fallback self = true ->
  call_request env strftime_date generate q self s
  = (Returns (fallback_response_result (q_prompt q) (q_model q)), self,
     snd (Sys.sleep 0.1 s)).
Proof.
  intros H. unfold call_request, call_model. plumbing. rewrite H. reflexivity.
Qed.

Lemma call_models_use_fallback (qs : list Request) :
  forall (self : t) (s : Sys.t),
    use_fallback self = true ->
    exists s',
      call_models env strftime_date generate qs self s
      = (Returns (map (fun q => fallback_response_result (q_prompt q) (q_model q)) qs),
         self, s')
      /\ Sys.provider_calls s' = Sys.provider_calls s.
Proof.
  induction qs as [|q qs IH]; intros self s H.
  - exists s. split; reflexivity.
  - cbn [call_models map]. unfold Eff.bind at 1. unfold Sys.bind at 1.
    rewrite (call_request_use_fallback q self s H).
    destruct (IH self (snd (Sys.sleep 0.1 s)) H) as (s' & Hrun & Hpc).
    exists s'. unfold Eff.bind, Sys.bind. rewrite Hrun. split; [reflexivity|].
    rewrite Hpc. reflexivity.
Qed.

(** What the constructor leaves in the three fields that the check of line
    144 reads. *)
Lemma init_gate (available init_ok : bool) (project : option string)
      (location : string) (budget : Q) (force : bool) (s : Sys.t) :
  let self := fst (__init__ env available init_ok project location budget force s) in
  let live :=
    available
    && truthy (if truthy project then project
               else Sys.getenv env "GOOGLE_CLOUD_PROJECT")
    && negb force && init_ok in
  vertex_ai_initialized self = live
  /\ circuit_open self = false
  /\ force_fallback self = force
  /\ use_fallback self = negb live.
Proof.
  cbv zeta. unfold use_fallback, __init__, Sys.bind, Sys.time_time.
  cbn [fst snd].
  destruct available, (truthy (if truthy project then project
                               else Sys.getenv env "GOOGLE_CLOUD_PROJECT")),
    force, init_ok; cbn; repeat split.
Qed.

(** X9.  A client as the constructor builds it goes to the provider
    exactly when the SDK was imported, a project is known (the argument or,
    when that is missing or empty, [GOOGLE_CLOUD_PROJECT]; an empty value
    counts as missing), [force_fallback] is false and [vertexai.init] did not
    raise; [get_status] then reports the mode "vertex_ai", and otherwise
    "fallback".  In the second case every call of [call_model], in any
    sequence of calls, returns the fallback result, never reaches the provider
    and leaves the instance as it was. *)
Theorem fresh_client_mode :
  forall (available init_ok : bool) (project : option string) (location : string)
         (budget : Q) (force : bool) (s : Sys.t),
    let self := fst (__init__ env available init_ok project location budget force s) in
    let known_project :=
      truthy (if truthy project then project
              else Sys.getenv env "GOOGLE_CLOUD_PROJECT") in
    let live := available && known_project && negb force && init_ok in
    use_fallback self = negb live
    /\ mode (get_status available self) = (if live then "vertex_ai" else "fallback")%string
    /\ (live = false ->
        forall (qs : list Request) (s0 : Sys.t),
        exists s',
          call_models env strftime_date generate qs self s0
          = (Returns (map (fun q => fallback_response_result (q_prompt q) (q_model q)) qs),
             self, s')
          /\ Sys.provider_calls s' = Sys.provider_calls s0).
Proof.
  intros available init_ok project location budget force s self known_project live.
  destruct (init_gate available init_ok project location budget force s)
    as (Hi & Hc & Hf & Hfb).
  fold self in Hi, Hc, Hf, Hfb.
  split; [exact Hfb|]. split.
  - unfold get_status. cbn [mode]. rewrite Hi. reflexivity.
  - intros Hlive qs s0. apply call_models_use_fallback.
    exact (eq_trans Hfb (f_equal negb Hlive)).
Qed.

End VertexModes.

Section VertexAnswer.
Import VertexAI Runs.

Variable env : Sys.Env.
Variable strftime_date : Q -> string.
Variable generate : nat -> string -> string -> Z -> Q -> Q -> outcome SdkResponse.

Lemma range_cons (n : Z) :
  (1 <= n)%Z -> range n = 0%Z :: map Z.of_nat (seq 1 (Z.to_nat n - 1)).
Proof.
  intros H. unfold range. destruct (Z.to_nat n) as [|k] eqn:E; [lia|].
  cbn [seq map]. replace (S k - 1)%nat with k by lia. reflexivity.
Qed.

(** X10.  When a client is initialised, its circuit closed and fallback not
    forced, at least one attempt is allowed and the provider answers the first
    attempt, [call_model] returns a result marked "vertex_ai" that carries the
    text of that answer (the empty text when the answer has none), with the
    word counts of the prompt and of the text as input and output tokens and
    the cost of the price table (zero for a model the table does not hold);
    the cost is added to the total, the failure count is reset to zero, the
    circuit is closed and the provider has been invoked once.  Neither the
    daily budget nor what has been spent plays a part: the budget of the client
    only decides whether a warning is logged. *)
Theorem call_model_first_answer :
  forall (prompt model : string) (max_output_tokens : Z) (temperature top_p : Q)
         (max_retries : Z) (self : t) (s : Sys.t) (sdk : SdkResponse),
    use_fallback self = false ->
    tokens_per_minute self <> 0%Z ->
    (1 <= max_retries)%Z ->
    generate (Sys.provider_calls s) prompt model max_output_tokens temperature top_p
    = Returns sdk ->
    exists r self' s',
      call_model env strftime_date generate prompt model max_output_tokens
                 temperature top_p max_retries self s
      = (Returns r, self', s')
      /\ source r = "vertex_ai"%string
      /\ text r = r_text (provider_response prompt model sdk)
      /\ tokens_input r = split_len prompt
      /\ tokens_output r = split_len (text r)
      /\ cost_usd r
         = match model_costs self !! model with
           | Some costs =>
               inject_Z (tokens_input r) / 1000000 * fst costs
               + inject_Z (tokens_output r) / 1000000 * snd costs
           | None => 0
           end
      /\ total_costs self' == total_costs self + cost_usd r
      /\ failure_count self' = 0%Z
      /\ circuit_open self' = false
      /\ Sys.provider_calls s' = S (Sys.provider_calls s).
Proof.
  intros prompt model max_output_tokens temperature top_p max_retries self s sdk
         Hfb Hrate Hretries Hgen.
  destruct (rate_limit_acquire_effect env self s Hrate) as (balance & s1 & Hacq & Hpc).
  unfold call_model. rewrite (range_cons max_retries Hretries).
  cbn [retry_loop]. unfold attempt_body, begin_attempt, finish_attempt, dispatch,
    receive, on_response, _track_cost.
  plumbing. rewrite Hfb, Hacq.
  unfold Sys.emit, Sys.invoke. cbn [fst snd Sys.provider_calls].
  rewrite Hpc, Hgen.
  cbn [set_breaker set_bucket model_costs last_failure_time daily_costs total_costs
       daily_budget_usd].
  destruct (model_costs self !! model) as [costs|] eqn:Hcosts.
  - unfold Sys.time_time. cbn [fst snd].
    match goal with |- context [if Qgt_bool ?a ?b then _ else _] =>
      destruct (Qgt_bool a b) end;
      (eexists; eexists; eexists; split; [reflexivity|];
       cbn [source text tokens_input tokens_output cost_usd r_text r_tokens_input
            r_tokens_output provider_response set_costs total_costs failure_count
            circuit_open Sys.provider_calls];
       repeat split; try reflexivity;
       destruct (sdk_text sdk) as [[|c t]|]; reflexivity).
  - eexists. eexists. eexists. split; [reflexivity|].
    cbn [source text tokens_input tokens_output cost_usd r_text r_tokens_input
         r_tokens_output provider_response set_breaker set_bucket total_costs
         failure_count circuit_open Sys.provider_calls].
    repeat split; try reflexivity; [|ring].
    destruct (sdk_text sdk) as [[|c t]|]; reflexivity.
Qed.

End VertexAnswer.

Section VertexOutage.
Import VertexAI Runs.

Variable env : Sys.Env.
Variable strftime_date : Q -> string.
Variable generate : nat -> string -> string -> Z -> Q -> Q -> outcome SdkResponse.

(** One pass of the retry loop whose call of the SDK raises: the failure is
    counted; the pass ends the call with the fallback when the count
    reaches 5 or no attempt is left, and goes on otherwise. *)
Lemma failed_attempt prompt model max_output_tokens temperature top_p
      max_retries attempt (self : t) (s : Sys.t) (e : exn) :
  generate (Sys.provider_calls s) prompt model max_output_tokens temperature top_p
  = Raises e ->
  circuit_open self = false ->
  let count := (failure_count self + 1)%Z in
  exists self1 s1,
    attempt_body env strftime_date generate prompt model max_output_tokens
                 temperature top_p max_retries attempt self s
    = (Returns (if (count >=? 5)%Z || negb (attempt <? max_retries - 1)%Z
                then Return (fallback_response_result prompt model)
                else Continue), self1, s1)
    /\ failure_count self1 = count
    /\ circuit_open self1 = (count >=? 5)%Z
    /\ tokens_per_minute self1 = tokens_per_minute self
    /\ Sys.provider_calls s1 = S (Sys.provider_calls s).
Proof.
  intros Hgen Hclosed count. subst count.
  unfold attempt_body, begin_attempt, finish_attempt, dispatch, receive,
    on_exception, record_failure, _fallback_response.
  plumbing. unfold Sys.emit, Sys.invoke, Sys.time_time, Sys.random_uniform, Sys.sleep.
  cbn [fst snd Sys.provider_calls]. rewrite Hgen.
  cbn [set_breaker failure_count last_failure_time circuit_open].
  rewrite Hclosed.
  destruct (failure_count self + 1 >=? 5)%Z; cbn [orb].
  - eexists. eexists. split; [reflexivity|].
    cbn [set_breaker failure_count circuit_open tokens_per_minute Sys.provider_calls].
    repeat split.
  - destruct (attempt <? max_retries - 1)%Z; cbn [negb];
      (eexists; eexists; split; [reflexivity|];
       cbn [set_breaker failure_count circuit_open tokens_per_minute Sys.provider_calls];
       repeat split).
Qed.

Hypothesis down : provider_down generate.

Lemma failed_attempts prompt model max_output_tokens temperature top_p max_retries
      (len : nat) :
  forall (k : nat) (self : t) (s : Sys.t),
    (len <> 0%nat -> Z.of_nat (k + len) = max_retries) ->
    (failure_count self < 5)%Z ->
    circuit_open self = false ->
    exists self' s',
      retry_loop env strftime_date generate prompt model max_output_tokens
                 temperature top_p max_retries (map Z.of_nat (seq k len)) self s
      = (Returns (match len with
                  | O => None
                  | S _ => Some (fallback_response_result prompt model)
                  end), self', s')
      /\ failure_count self' = Z.min 5 (failure_count self + Z.of_nat len)
      /\ circuit_open self' = (5 <=? failure_count self + Z.of_nat len)%Z
      /\ Z.of_nat (Sys.provider_calls s')
         = (Z.of_nat (Sys.provider_calls s)
            + Z.min (Z.of_nat len) (5 - failure_count self))%Z.
Proof.
  induction len as [|len IH]; intros k self s Hk Hc Hclosed.
  - exists self, s. split; [reflexivity|]. rewrite Hclosed.
    split; [lia|]. split; [|lia].
    symmetry. apply Z.leb_gt. lia.
  - cbn [seq map retry_loop].
    destruct (down (Sys.provider_calls s) prompt model max_output_tokens
                   temperature top_p) as [e He].
    destruct (failed_attempt prompt model max_output_tokens temperature top_p
                max_retries (Z.of_nat k) self s e He Hclosed)
      as (self1 & s1 & Hrun & Hcount & Hopen & _ & Hpc).
    unfold Eff.bind at 1. unfold Sys.bind at 1. rewrite Hrun.
    assert (Hmax : Z.of_nat (k + S len) = max_retries) by (apply Hk; lia).
    destruct (failure_count self + 1 >=? 5)%Z eqn:Hfive; cbn [orb].
    + rewrite Z.geb_leb in Hfive. apply Z.leb_le in Hfive.
      exists self1, s1. split; [reflexivity|].
      rewrite Hcount, Hopen, Hpc.
      split; [lia|]. split; [|lia].
      symmetry. apply Z.leb_le. lia.
    + rewrite Z.geb_leb in Hfive. apply Z.leb_gt in Hfive.
      destruct (Z.of_nat k <? max_retries - 1)%Z eqn:Hlast; cbn [negb].
      * apply Z.ltb_lt in Hlast.
        destruct len as [|len']; [lia|].
        destruct (IH (S k) self1 s1) as (self' & s' & Hloop & Hcount' & Hopen' & Hpc').
        { intros _. lia. }
        { lia. }
        { rewrite Hopen. reflexivity. }
        exists self', s'. split; [exact Hloop|].
        rewrite Hcount', Hopen', Hpc', Hcount, Hpc.
        split; [lia|]. split; [|lia].
        f_equal. lia.
      * apply Z.ltb_ge in Hlast.
        assert (len = 0%nat) by lia. subst len.
        exists self1, s1. split; [reflexivity|].
        rewrite Hcount, Hopen, Hpc.
        split; [lia|]. split; [|lia].
        symmetry. apply Z.leb_gt. lia.
Qed.

(** X11.  While the provider is down, a call of [call_model] that gets
    past the check of line 144 with a failure count [c] below 5 returns the
    fallback result; with [n] attempts allowed ([max_retries], or none when it
    is negative) it invokes the provider [min(n, 5 - c)] times, leaves the
    failure count at [min(5, c + n)] and opens the circuit exactly when
    [c + n] reaches 5.  Failures add up across calls: nothing but a success
    resets the count. *)
Theorem call_model_outage :
  forall (prompt model : string) (max_output_tokens : Z) (temperature top_p : Q)
         (max_retries : Z) (self : t) (s : Sys.t),
    use_fallback self = false ->
    tokens_per_minute self <> 0%Z ->
    (failure_count self < 5)%Z ->
    let attempts := Z.max 0 max_retries in
    exists self' s',
      call_model env strftime_date generate prompt model max_output_tokens
                 temperature top_p max_retries self s
      = (Returns (fallback_response_result prompt model), self', s')
      /\ failure_count self' = Z.min 5 (failure_count self + attempts)
      /\ circuit_open self' = (5 <=? failure_count self + attempts)%Z
      /\ Z.of_nat (Sys.provider_calls s')
         = (Z.of_nat (Sys.provider_calls s)
            + Z.min attempts (5 - failure_count self))%Z.
Proof.
  intros prompt model max_output_tokens temperature top_p max_retries self s
         Hfb Hrate Hc attempts. subst attempts.
  destruct (rate_limit_acquire_effect env self s Hrate) as (balance & s1 & Hacq & Hpc).
  assert (Hclosed : circuit_open self = false).
  { unfold use_fallback in Hfb.
    destruct (circuit_open self); [|reflexivity].
    rewrite orb_true_r in Hfb. discriminate. }
  set (self1 := set_bucket balance (fst (Sys.time_time env s)) self) in *.
  destruct (failed_attempts prompt model max_output_tokens temperature top_p
              max_retries (Z.to_nat max_retries) 0 self1 s1)
    as (self' & s' & Hloop & Hcount & Hopen & Hcalls).
  { intros Hn. lia. }
  { exact Hc. }
  { exact Hclosed. }
  unfold call_model. unfold Eff.bind at 1. unfold Eff.get, Sys.bind at 1.
  unfold Sys.ret at 1. rewrite Hfb.
  unfold Eff.bind at 1. unfold Sys.bind at 1. rewrite Hacq.
  unfold Eff.bind, Sys.bind. unfold range. rewrite Hloop.
  change (failure_count self1) with (failure_count self) in *.
  destruct (Z.to_nat max_retries) as [|n] eqn:Hn.
  - exists self', (snd (Sys.sleep 0.1 s')). split; [reflexivity|].
    cbn [Sys.sleep snd Sys.provider_calls]. rewrite Hcount, Hopen, Hcalls, Hpc.
    replace (Z.max 0 max_retries) with 0%Z by lia.
    repeat split; lia.
  - exists self', s'. split; [reflexivity|].
    rewrite Hcount, Hopen, Hcalls, Hpc.
    replace (Z.max 0 max_retries) with (Z.of_nat (S n)) by lia.
    repeat split; lia.
Qed.

End VertexOutage.

Section VertexSamples.
Import VertexAI Runs Samples.

Lemma rate_limit_wait_bound_witness :
  monotone_clock quiet
  /\ 0 <= rate_limit_tokens drained <= inject_Z (max_tokens drained)
  /\ (0 < tokens_per_minute drained)%Z
  /\ last_refill drained <= Sys.clock (boot 0)
  /\ fst (fst (_rate_limit_acquire quiet drained (boot 0))) = Returns tt
  /\ Sys.clock (snd (_rate_limit_acquire quiet drained (boot 0)))
     <= fst (Sys.time_time quiet (boot 0)) + 60 / inject_Z (tokens_per_minute drained).
Proof.
  assert (H1 : 0 <= rate_limit_tokens drained <= inject_Z (max_tokens drained))
    by (split; discriminate).
  assert (H2 : (0 < tokens_per_minute drained)%Z) by reflexivity.
  assert (H3 : last_refill drained <= Sys.clock (boot 0)) by discriminate.
  split; [exact quiet_monotone|]. split; [exact H1|]. split; [exact H2|].
  split; [exact H3|].
  destruct (rate_limit_wait_bound quiet drained (boot 0) quiet_monotone H1 H2 H3)
    as (Ha & _ & _ & _ & Hb).
  split; [exact Ha|exact Hb].
Defined.

Lemma call_model_first_answer_witness :
  use_fallback client = false
  /\ tokens_per_minute client <> 0%Z
  /\ outage (Sys.provider_calls (boot 0)) "price this" "gemini-2.0-flash" 256 0.7 0.95
     = Returns sdk_answer
  /\ exists r self' s',
       call_model quiet calendar outage "price this" "gemini-2.0-flash" 256 0.7 0.95 3
                  client (boot 0)
       = (Returns r, self', s')
       /\ source r = "vertex_ai"%string
       /\ Sys.provider_calls s' = 1%nat.
Proof.
  assert (H1 : use_fallback client = false) by (vm_compute; reflexivity).
  assert (H2 : tokens_per_minute client <> 0%Z) by (vm_compute; discriminate).
  assert (H3 : (1 <= 3)%Z) by discriminate.
  assert (H4 : outage (Sys.provider_calls (boot 0)) "price this" "gemini-2.0-flash"
                      256 0.7 0.95 = Returns sdk_answer) by reflexivity.
  split; [exact H1|]. split; [exact H2|]. split; [exact H4|].
  destruct (call_model_first_answer quiet calendar outage "price this" "gemini-2.0-flash"
              256 0.7 0.95 3 client (boot 0) sdk_answer H1 H2 H3 H4)
    as (r & self' & s' & Hrun & Hsrc & _ & _ & _ & _ & _ & _ & _ & Hpc).
  exists r, self', s'. split; [exact Hrun|]. split; [exact Hsrc|exact Hpc].
Defined.

Lemma dead_is_down : provider_down dead.
Proof. intros n prompt model max_output_tokens temperature top_p. exists boom. reflexivity. Qed.

Lemma call_model_outage_witness :
  provider_down dead
  /\ use_fallback client = false
  /\ tokens_per_minute client <> 0%Z
  /\ (failure_count client < 5)%Z
  /\ exists self' s',
       call_model quiet calendar dead "price this" "gemini-2.0-flash" 256 0.7 0.95 3
                  client (boot 0)
       = (Returns (fallback_response_result "price this" "gemini-2.0-flash"), self', s')
       /\ failure_count self' = 3%Z
       /\ circuit_open self' = false
       /\ Z.of_nat (Sys.provider_calls s') = 3%Z.
Proof.
  assert (H1 : use_fallback client = false) by (vm_compute; reflexivity).
  assert (H2 : tokens_per_minute client <> 0%Z) by (vm_compute; discriminate).
  assert (H3 : (failure_count client < 5)%Z) by reflexivity.
  split; [exact dead_is_down|]. split; [exact H1|]. split; [exact H2|].
  split; [exact H3|].
  destruct (call_model_outage quiet calendar dead dead_is_down "price this"
              "gemini-2.0-flash" 256 0.7 0.95 3 client (boot 0) H1 H2 H3)
    as (self' & s' & Hrun & Hcount & Hopen & Hcalls).
  exists self', s'. split; [exact Hrun|]. split; [exact Hcount|].
  split; [exact Hopen|exact Hcalls].
Defined.

End VertexSamples.

(** ** Retries and the bucket of the Vertex client *)

Section OneToken.
Import VertexAI Runs.

Variable env : Sys.Env.
Variable strftime_date : Q -> string.
Variable generate : nat -> string -> string -> Z -> Q -> Q -> outcome SdkResponse.
Variable balance : Q.
Variable refill : Q.

Local Abbreviation bucket_is :=
  (fun self : t => rate_limit_tokens self = balance /\ last_refill self = refill).

Ltac keep_lift := apply keeps_bind with (Q := fun _ => True); [apply keeps_lift|intros ? _].
Ltac keep_get self H :=
  apply keeps_bind with (Q := bucket_is); [apply keeps_get|intros self H].
Ltac keep_put := apply keeps_bind with (Q := fun _ => True);
                 [apply keeps_put; assumption|intros _ _].

Lemma fallback_response_keeps_bucket prompt model :
  keeps bucket_is (_fallback_response prompt model) (fun _ => True).
Proof. unfold _fallback_response. keep_lift. apply keeps_ret. exact I. Qed.

Lemma track_cost_keeps_bucket model input_tokens output_tokens :
  keeps bucket_is (_track_cost env strftime_date model input_tokens output_tokens)
        (fun _ => True).
Proof.
  unfold _track_cost. keep_get self Hself.
  destruct (model_costs self !! model) as [costs|].
  - keep_lift. keep_put.
    apply keeps_bind with (Q := fun _ => True).
    { match goal with |- context [if ?b then _ else _] => destruct b end;
        [apply keeps_lift | apply keeps_ret; exact I]. }
    intros _ _. keep_lift. apply keeps_ret. exact I.
  - keep_lift. apply keeps_ret. exact I.
Qed.

Lemma on_exception_keeps_bucket prompt model max_retries attempt e :
  keeps bucket_is (on_exception env prompt model max_retries attempt e) (fun _ => True).
Proof.
  assert (Hfb : keeps bucket_is
                  (Eff.bind (_fallback_response prompt model)
                            (fun fb => Eff.ret (Return fb))) (fun _ => True)).
  { eapply keeps_bind; [apply fallback_response_keeps_bucket|].
    intros fb _. apply keeps_ret. exact I. }
  unfold on_exception, record_failure.
  apply keeps_bind with (Q := fun _ => True).
  { keep_get self Hself. keep_lift. keep_put. apply keeps_lift. }
  intros _ _. keep_get self Hself.
  destruct (failure_count self >=? 5)%Z.
  - keep_put. keep_lift. exact Hfb.
  - destruct (attempt <? max_retries - 1)%Z.
    + keep_lift. keep_lift. keep_lift. apply keeps_ret. exact I.
    + keep_lift. exact Hfb.
Qed.

Lemma attempt_body_keeps_bucket prompt model max_output_tokens temperature top_p
      max_retries attempt :
  keeps bucket_is
        (attempt_body env strftime_date generate prompt model max_output_tokens
                      temperature top_p max_retries attempt) (fun _ => True).
Proof.
  unfold attempt_body, begin_attempt, finish_attempt.
  apply keeps_bind with (Q := fun _ => True).
  { keep_lift. apply keeps_lift. }
  intros r _. apply keeps_try.
  - apply keeps_bind with (Q := fun _ => True).
    { destruct r; [apply keeps_ret; exact I | apply keeps_raise]. }
    intros response _. unfold on_response.
    apply keeps_bind with (Q := fun _ => True).
    { keep_get self Hself. keep_put.
      apply keeps_bind with (Q := fun _ => True); [apply track_cost_keeps_bucket|].
      intros cost _. keep_lift. apply keeps_ret. exact I. }
    intros result _. apply keeps_ret. exact I.
  - intros e. apply on_exception_keeps_bucket.
Qed.

Lemma retry_loop_keeps_bucket prompt model max_output_tokens temperature top_p
      max_retries attempts :
  keeps bucket_is
        (retry_loop env strftime_date generate prompt model max_output_tokens
                    temperature top_p max_retries attempts) (fun _ => True).
Proof.
  induction attempts as [|attempt rest IH]; cbn [retry_loop].
  - apply keeps_ret. exact I.
  - eapply keeps_bind; [apply attempt_body_keeps_bucket|].
    intros [|r] _; [exact IH|apply keeps_ret; exact I].
Qed.

(** The retry loop and what follows it do not write the bucket. *)
Lemma after_acquire_keeps_bucket prompt model max_output_tokens temperature top_p
      max_retries :
  keeps bucket_is
        (Eff.bind (retry_loop env strftime_date generate prompt model max_output_tokens
                              temperature top_p max_retries (range max_retries))
                  (fun r => match r with
                            | Some result => Eff.ret result
                            | None => _fallback_response prompt model
                            end))
        (fun _ => True).
Proof.
  eapply keeps_bind; [apply retry_loop_keeps_bucket|].
  intros [r|] _; [apply keeps_ret; exact I|apply fallback_response_keeps_bucket].
Qed.

End OneToken.

Section OneTokenCall.
Import VertexAI Runs.

Variable env : Sys.Env.
Variable strftime_date : Q -> string.
Variable generate : nat -> string -> string -> Z -> Q -> Q -> outcome SdkResponse.

(** X20.  [call_model] goes to the rate limiter once a call, not once an
    attempt: when the client does not fall back, the bucket ([rate_limit_tokens]
    and [last_refill]) after the call is the bucket that the one
    [_rate_limit_acquire] of line 148 leaves, however many attempts the retry
    loop makes and whatever the provider answers; when the client falls back,
    the bucket is not touched at all. *)
Theorem one_token_a_call :
  forall (prompt model : string) (max_output_tokens : Z) (temperature top_p : Q)
         (max_retries : Z) (self : t) (s : Sys.t),
    let called := snd (fst (call_model env strftime_date generate prompt model
                                       max_output_tokens temperature top_p
                                       max_retries self s)) in
    let acquired := snd (fst (_rate_limit_acquire env self s)) in
    (use_fallback self = true ->
     rate_limit_tokens called = rate_limit_tokens self
     /\ last_refill called = last_refill self)
    /\ (use_fallback self = false ->
        rate_limit_tokens called = rate_limit_tokens acquired
        /\ last_refill called = last_refill acquired).
Proof.
  intros prompt model max_output_tokens temperature top_p max_retries self s
         called acquired. subst called acquired. split; intros Hfb.
  - unfold call_model. plumbing. rewrite Hfb. split; reflexivity.
  - destruct (call_model env strftime_date generate prompt model max_output_tokens
                         temperature top_p max_retries self s) as [[r self'] s']
      eqn:Hcall.
    cbn [fst snd]. unfold call_model in Hcall.
    unfold Eff.bind at 1 in Hcall. unfold Eff.get, Sys.bind at 1 in Hcall.
    unfold Sys.ret at 1 in Hcall. rewrite Hfb in Hcall.
    unfold Eff.bind at 1 in Hcall. unfold Sys.bind at 1 in Hcall.
    destruct (_rate_limit_acquire env self s) as [[[u|e] self1] s1]; cbn [fst snd].
    + exact (proj1 (after_acquire_keeps_bucket env strftime_date generate
                      (rate_limit_tokens self1) (last_refill self1)
                      prompt model max_output_tokens temperature top_p max_retries
                      self1 s1 r self' s' (conj eq_refl eq_refl) Hcall)).
    + injection Hcall as _ <- _. split; reflexivity.
Qed.

End OneTokenCall.

(** ** The cost books of the client *)

Section Books.
Import VertexAI Runs.

Variable env : Sys.Env.
Variable strftime_date : Q -> string.
Variable generate : nat -> string -> string -> Z -> Q -> Q -> outcome SdkResponse.

(** X13.  [get_cost_summary] returns, reads the clock once and leaves the
    instance as it was.  It reports the total, and as the day's cost the sum
    of the entries of the day of its clock reading (zero when the day has
    none).  The remaining budget it reports is never negative: it is the
    budget less the day's cost when that cost is within the budget, and zero
    when the budget is overrun.  The usage percentage is zero for a budget
    that is zero or negative (no division takes place), and
    [daily / budget * 100] otherwise. *)
Theorem cost_summary_report :
  forall (self : t) (s : Sys.t),
    let now := fst (Sys.time_time env s) in
    let today := strftime_date now in
    let daily := sum_values (costs_of_day self today) in
    exists summary,
      get_cost_summary env strftime_date self s
      = (Returns summary, self, snd (Sys.time_time env s))
      /\ total_cost_usd summary = total_costs self
      /\ daily_cost_usd summary = daily
      /\ daily_breakdown summary = costs_of_day self today
      /\ 0 <= daily_remaining_usd summary
      /\ (daily <= daily_budget_usd self ->
          daily_remaining_usd summary == daily_budget_usd self - daily)
      /\ (daily_budget_usd self <= daily -> daily_remaining_usd summary == 0)
      /\ (daily_budget_usd self <= 0 -> daily_usage_pct summary = 0)
      /\ (0 < daily_budget_usd self ->
          daily_usage_pct summary = daily / daily_budget_usd self * 100).
Proof.
  intros self s now today daily. subst daily today now.
  unfold get_cost_summary. plumbing. unfold Sys.time_time. cbn [fst snd].
  eexists. split; [reflexivity|].
  cbn [total_cost_usd daily_cost_usd daily_breakdown daily_remaining_usd daily_usage_pct].
  split; [reflexivity|]. split; [reflexivity|]. split; [reflexivity|].
  split; [apply Q.le_max_l|]. split; [|split; [|split]].
  - intros H. apply Q.max_r. lra.
  - intros H. apply Q.max_l. lra.
  - intros H. apply Qgt_bool_false in H. rewrite H. reflexivity.
  - intros H. apply Qgt_bool_true in H. rewrite H. reflexivity.
Qed.

(** X14.  A charge is seen by the summary: after [_track_cost] on a model
    of the price table, a [get_cost_summary] read on the same calendar day
    reports, for that model, what the day held for it before plus the cost of
    the charge ([input_tokens / 1M] times the input price plus
    [output_tokens / 1M] times the output price), as the day's cost the sum
    over the breakdown it reports, and a total that is the total before plus
    that cost. *)
Theorem charge_then_summary :
  forall (model : string) (input_tokens output_tokens : Z) (costs : Q * Q)
         (self : t) (s : Sys.t),
    model_costs self !! model = Some costs ->
    let today := strftime_date (fst (Sys.time_time env s)) in
    let cost := inject_Z input_tokens / 1000000 * fst costs
                + inject_Z output_tokens / 1000000 * snd costs in
    let spent := match costs_of_day self today !! model with
                 | Some c => c
                 | None => 0
                 end in
    let charged := _track_cost env strftime_date model input_tokens output_tokens self s in
    strftime_date (fst (Sys.time_time env (snd charged))) = today ->
    exists summary s',
      fst (fst charged) = Returns cost
      /\ get_cost_summary env strftime_date (snd (fst charged)) (snd charged)
         = (Returns summary, snd (fst charged), s')
      /\ daily_breakdown summary !! model = Some (spent + cost)
      /\ (forall other, other <> model ->
          daily_breakdown summary !! other = costs_of_day self today !! other)
      /\ daily_cost_usd summary = sum_values (daily_breakdown summary)
      /\ total_cost_usd summary = total_costs self + cost.
Proof.
  intros model input_tokens output_tokens costs self s Hcosts today cost spent charged.
  subst charged spent cost today.
  unfold _track_cost, get_cost_summary, costs_of_day. plumbing. rewrite Hcosts.
  unfold Sys.time_time, Sys.emit. cbn [fst snd].
  match goal with |- context [if Qgt_bool ?a ?b then _ else _] =>
    destruct (Qgt_bool a b) end;
    cbn [fst snd set_costs daily_costs total_costs daily_budget_usd Sys.clock Sys.reads];
    intros Hday; rewrite Hday;
    (eexists; eexists; split; [reflexivity|]; split; [reflexivity|];
     cbn [total_cost_usd daily_cost_usd daily_breakdown];
     rewrite lookup_insert_eq; split; [apply lookup_insert_eq|];
     split; [intros other Hother; apply lookup_insert_ne; congruence|];
     split; reflexivity).
Qed.

End Books.

Section BooksSamples.
Import VertexAI Runs Samples.

Lemma charge_then_summary_witness :
  model_costs client !! "gemini-1.5-pro" = Some (1.25, 5.00)
  /\ exists summary s',
       get_cost_summary quiet calendar
         (snd (fst (_track_cost quiet calendar "gemini-1.5-pro" 2000000 1000000
                                client (boot 0))))
         (snd (_track_cost quiet calendar "gemini-1.5-pro" 2000000 1000000
                           client (boot 0)))
       = (Returns summary,
          snd (fst (_track_cost quiet calendar "gemini-1.5-pro" 2000000 1000000
                                client (boot 0))), s')
       /\ total_cost_usd summary == 7.5.
Proof.
  assert (H : model_costs client !! "gemini-1.5-pro" = Some (1.25, 5.00))
    by (vm_compute; reflexivity).
  split; [exact H|].
  destruct (charge_then_summary quiet calendar "gemini-1.5-pro" 2000000 1000000
              (1.25, 5.00) client (boot 0) H eq_refl)
    as (summary & s' & _ & Hrun & _ & _ & _ & Htotal).
  exists summary, s'. split; [exact Hrun|].
  rewrite Htotal. vm_compute. reflexivity.
Defined.

End BooksSamples.

(** ** The global client *)

Section GlobalClient.
Import VertexAI Runs.
Import Global.

Variable env : Sys.Env.
Variable VERTEX_AI_AVAILABLE : bool.
Variable vertexai_init_ok : bool.
Variable strftime_date : Q -> string.
Variable generate : nat -> string -> string -> Z -> Q -> Q -> outcome SdkResponse.

Lemma call_llm_existing prompt model max_tokens temperature top_p max_retries
      (self : t) (s : Sys.t) :
  call_llm env VERTEX_AI_AVAILABLE vertexai_init_ok strftime_date generate
           prompt model max_tokens temperature top_p max_retries (Some self) s
  = (let r := call_model env strftime_date generate prompt model max_tokens
                         temperature top_p max_retries self s in
     (fst (fst r), Some (snd (fst r)), snd r)).
Proof.
  unfold call_llm, on_client. plumbing.
  destruct (call_model env strftime_date generate prompt model max_tokens
                       temperature top_p max_retries self s) as [[r self'] s'].
  reflexivity.
Qed.

Lemma call_llms_use_fallback (qs : list Request) :
  forall (self : t) (s : Sys.t),
    use_fallback self = true ->
    exists s',
      call_llms env VERTEX_AI_AVAILABLE vertexai_init_ok strftime_date generate
                qs (Some self) s
      = (Returns (map (fun q => fallback_response_result (q_prompt q) (q_model q)) qs),
         Some self, s')
      /\ Sys.provider_calls s' = Sys.provider_calls s.
Proof.
  induction qs as [|q qs IH]; intros self s H.
  - exists s. split; reflexivity.
  - cbn [call_llms map]. unfold Eff.bind at 1. unfold Sys.bind at 1.
    rewrite call_llm_existing.
    pose proof (call_request_use_fallback env strftime_date generate q self s H) as Hq.
    unfold call_request in Hq. rewrite Hq. cbv zeta. cbn [fst snd].
    destruct (IH self (snd (Sys.sleep 0.1 s)) H) as (s' & Hrun & Hpc).
    exists s'. unfold Eff.bind, Sys.bind. rewrite Hrun. split; [reflexivity|].
    rewrite Hpc. reflexivity.
Qed.

(** X15.  [validate_config] called before any client exists builds the
    global client with [force_fallback] set and reports the mode "fallback",
    whatever the environment and whether or not the SDK is there.  That client
    stays: every [call_llm] of the module made afterwards, in any sequence,
    returns the fallback result and never reaches the provider. *)
Theorem validate_config_pins_fallback :
  forall (s : Sys.t),
  exists status self s1,
    validate_config env VERTEX_AI_AVAILABLE vertexai_init_ok None s
    = (Returns status, Some self, s1)
    /\ mode status = "fallback"%string
    /\ force_fallback self = true
    /\ forall (qs : list Request) (s2 : Sys.t),
       exists s3,
         call_llms env VERTEX_AI_AVAILABLE vertexai_init_ok strftime_date generate
                   qs (Some self) s2
         = (Returns (map (fun q => fallback_response_result (q_prompt q) (q_model q)) qs),
            Some self, s3)
         /\ Sys.provider_calls s3 = Sys.provider_calls s2.
Proof.
  intros s.
  pose proof (init_gate env VERTEX_AI_AVAILABLE vertexai_init_ok None "us-central1"
                        100 true s) as Hinit.
  cbv zeta in Hinit. rewrite !andb_false_r in Hinit. cbn [andb negb] in Hinit.
  destruct Hinit as (Hi & _ & Hforce & Hfb).
  unfold validate_config, construct. plumbing.
  destruct (__init__ env VERTEX_AI_AVAILABLE vertexai_init_ok None "us-central1" 100
                     true s) as [self s1].
  cbn [fst snd] in *.
  exists (get_status VERTEX_AI_AVAILABLE self), self, s1.
  split; [reflexivity|]. split; [unfold get_status; cbn [mode]; rewrite Hi; reflexivity|].
  split.
  - exact Hforce.
  - intros qs s2. apply call_llms_use_fallback. exact Hfb.
Qed.

Lemma init_books (available init_ok : bool) (project : option string)
      (location : string) (budget : Q) (force : bool) (s : Sys.t) :
  let self := fst (__init__ env available init_ok project location budget force s) in
  total_costs self = 0 /\ daily_costs self = ∅ /\ daily_budget_usd self = budget
  /\ failure_count self = 0%Z /\ circuit_open self = false.
Proof.
  cbv zeta. unfold __init__, Sys.bind, Sys.time_time.
  repeat match goal with |- context [if ?b then _ else _] => destruct b end;
    repeat split; reflexivity.
Qed.

(** X16.  [initialize_client] replaces whatever client the module holds:
    from every state of the global, with or without a client, it returns and
    installs a new instance, which [get_client] then gives, with no failure
    counted and the circuit closed; a [get_cost_summary] read next reports a
    total and a day's cost of zero, no entry for any day or model, the budget
    that was passed and [max(0, budget)] as what remains.  What the previous
    client had spent and the state of its circuit are gone. *)
Theorem initialize_client_discards :
  forall (project : option string) (location : string) (budget : Q) (force : bool)
         (_client : option t) (s : Sys.t),
  exists self s1 summary s2,
    initialize_client env VERTEX_AI_AVAILABLE vertexai_init_ok
                      project location budget force _client s
    = (Returns self, Some self, s1)
    /\ get_client (Some self) = inr self
    /\ failure_count self = 0%Z /\ circuit_open self = false
    /\ get_cost_summary env strftime_date (Some self) s1
       = (Returns (inr summary), Some self, s2)
    /\ total_cost_usd summary = 0
    /\ daily_cost_usd summary = 0
    /\ daily_breakdown summary = ∅
    /\ all_days summary = ∅
    /\ summary_daily_budget_usd summary = budget
    /\ daily_remaining_usd summary = Qmax 0 (budget - 0).
Proof.
  intros project location budget force _client s.
  pose proof (init_books VERTEX_AI_AVAILABLE vertexai_init_ok project location budget
                force s) as (Htotal & Hdays & Hbudget & Hcount & Hopen).
  unfold initialize_client, construct, Sys.bind.
  destruct (__init__ env VERTEX_AI_AVAILABLE vertexai_init_ok project location budget
                     force s) as [self s1].
  cbn [fst snd] in *.
  exists self, s1. eexists. eexists.
  split; [reflexivity|]. split; [reflexivity|]. split; [exact Hcount|].
  split; [exact Hopen|]. split.
  { unfold get_cost_summary, VertexAI.get_cost_summary, on_client. plumbing.
    unfold Sys.time_time. cbn [fst snd]. reflexivity. }
  cbn [total_cost_usd daily_cost_usd daily_breakdown all_days summary_daily_budget_usd
       daily_remaining_usd].
  unfold costs_of_day. rewrite Htotal, Hdays, Hbudget, lookup_empty.
  assert (Hsum : sum_values ∅ = 0) by (unfold sum_values; apply map_fold_empty).
  rewrite Hsum. repeat split; reflexivity.
Qed.

End GlobalClient.

(** ** What the fallback answers to the agents *)

Section AgentPrompts.
Import VertexAI Runs.

Lemma lower_app (a b : string) :
  lower (String.append a b) = String.append (lower a) (lower b).
Proof.
  induction a as [|c a IH]; [reflexivity|].
  change (String.append (String c a) b) with (String c (String.append a b)).
  cbn [lower]. rewrite IH. reflexivity.
Qed.

Lemma contains_skip (sub a b : string) :
  contains sub b = true -> contains sub (String.append a b) = true.
Proof.
  intros H. induction a as [|c a IH]; [exact H|].
  change (String.append (String c a) b) with (String c (String.append a b)).
  cbn [contains]. destruct (startswith sub (String c (String.append a b)));
    [reflexivity|exact IH].
Qed.

Lemma pricing_prompt_mentions_bundle median_cost bundle_name min_cost max_cost :
  contains "bundle"
           (lower (PricingAgent.prompt median_cost bundle_name min_cost max_cost))
  = true.
Proof.
  unfold PricingAgent.prompt. rewrite lower_app. apply contains_skip.
  rewrite lower_app. apply contains_skip. rewrite lower_app.
  reflexivity.
Qed.

Lemma bundle_prompt_mentions_bundle products top_products :
  contains "bundle" (lower (BundleAgent.prompt products top_products)) = true.
Proof. unfold BundleAgent.prompt. rewrite lower_app. reflexivity. Qed.

End AgentPrompts.

Section Shape.
Import VertexAI Runs.

Variable env : Sys.Env.
Variable strftime_date : Q -> string.
Variable generate : nat -> string -> string -> Z -> Q -> Q -> outcome SdkResponse.

Lemma when_try {St A} (m : Eff.M St A) (h : exn -> Eff.M St A) (P : A -> Prop) :
  when_returns m P -> (forall e, when_returns (h e) P) ->
  when_returns (Eff.try_except m h) P.
Proof.
  intros Hm Hh st s a st' s' Hrun. unfold Eff.try_except, Sys.bind in Hrun.
  destruct (m st s) as [[[a1|e] st1] s1] eqn:E.
  - injection Hrun as <- _ _. exact (Hm _ _ _ _ _ E).
  - exact (Hh e _ _ _ _ _ Hrun).
Qed.

Lemma when_ret {St A} (a : A) (P : A -> Prop) :
  P a -> when_returns (St := St) (Eff.ret a) P.
Proof. intros H st s a' st' s' Hrun. injection Hrun as <- _ _. exact H. Qed.

Lemma fallback_response_shaped prompt model :
  when_returns (_fallback_response prompt model)
               (fun r => r = fallback_response_result prompt model).
Proof.
  intros self s r self' s' Hrun. unfold _fallback_response in Hrun.
  plumbing_in Hrun. injection Hrun as <- _ _. reflexivity.
Qed.

Lemma fallback_pass_shaped prompt model :
  when_returns (Eff.bind (_fallback_response prompt model)
                         (fun fb => Eff.ret (Return fb)))
               (pass_shaped prompt model).
Proof.
  eapply when_bind; [apply fallback_response_shaped|].
  intros fb ->. apply when_ret. left. reflexivity.
Qed.

Lemma on_exception_shaped prompt model max_retries attempt e :
  when_returns (on_exception env prompt model max_retries attempt e)
               (pass_shaped prompt model).
Proof.
  unfold on_exception.
  eapply when_bind; [apply when_trivial|]. intros _ _.
  eapply when_bind; [apply when_trivial|]. intros self _.
  destruct (failure_count self >=? 5)%Z.
  - eapply when_bind; [apply when_trivial|]. intros _ _.
    eapply when_bind; [apply when_trivial|]. intros _ _.
    apply fallback_pass_shaped.
  - destruct (attempt <? max_retries - 1)%Z.
    + eapply when_bind; [apply when_trivial|]. intros u _. cbv zeta.
      eapply when_bind; [apply when_trivial|]. intros _ _.
      eapply when_bind; [apply when_trivial|]. intros _ _.
      apply when_ret. exact I.
    + eapply when_bind; [apply when_trivial|]. intros _ _.
      apply fallback_pass_shaped.
Qed.

Lemma attempt_body_shaped prompt model max_output_tokens temperature top_p
      max_retries attempt :
  when_returns (attempt_body env strftime_date generate prompt model max_output_tokens
                             temperature top_p max_retries attempt)
               (pass_shaped prompt model).
Proof.
  unfold attempt_body, finish_attempt.
  eapply when_bind; [apply when_trivial|]. intros r _.
  apply when_try; [|intros e; apply on_exception_shaped].
  eapply when_bind; [apply when_trivial|]. intros response _.
  eapply when_bind with (Q := fun result => source result = "vertex_ai"%string).
  - unfold on_response.
    eapply when_bind; [apply when_trivial|]. intros self _.
    eapply when_bind; [apply when_trivial|]. intros _ _.
    eapply when_bind; [apply when_trivial|]. intros cost _. cbv zeta.
    eapply when_bind; [apply when_trivial|]. intros _ _.
    apply when_ret. reflexivity.
  - intros result Hsrc. apply when_ret. right. exact Hsrc.
Qed.

Lemma retry_loop_shaped prompt model max_output_tokens temperature top_p
      max_retries attempts :
  when_returns (retry_loop env strftime_date generate prompt model max_output_tokens
                           temperature top_p max_retries attempts)
               (fun r => match r with
                         | Some result => shaped prompt model result
                         | None => True
                         end).
Proof.
  induction attempts as [|attempt rest IH]; cbn [retry_loop].
  - apply when_ret. exact I.
  - eapply when_bind; [apply attempt_body_shaped|].
    intros [|result] Hc; [exact IH|]. apply when_ret. exact Hc.
Qed.

Lemma call_model_shaped prompt model max_output_tokens temperature top_p max_retries :
  when_returns (call_model env strftime_date generate prompt model max_output_tokens
                           temperature top_p max_retries)
               (shaped prompt model).
Proof.
  unfold call_model.
  eapply when_bind; [apply when_trivial|]. intros self _.
  destruct (use_fallback self).
  - intros st s r st' s' Hrun. left.
    exact (fallback_response_shaped prompt model _ _ _ _ _ Hrun).
  - eapply when_bind; [apply when_trivial|]. intros _ _.
    eapply when_bind; [apply retry_loop_shaped|].
    intros [result|] Hr; [apply when_ret; exact Hr|].
    intros st s r st' s' Hrun. left.
    exact (fallback_response_shaped prompt model _ _ _ _ _ Hrun).
Qed.

(** X17.  Whenever [call_model] answers the prompt of the pricing agent
    with a result marked "fallback", the text is the sentence about bundles
    ("Suggested bundle: ..."), never the one about pricing: the prompt always
    holds "Bundle:", and the fallback looks for "bundle" first.  The prompt
    of the bundle agent gets the same sentence.  This holds whatever the
    costs, the names and the lists that the prompts interpolate. *)
Theorem agents_get_bundle_answer :
  forall (median_cost bundle_name min_cost max_cost products top_products : string)
         (model : string) (max_output_tokens : Z) (temperature top_p : Q)
         (max_retries : Z) (self self' : t) (s s' : Sys.t) (r : CallResult),
    let pricing := PricingAgent.prompt median_cost bundle_name min_cost max_cost in
    let bundle := BundleAgent.prompt products top_products in
    (call_model env strftime_date generate pricing model max_output_tokens
                temperature top_p max_retries self s = (Returns r, self', s') ->
     source r = "fallback"%string ->
     text r = "Suggested bundle: CRM+Support with expected uplift 8%"%string)
    /\ (call_model env strftime_date generate bundle model max_output_tokens
                   temperature top_p max_retries self s = (Returns r, self', s') ->
        source r = "fallback"%string ->
        text r = "Suggested bundle: CRM+Support with expected uplift 8%"%string).
Proof.
  intros median_cost bundle_name min_cost max_cost products top_products model
         max_output_tokens temperature top_p max_retries self self' s s' r
         pricing bundle.
  assert (Hanswer : forall prompt,
             contains "bundle" (lower prompt) = true ->
             call_model env strftime_date generate prompt model max_output_tokens
                        temperature top_p max_retries self s = (Returns r, self', s') ->
             source r = "fallback"%string ->
             text r = "Suggested bundle: CRM+Support with expected uplift 8%"%string).
  { intros prompt Hin Hrun Hsrc.
    destruct (call_model_shaped _ _ _ _ _ _ _ _ _ _ _ Hrun) as [Hfb|Hlive];
      [|rewrite Hlive in Hsrc; discriminate].
    rewrite Hfb. cbn [fallback_response_result text]. unfold LlmClient.fallback_text.
    rewrite Hin. reflexivity. }
  split.
  - apply Hanswer. apply pricing_prompt_mentions_bundle.
  - apply Hanswer. apply bundle_prompt_mentions_bundle.
Qed.

End Shape.

Section ShapeSamples.
Import VertexAI Runs Samples.

Lemma agents_get_bundle_answer_witness :
  exists r s',
    call_model quiet calendar outage
               (PricingAgent.prompt "47.50" "CRM+Support" "12.00" "93.10")
               "gemini-2.0-flash" 256 0.7 0.95 3 tripped_client (boot 100)
    = (Returns r, tripped_client, s')
    /\ source r = "fallback"%string
    /\ text r = "Suggested bundle: CRM+Support with expected uplift 8%"%string.
Proof.
  eexists. eexists.
  assert (Hrun : call_model quiet calendar outage
                   (PricingAgent.prompt "47.50" "CRM+Support" "12.00" "93.10")
                   "gemini-2.0-flash" 256 0.7 0.95 3 tripped_client (boot 100)
                 = (Returns (fallback_response_result
                               (PricingAgent.prompt "47.50" "CRM+Support" "12.00" "93.10")
                               "gemini-2.0-flash"),
                    tripped_client, snd (Sys.sleep 0.1 (boot 100))))
    by reflexivity.
  split; [exact Hrun|]. split; [reflexivity|].
  exact (proj1 (agents_get_bundle_answer quiet calendar outage
                  "47.50" "CRM+Support" "12.00" "93.10" "[]" "[]"
                  "gemini-2.0-flash" 256 0.7 0.95 3 tripped_client tripped_client
                  (boot 100) (snd (Sys.sleep 0.1 (boot 100)))
                  (fallback_response_result
                     (PricingAgent.prompt "47.50" "CRM+Support" "12.00" "93.10")
                     "gemini-2.0-flash"))
                Hrun eq_refl).
Defined.

End ShapeSamples.

(** ** An attempt of [call_llm] that goes through *)

Section LlmAnswer.
Import LlmClient Runs.

Variable env : Sys.Env.
Variable gemini : nat -> string -> Z -> Q -> outcome Response.

Lemma check_budget_allows cost bt s :
  monotone_clock env ->
  0 <= BudgetTracker.daily_spent bt ->
  BudgetTracker.daily_spent bt + cost <= BudgetTracker.daily_budget bt ->
  exists bt1 s1,
    BudgetTracker.check_budget env cost bt s = (true, bt1, s1)
    /\ BudgetTracker.daily_budget bt1 = BudgetTracker.daily_budget bt
    /\ BudgetTracker.model_costs bt1 = BudgetTracker.model_costs bt
    /\ (BudgetTracker.daily_spent bt1 = BudgetTracker.daily_spent bt
        \/ BudgetTracker.daily_spent bt1 = 0)
    /\ Sys.provider_calls s1 = Sys.provider_calls s
    /\ Sys.clock s <= Sys.clock s1.
Proof.
  intros Hm Hspent Hfit.
  pose proof (reset_window env bt s) as (_ & Hb & Hp & Hreset & Hkeep).
  pose proof (reset_spends env bt s) as Hpc.
  pose proof (reset_advances env Hm bt s) as Hclock.
  unfold BudgetTracker.check_budget, Sys.bind.
  destruct (BudgetTracker._reset_if_needed env bt s) as [bt1 s1]. cbn [fst snd] in *.
  specialize (Hpc bt1 s1 eq_refl). specialize (Hclock bt1 s1 eq_refl).
  assert (Hcase : BudgetTracker.daily_spent bt1 = BudgetTracker.daily_spent bt
                  \/ BudgetTracker.daily_spent bt1 = 0).
  { destruct (Qlt_le_dec (BudgetTracker.reset_time bt) (fst (Sys.time_time env s)))
      as [Hlt|Hle].
    - right. exact (Hreset Hlt).
    - left. specialize (Hkeep Hle). injection Hkeep as -> _. reflexivity. }
  exists bt1, s1. cbn [Sys.ret].
  assert (Hok : Qle_bool (BudgetTracker.daily_spent bt1 + cost)
                         (BudgetTracker.daily_budget bt1) = true).
  { apply Qle_bool_iff. rewrite Hb. destruct Hcase as [-> | ->]; lra. }
  rewrite Hok. repeat split; try assumption. lia.
Qed.

Lemma acquire_grants_full rl s :
  monotone_clock env ->
  bucket_ok rl s ->
  1 <= RateLimiter.tokens rl ->
  exists rl1 s1,
    RateLimiter.acquire env rl s = (true, rl1, s1)
    /\ Sys.provider_calls s1 = Sys.provider_calls s.
Proof.
  intros Hm ((Hlo & Hhi) & Hc & Hl) Hone.
  unfold RateLimiter.acquire, RateLimiter._refill, Sys.bind, Sys.time_time, Sys.ret.
  cbn [fst snd RateLimiter.tokens RateLimiter.max_tokens RateLimiter.calls_per_minute
       RateLimiter.last_refill].
  match goal with |- context [Qge_bool ?b 1] => set (balance := b) end.
  assert (Hb : 1 <= balance).
  { apply Q.min_glb; [lra|].
    pose proof (rate_nonneg (RateLimiter.calls_per_minute rl) Hc) as Hrate.
    specialize (Hm (Sys.reads s)).
    assert (Hadd : 0 <= (Sys.clock s + Sys.drift env (Sys.reads s)
                         - RateLimiter.last_refill rl)
                        * (inject_Z (RateLimiter.calls_per_minute rl) / 60)).
    { apply Qmult_le_0_compat; [lra|exact Hrate]. }
    lra. }
  apply Qge_bool_true in Hb. rewrite Hb.
  eexists. eexists. split; reflexivity.
Qed.

Lemma record_usage_charges model tokens bt s :
  ~ BudgetTracker.daily_budget bt == 0 ->
  let charge := inject_Z tokens / 1000 * BudgetTracker.price bt model in
  exists bt1 s1,
    BudgetTracker.record_usage env model tokens bt s = (Returns tt, bt1, s1)
    /\ (BudgetTracker.daily_spent bt1 = BudgetTracker.daily_spent bt + charge
        \/ BudgetTracker.daily_spent bt1 = 0 + charge)
    /\ Sys.provider_calls s1 = Sys.provider_calls s.
Proof.
  intros Hbudget charge. subst charge.
  pose proof (reset_window env bt s) as (_ & Hb & Hp & Hreset & Hkeep).
  pose proof (reset_spends env bt s) as Hpc.
  unfold BudgetTracker.record_usage, Sys.bind.
  destruct (BudgetTracker._reset_if_needed env bt s) as [bt1 s1]. cbn [fst snd] in *.
  specialize (Hpc bt1 s1 eq_refl).
  assert (Hcase : BudgetTracker.daily_spent bt1 = BudgetTracker.daily_spent bt
                  \/ BudgetTracker.daily_spent bt1 = 0).
  { destruct (Qlt_le_dec (BudgetTracker.reset_time bt) (fst (Sys.time_time env s)))
      as [Hlt|Hle].
    - right. exact (Hreset Hlt).
    - left. specialize (Hkeep Hle). injection Hkeep as -> _. reflexivity. }
  assert (Hprice : BudgetTracker.price bt1 model = BudgetTracker.price bt model).
  { unfold BudgetTracker.price. rewrite Hp. reflexivity. }
  rewrite Hprice.
  cbn [BudgetTracker.set_spent BudgetTracker.daily_budget BudgetTracker.daily_spent].
  rewrite Hb.
  assert (Hz : Qeq_bool (BudgetTracker.daily_budget bt) 0 = false).
  { destruct (Qeq_bool (BudgetTracker.daily_budget bt) 0) eqn:E; [|reflexivity].
    apply Qeq_bool_iff in E. contradiction. }
  rewrite Hz.
  match goal with |- context [if ?b then _ else _] => destruct b end;
    cbn [Sys.emit Sys.ret fst snd];
    (eexists; eexists; split; [reflexivity|];
     cbn [BudgetTracker.daily_spent Sys.provider_calls];
     split; [destruct Hcase as [-> | ->]; [left|right]; reflexivity|lia]).
Qed.


End LlmAnswer.

Section LlmAnswerSamples.
Import LlmClient Runs Samples.


End LlmAnswerSamples.

(** ** The report on the configuration and the switch of [call_llm] *)

Section Config.
Import LlmConfig.

(** X19.  [validate_llm_config] reports ready in every environment.  Its
    mode is "gemini" exactly when [USE_GEMINI] is "1" and both
    [GOOGLE_CLOUD_PROJECT] and [GOOGLE_APPLICATION_CREDENTIALS] are set and
    not empty, and "fallback" otherwise (never "unknown").  A report of
    "gemini" means the switch of [call_llm] is on, but not the other way
    round: with [USE_GEMINI] at "1" and the project or the credentials
    missing the report says "fallback" while the switch of [call_llm] is
    on. *)
Theorem validate_llm_config_report :
  forall (env : Sys.Env),
    let status := validate_llm_config env in
    let credentials :=
      VertexAI.truthy (Sys.getenv env "GOOGLE_CLOUD_PROJECT")
      && VertexAI.truthy (Sys.getenv env "GOOGLE_APPLICATION_CREDENTIALS") in
    ready status = true
    /\ mode status = (if use_gemini_is_1 env && credentials then "gemini" else "fallback")
    /\ LlmClient.gemini_enabled env true = use_gemini_is_1 env
    /\ (mode status = "gemini" -> LlmClient.gemini_enabled env true = true)
    /\ (Sys.getenv env "USE_GEMINI" = Some "1" ->
        credentials = false ->
        mode status = "fallback" /\ LlmClient.gemini_enabled env true = true).
Proof.
  intros env status credentials. subst status credentials.
  unfold validate_llm_config, LlmClient.gemini_enabled, use_gemini_is_1.
  destruct (Sys.getenv env "USE_GEMINI") as [v|];
    [destruct (String.eqb v "1") eqn:Hv|];
    destruct (VertexAI.truthy (Sys.getenv env "GOOGLE_CLOUD_PROJECT"));
    destruct (VertexAI.truthy (Sys.getenv env "GOOGLE_APPLICATION_CREDENTIALS"));
    cbn; repeat split; intros; try reflexivity; try discriminate;
    match goal with
    | H : Some _ = Some _ |- _ => injection H as ->; cbn in Hv; discriminate
    end.
Qed.

End Config.
